(** * Voxlor agent pipeline: a shallow embedding of the TypeScript agents

    The development follows the sources of the repository:

    - [OptimizerAgent.ts]  rewrite passes and the three scores;
    - [ResearchAgent.ts]   keyword extraction, the search fallback chain,
                           relevance scoring and the summary;
    - [PlannerAgent.ts]    plan parsing, the fallback plan and refinement;
    - [CodeAgent.ts]       code generation with its per-part fallbacks;
    - [DeployAgent.ts]     deploy, status check and rollback per platform;
    - [VoxlorOrchestrator.ts] the five-stage run.

    Conventions of the embedding.

    - A JavaScript string is a [string]: a sequence of code units, here in
      the range 0..255.  The two marks of the log lines of the orchestrator,
      which lie outside that range, stand in the literals as the code writes
      them, that is as the bytes of their UTF-8 form.
    - An [async] method whose awaits are sequential is a function into
      [result]: [Normal v] when the promise resolves with [v], [Throw e]
      when it rejects (or the method throws).  [try]/[catch] is a [match]
      on that outcome.
    - Everything outside the process (text generation, HTTP, the file
      system, the clock, the environment) and the engine built-ins that the
      code calls on arbitrary text ([JSON.parse], [RegExp] on a pattern that
      is not a plain word) are fields of a record [World]; every theorem
      quantifies over it.  A payload decoded by [JSON.parse] is taken at the
      TypeScript type the code gives it.
    - A JavaScript object used as a map from names to texts is an association
      list in property enumeration order.
    - The integers of the scores and of the lint positions are in [Z]; the
      relevance, a sum of tenths, is an exact rational in [Q], where the
      code adds in binary64: the two sums can differ in the last place.
    - The methods that no stage of the run calls ([updateKnowledgeBase],
      [researchSpecificTopic], [getSimilarApps], [CodeAgent.optimizeCode])
      take what they reach outside the process as records of their own:
      [KnowledgeBase.Store], [Enhancement.Analyst], [CodeFeedback.Optimizer]. *)

From Stdlib Require Import String Ascii List ZArith QArith Qminmax Lia Bool Arith.
From Stdlib Require Import DecimalString.
From Stdlib Require Import Sorted Permutation.
Import ListNotations.

#[local] Close Scope Q_scope.
#[local] Open Scope list_scope.
#[local] Open Scope string_scope.
#[local] Open Scope nat_scope.

(** ** JavaScript string primitives *)

Module JS.

(** The line feed and the double quote, which have no escape in a literal. *)
Definition nl_char : ascii := "010"%char.
Definition nl : string := String nl_char "".
Definition dq : string := String "034"%char "".

(** [s.length] *)
Definition length (s : string) : nat := String.length s.

(** [s.startsWith(p)] *)
Definition startsWith (s p : string) : bool := prefix p s.

(** The text left after the first [n] code units. *)
Fixpoint drop (n : nat) (s : string) : string :=
  match n, s with
  | O, _ => s
  | S _, "" => ""
  | S k, String _ s' => drop k s'
  end.

(** [s.includes(sub)] *)
Fixpoint includes (s sub : string) : bool :=
  prefix sub s ||
  match s with
  | "" => false
  | String _ s' => includes s' sub
  end.

(** GetSubstitution for a string pattern (no captures): [$$], [$&], [$`]
    and [$'] are expanded, every other [$] stands for itself. *)
Fixpoint expand (tmpl matched before after : string) : string :=
  match tmpl with
  | "" => ""
  | String "$" (String "$" t) => String "$" (expand t matched before after)
  | String "$" (String "&" t) => matched ++ expand t matched before after
  | String "$" (String "`" t) => before ++ expand t matched before after
  | String "$" (String "'" t) => after ++ expand t matched before after
  | String c t => String c (expand t matched before after)
  end.

(** [s.replace(pat, tmpl)] with a string pattern: the first occurrence only.
    [before] is the text already scanned. *)
Fixpoint replace_from (before s pat tmpl : string) : string :=
  if prefix pat s then
    let after := drop (String.length pat) s in
    before ++ expand tmpl pat before after ++ after
  else
    match s with
    | "" => before
    | String c s' => replace_from (before ++ String c "") s' pat tmpl
    end.

Definition replace (s pat tmpl : string) : string := replace_from "" s pat tmpl.

(** [s.split(sep)] for a separator of one code unit. *)
Fixpoint split (s : string) (sep : ascii) : list string :=
  match s with
  | "" => [""]
  | String c s' =>
      if Ascii.eqb c sep then "" :: split s' sep
      else match split s' sep with
           | x :: r => String c x :: r
           | [] => [String c ""]
           end
  end.

(** [l.join(sep)] *)
Definition join (l : list string) (sep : string) : string := String.concat sep l.

(** White space as [\s] and [trim] see it (code units below 256). *)
Definition is_ws (c : ascii) : bool :=
  let n := nat_of_ascii c in
  ((9 <=? n) && (n <=? 13)) || (n =? 32) || (n =? 160).

Fixpoint trimStart (s : string) : string :=
  match s with
  | "" => ""
  | String c s' => if is_ws c then trimStart s' else s
  end.

Fixpoint trimEnd (s : string) : string :=
  match s with
  | "" => ""
  | String c s' =>
      match trimEnd s' with
      | "" => if is_ws c then "" else String c ""
      | r => String c r
      end
  end.

(** [s.trim()] *)
Definition trim (s : string) : string := trimEnd (trimStart s).

(** [s.toLowerCase()] on code units below 256. *)
Definition lower_char (c : ascii) : ascii :=
  let n := nat_of_ascii c in
  if ((65 <=? n) && (n <=? 90)) ||
     ((192 <=? n) && (n <=? 222) && negb (n =? 215))
  then ascii_of_nat (n + 32) else c.

Fixpoint toLowerCase (s : string) : string :=
  match s with
  | "" => ""
  | String c s' => String (lower_char c) (toLowerCase s')
  end.

(** The upper case of a code unit, when it is one code unit of the range.
    The units 181 and 255, whose upper case lies outside the range, and
    223, whose upper case is two units, are left as they are: no other
    unit has them as its upper case, so that two units have the same
    [upper_char] exactly when a pattern with the flag [i] takes one for the
    other. *)
Definition upper_char (c : ascii) : ascii :=
  let n := nat_of_ascii c in
  if ((97 <=? n) && (n <=? 122)) ||
     ((224 <=? n) && (n <=? 254) && negb (n =? 247))
  then ascii_of_nat (n - 32) else c.

(** [c.toUpperCase()] for a string of one code unit: the sharp s, 223,
    becomes [SS].  (The upper case of 181 and of 255 cannot be written with
    the code units of the model; they stay.) *)
Definition upper_unit (c : ascii) : string :=
  if nat_of_ascii c =? 223 then "SS" else String (upper_char c) "".

(** The longest prefix of code units satisfying [p], and the rest. *)
Fixpoint span (p : ascii -> bool) (s : string) : string * string :=
  match s with
  | "" => ("", "")
  | String c s' =>
      if p c then let (a, b) := span p s' in (String c a, b) else ("", s)
  end.

(** [s.indexOf(sub)]: the first index, or -1. *)
Fixpoint index_from (i : Z) (s sub : string) : Z :=
  if prefix sub s then i
  else match s with
       | "" => (-1)%Z
       | String _ s' => index_from (i + 1)%Z s' sub
       end.

Definition indexOf (s sub : string) : Z := index_from 0%Z s sub.

(** An integer as a template literal prints it. *)
Definition show (z : Z) : string := NilZero.string_of_int (Z.to_int z).

(** A value is truthy: for a string, it is not empty. *)
Definition truthy (s : string) : bool := negb (s =? "")%string.

End JS.

(** ** Vocabulary of the statements about texts *)

Module Text.
Import JS.

(** Every code unit of [s] satisfies [p]. *)
Fixpoint all_chars (p : ascii -> bool) (s : string) : bool :=
  match s with
  | "" => true
  | String c s' => p c && all_chars p s'
  end.

(** [s] holds no line feed: it is a single line. *)
Definition one_line (s : string) : bool :=
  all_chars (fun c => negb (Ascii.eqb c nl_char)) s.

(** A line is blank when it is empty or holds white space only, which is
    what [line.trim() === ''] tests. *)
Definition blank (line : string) : Prop := trim line = "".

(** The lines of a text; the empty text has none. *)
Definition lines (text : string) : list string :=
  match text with
  | "" => []
  | _ => split text nl_char
  end.

Definition no_blank_lines (text : string) : Prop :=
  Forall (fun line => ~ blank line) (lines text).

End Text.


(** ** Outcomes of calls that can throw *)

(** What a [catch] clause receives: an [Error] object (of any subclass) with
    its message, or a thrown value that is not an [Error]. *)
Inductive exn : Type :=
| JsError (name message : string)
| NonError.

Definition Error (message : string) : exn := JsError "Error" message.
Definition SyntaxError (message : string) : exn := JsError "SyntaxError" message.

(** [error instanceof Error ? error.message : 'Unknown error'] *)
Definition error_message (e : exn) : string :=
  match e with
  | JsError _ m => m
  | NonError => "Unknown error"
  end.

Inductive result (A : Type) : Type :=
| Normal (a : A)
| Throw (e : exn).
Arguments Normal {A} a.
Arguments Throw {A} e.

Definition bind {A B : Type} (r : result A) (k : A -> result B) : result B :=
  match r with
  | Normal a => k a
  | Throw e => Throw e
  end.

Notation "'let*' x ':=' r 'in' k" := (bind r (fun x => k))
  (at level 10, x pattern, r at level 100, k at level 200).

(** [try { body } catch (error) { handler }] *)
Definition try_catch {A : Type} (body : result A) (handler : exn -> result A) : result A :=
  match body with
  | Normal a => Normal a
  | Throw e => handler e
  end.

(** ** The generated code bundle ([CodeAgent.ts], interface [GeneratedCode]) *)

(** [{ [key: string]: string }] in property enumeration order. *)
Definition dict : Type := list (string * string).

(** [Object.values] *)
Definition values (d : dict) : list string := map snd d.

(** [Object.keys(d).forEach(k => { ... d[k] = f(k, d[k]) })]: every entry is
    overwritten in place, the keys and their order stay. *)
Definition update_each (f : string -> string -> string) (d : dict) : dict :=
  map (fun kv => (fst kv, f (fst kv) (snd kv))) d.

Record Frontend : Type := {
  components : dict;
  pages : dict;
  styles : dict;
  frontend_config : dict
}.

Record Backend : Type := {
  routes : dict;
  models : dict;
  middleware : dict;
  backend_config : dict
}.

Record Database : Type := {
  schema : string;
  migrations : list string;
  seeds : list string
}.

Record Deployment : Type := {
  dockerfile : string;
  dockerCompose : string;
  vercelConfig : dict
}.

Record GeneratedCode : Type := {
  frontend : Frontend;
  backend : Backend;
  database : Database;
  deployment : Deployment
}.

(** ** [OptimizerAgent.ts] *)

Module OptimizerAgent.
Import JS.

(** [line.match(/import\s*{([^}]+)}\s*from/)]: the first capture of the
    leftmost match.  Each piece of the pattern can match in one way only, so
    a position either matches or does not. *)
Definition import_match_here (s : string) : option string :=
  if prefix "import" s then
    match trimStart (drop 6 s) with
    | String "{" r =>
        let (g, r') := span (fun c => negb (Ascii.eqb c "}"%char)) r in
        match g, r' with
        | String _ _, String "}" r'' =>
            if prefix "from" (trimStart r'') then Some g else None
        | _, _ => None
        end
    | _ => None
    end
  else None.

Fixpoint import_match (s : string) : option string :=
  match import_match_here s with
  | Some g => Some g
  | None =>
      match s with
      | "" => None
      | String _ s' => import_match s'
      end
  end.

(** [importMatch[1].split(',').map(imp => imp.trim())] *)
Definition import_names (g : string) : list string := map trim (split g ","%char).

(** The global replace of the image tags: a match is [<img], the longest run
    of code units other than [>] (the capture [$1]), and [>]; it becomes
    [<img], the capture and the [loading] attribute with [/>].
    [skip] counts the code units of a match that are still to be passed. *)
Definition lazy_attr : string := " loading=" ++ dq ++ "lazy" ++ dq ++ " />".

Fixpoint lazy_images_from (skip : nat) (s : string) : string :=
  match s with
  | "" => ""
  | String c s' =>
      match skip with
      | S k => lazy_images_from k s'
      | O =>
          if prefix "<img" s then
            let (g, r) := span (fun c => negb (Ascii.eqb c ">"%char)) (drop 4 s) in
            match r with
            | String ">" _ =>
                "<img" ++ g ++ lazy_attr ++ lazy_images_from (3 + String.length g + 1) s'
            | _ => String c (lazy_images_from 0 s')
            end
          else String c (lazy_images_from 0 s')
      end
  end.

Definition lazy_images (s : string) : string := lazy_images_from 0 s.

(** [removeUnusedImports] *)
Definition used_imports (content : string) (lines : list string) : list string :=
  flat_map
    (fun line =>
       match import_match line with
       | Some g =>
           filter (fun imp => includes content imp && negb (includes imp "*"))
                  (import_names g)
       | None => []
       end)
    lines.

Definition has (set : list string) (x : string) : bool :=
  existsb (String.eqb x) set.

Definition rewrite_import_line (usedImports : list string) (line : string) : string :=
  match import_match line with
  | Some g =>
      let imports := import_names g in
      let usedImportsInLine := filter (has usedImports) imports in
      if List.length usedImportsInLine =? 0 then ""
      else if List.length usedImportsInLine <? List.length imports then
        replace line ("{" ++ g ++ "}") ("{" ++ join usedImportsInLine ", " ++ "}")
      else line
  | None => line
  end.

Definition not_blank (line : string) : bool := negb (trim line =? "")%string.

Definition removeUnusedImports (content : string) : string :=
  let lines := split content nl_char in
  let usedImports := used_imports content lines in
  join (filter not_blank (map (rewrite_import_line usedImports) lines)) nl.

(** The body of the first [forEach] of [optimizePerformance]: one frontend
    component. *)
Definition strip_ext (filename : string) : string :=
  replace (replace filename ".tsx" "") ".ts" "".

Definition optimizeComponent (filename content : string) : string :=
  (* Add React.memo for performance *)
  let content :=
    if includes content "export default" && negb (includes content "React.memo")
    then replace content "export default" "export default React.memo(" ++ ")"
    else content in
  (* Add useMemo and useCallback where appropriate *)
  let content :=
    if includes content "useState" && negb (includes content "useMemo")
    then replace content "import React" "import React, { useMemo, useCallback }"
    else content in
  (* Add lazy loading for large components *)
  let content :=
    if (1000 <? length content) && negb (includes content "lazy")
    then replace content "import React" "import React, { lazy, Suspense }"
    else content in
  (* Optimize images with lazy loading *)
  let content := lazy_images content in
  (* Add code splitting for large components *)
  let content :=
    if includes content "export default" && (2000 <? length content)
    then
      let componentName := strip_ext filename in
      replace content ("export default " ++ componentName)
        ("const " ++ componentName ++ " = lazy(() => import('./" ++ componentName
           ++ "'));" ++ nl ++ "export default " ++ componentName)
    else content in
  (* Optimize bundle size by removing unused imports *)
  removeUnusedImports content.

(** The body of the second [forEach]: one backend route. *)
Definition optimizeRoute (content : string) : string :=
  (* Add caching headers *)
  let content :=
    if includes content "res.json" && negb (includes content "Cache-Control")
    then replace content "res.json("
           ("res.set(" ++ dq ++ "Cache-Control" ++ dq ++ ", " ++ dq
              ++ "public, max-age=300" ++ dq ++ ");" ++ nl ++ "    res.json(")
    else content in
  (* Add compression *)
  let content :=
    if negb (includes content "compression")
    then
      let content := "import compression from " ++ dq ++ "compression" ++ dq ++ ";"
                       ++ nl ++ content in
      replace content "app.use(express.json())"
        ("app.use(compression());" ++ nl ++ "app.use(express.json())")
    else content in
  (* Add rate limiting *)
  let content :=
    if negb (includes content "rateLimit")
    then
      let content := "import rateLimit from " ++ dq ++ "express-rate-limit" ++ dq ++ ";"
                       ++ nl ++ content in
      replace content "app.use(express.json())"
        ("app.use(rateLimit({ windowMs: 15 * 60 * 1000, max: 100 }));" ++ nl
           ++ "app.use(express.json())")
    else content in
  content.

Definition optimizePerformance (code : GeneratedCode) : GeneratedCode :=
  let fe := frontend code in
  let be := backend code in
  {| frontend := {| components := update_each optimizeComponent (components fe);
                    pages := pages fe;
                    styles := styles fe;
                    frontend_config := frontend_config fe |};
     backend := {| routes := update_each (fun _ => optimizeRoute) (routes be);
                   models := models be;
                   middleware := middleware be;
                   backend_config := backend_config be |};
     database := database code;
     deployment := deployment code |}.

(** The three scores.  Each [forEach] body subtracts its penalties from the
    running score. *)
Definition penalty (b : bool) (p : Z) : Z := if b then p else 0%Z.

Definition performance_step (score : Z) (content : string) : Z :=
  (score - penalty (includes content "console.log") 5
         - penalty (includes content "useEffect" && negb (includes content "[]")) 10
         - penalty (negb (includes content "React.memo")) 5)%Z.

Definition calculatePerformanceScore (code : GeneratedCode) : Z :=
  Z.max 0 (fold_left performance_step (values (components (frontend code))) 100%Z).

Definition security_step (score : Z) (content : string) : Z :=
  (score - penalty (negb (includes content "cors")) 10
         - penalty (negb (includes content "validate")) 15
         - penalty (includes content "eval(") 50
         - penalty (includes content "innerHTML") 20)%Z.

Definition calculateSecurityScore (code : GeneratedCode) : Z :=
  Z.max 0 (fold_left security_step (values (routes (backend code))) 100%Z).

Definition maintainability_step (score : Z) (content : string) : Z :=
  (score - penalty (negb (includes content "interface")) 10
         - penalty (includes content "any") 5
         - penalty (500 <? length content)%nat 5)%Z.

Definition calculateMaintainabilityScore (code : GeneratedCode) : Z :=
  Z.max 0 (fold_left maintainability_step (values (components (frontend code))) 100%Z).

(** *** The whole run: [optimizeCode] *)

Inductive severity : Type := error | warning | info.

Record LintError : Type := {
  line : nat;
  column : Z;
  message : string;
  lint_severity : severity
}.

Record LintResult : Type := {
  lint_file : string;
  errors : list LintError
}.

Record Test : Type := {
  test_name : string;
  test_passed : bool
}.

Record TestResult : Type := {
  test_file : string;
  passed : bool;
  coverage : Z;
  tests : list Test
}.

Record OptimizationResult : Type := {
  success : bool;
  optimizedCode : GeneratedCode;
  improvements : list string;
  issues : list string;
  performanceScore : Z;
  securityScore : Z;
  maintainabilityScore : Z
}.

(** The body of the [forEach] of [lintFile] for one line. *)
Definition lint_line (content : string) (lineNumber : nat) (line : string)
    : list LintError :=
  (if includes line "console.log"
   then [ {| line := lineNumber; column := indexOf line "console.log";
             message := "Remove console.log statements in production code";
             lint_severity := warning |} ]
   else [])
  ++
  (if includes line "TODO" || includes line "FIXME"
   then [ {| line := lineNumber;
             column := if (indexOf line "TODO" =? 0)%Z then indexOf line "FIXME"
                       else indexOf line "TODO";
             message := "Address TODO/FIXME comments";
             lint_severity := info |} ]
   else [])
  ++
  (if includes line "import" && includes line "{" && includes line "}"
   then match import_match line with
        | Some g =>
            flat_map
              (fun imp =>
                 if negb (includes content imp) && negb (includes imp "*")
                 then [ {| line := lineNumber; column := indexOf line imp;
                           message := "Unused import: " ++ imp;
                           lint_severity := warning |} ]
                 else [])
              (import_names g)
        | None => []
        end
   else []).

Fixpoint lint_lines (content : string) (lineNumber : nat) (lines : list string)
    : list LintError :=
  match lines with
  | [] => []
  | l :: rest => lint_line content lineNumber l ++ lint_lines content (S lineNumber) rest
  end.

Definition lintFile (filename content : string) : LintResult :=
  {| lint_file := filename;
     errors := lint_lines content 1 (split content nl_char) |}.

Definition lint_dict (d : dict) : list LintResult :=
  filter (fun r => 0 <? List.length (errors r))
         (map (fun kv => lintFile (fst kv) (snd kv)) d).

Definition runLinting (code : GeneratedCode) : list LintResult :=
  lint_dict (components (frontend code))
  ++ lint_dict (pages (frontend code))
  ++ lint_dict (routes (backend code)).

Definition calculateCoverage (content : string) : Z :=
  let hasTests := includes content "test" || includes content "spec" in
  let hasErrorHandling :=
    includes content "try" || includes content "catch" || includes content "error" in
  let hasValidation := includes content "validate" || includes content "check" in
  let coverage := 60%Z (* Base coverage *) in
  let coverage := if hasTests then (coverage + 20)%Z else coverage in
  let coverage := if hasErrorHandling then (coverage + 10)%Z else coverage in
  let coverage := if hasValidation then (coverage + 10)%Z else coverage in
  Z.min coverage 95.

Definition test_if (b : bool) (name : string) : list Test :=
  if b then [ {| test_name := name; test_passed := true |} ] else [].

Definition generateRealTests (componentName content : string) : list Test :=
  [ {| test_name := componentName ++ " renders without crashing"; test_passed := true |} ]
  ++ test_if (includes content "interface" && includes content "Props")
             (componentName ++ " accepts props correctly")
  ++ test_if (includes content "useState" || includes content "useReducer")
             (componentName ++ " manages state correctly")
  ++ test_if (includes content "useEffect")
             (componentName ++ " handles side effects")
  ++ test_if (includes content "onClick" || includes content "onChange"
                || includes content "onSubmit")
             (componentName ++ " handles user interactions").

Definition generateAPIRealTests (routeName content : string) : list Test :=
  [ {| test_name := routeName ++ " API endpoint responds"; test_passed := true |} ]
  ++ test_if (includes content "GET" || includes content "POST"
                || includes content "PUT" || includes content "DELETE")
             (routeName ++ " handles HTTP methods correctly")
  ++ test_if (includes content "try" || includes content "catch")
             (routeName ++ " handles errors gracefully")
  ++ test_if (includes content "validate" || includes content "check")
             (routeName ++ " validates input").

Definition generateComponentTest (filename content : string) : TestResult :=
  let tests := generateRealTests (strip_ext filename) content in
  {| test_file := filename; passed := forallb test_passed tests;
     coverage := calculateCoverage content; tests := tests |}.

Definition generateAPITest (filename content : string) : TestResult :=
  let tests := generateAPIRealTests (replace filename ".ts" "") content in
  {| test_file := filename; passed := forallb test_passed tests;
     coverage := calculateCoverage content; tests := tests |}.

Definition runTests (code : GeneratedCode) : list TestResult :=
  map (fun kv => generateComponentTest (fst kv) (snd kv)) (components (frontend code))
  ++ map (fun kv => generateAPITest (fst kv) (snd kv)) (routes (backend code)).

Definition lint_issue (file : string) (e : LintError) : string :=
  file ++ ":" ++ show (Z.of_nat (line e)) ++ ":" ++ show (column e)
       ++ " - " ++ message e.

Definition extractLintIssues (lintResults : list LintResult) : list string :=
  flat_map (fun r => map (lint_issue (lint_file r)) (errors r)) lintResults.

Definition low_coverage_issue (r : TestResult) : string :=
  "Low test coverage in " ++ test_file r ++ ": " ++ show (coverage r) ++ "%".

Definition test_issues (r : TestResult) : list string :=
  (if negb (passed r) then ["Tests failed in " ++ test_file r] else [])
  ++ (if (coverage r <? 80)%Z then [low_coverage_issue r] else []).

Definition extractTestIssues (testResults : list TestResult) : list string :=
  flat_map test_issues testResults.

(** The body of the [forEach] of [optimizeSecurity]. *)
Definition secureRoute (content : string) : string :=
  (* Add input validation *)
  let content :=
    if includes content "req.body" && negb (includes content "validate")
    then replace content "req.body" "validateInput(req.body)"
    else content in
  (* Add CORS headers *)
  let content :=
    if negb (includes content "cors")
    then
      let content := "import cors from " ++ dq ++ "cors" ++ dq ++ ";" ++ nl ++ content in
      replace content "app.use(express.json())"
        ("app.use(cors());" ++ nl ++ "app.use(express.json())")
    else content in
  content.

Definition with_routes (code : GeneratedCode) (rs : dict) : GeneratedCode :=
  {| frontend := frontend code;
     backend := {| routes := rs; models := models (backend code);
                   middleware := middleware (backend code);
                   backend_config := backend_config (backend code) |};
     database := database code;
     deployment := deployment code |}.

Definition with_components (code : GeneratedCode) (cs : dict) : GeneratedCode :=
  {| frontend := {| components := cs; pages := pages (frontend code);
                    styles := styles (frontend code);
                    frontend_config := frontend_config (frontend code) |};
     backend := backend code;
     database := database code;
     deployment := deployment code |}.

Definition optimizeSecurity (code : GeneratedCode) : GeneratedCode :=
  with_routes code (update_each (fun _ => secureRoute) (routes (backend code))).

(** The body of the [forEach] of [optimizeMaintainability]. *)
Definition typeComponent (filename content : string) : string :=
  if includes content "props" && negb (includes content "interface")
  then nl ++ "interface " ++ replace filename ".tsx" "" ++ "Props {" ++ nl
         ++ "  // Define props here" ++ nl ++ "}" ++ nl ++ nl ++ content
  else content.

Definition optimizeMaintainability (code : GeneratedCode) : GeneratedCode :=
  with_components code (update_each typeComponent (components (frontend code))).

(** Nothing in the [try] block of [optimizeCode] can throw on a bundle of
    texts, so its [catch] clause, which would report [success: false], is
    not reached. *)
Definition optimizeCode (code : GeneratedCode) : OptimizationResult :=
  let lintResults := runLinting code in
  let testResults := runTests code in
  let optimized :=
    optimizeMaintainability (optimizeSecurity (optimizePerformance code)) in
  {| success := true;
     optimizedCode := optimized;
     improvements := [ "Performance optimizations applied";
                       "Security improvements applied";
                       "Code maintainability improved" ];
     issues := extractLintIssues lintResults ++ extractTestIssues testResults;
     performanceScore := calculatePerformanceScore optimized;
     securityScore := calculateSecurityScore optimized;
     maintainabilityScore := calculateMaintainabilityScore optimized |}.

End OptimizerAgent.


(** ** Data of the other agents *)

(** [ResearchAgent.ts]: interfaces [ResearchResult] and [ResearchSummary]. *)
Module ResearchResult.
Record t : Type := {
  url : string;
  title : string;
  content : string;
  relevance : Q;
  insights : list string;
  codePatterns : list string;
  uiPatterns : list string
}.
End ResearchResult.

Module ResearchSummary.
Record t : Type := {
  overallInsights : list string;
  recommendedTechStack : list string;
  designPatterns : list string;
  codeExamples : list string;
  bestPractices : list string;
  potentialIssues : list string
}.
End ResearchSummary.

(** One element selected from a result page: the trimmed text of its title
    and snippet and the [href] of its link, which may be missing. *)
Module Hit.
Record t : Type := {
  title : string;
  href : option string;
  snippet : string
}.
End Hit.

(** [PlannerAgent.ts]: interface [AppPlan]. *)
Module Plan.
Record TechStack : Type := {
  frontend : string;
  backend : string;
  database : string;
  deployment : string
}.
Record Structure : Type := {
  pages : list string;
  components : list string;
  api : list string
}.
Record t : Type := {
  name : string;
  description : string;
  features : list string;
  techStack : TechStack;
  structure : Structure;
  timeline : string;
  (* 'simple' | 'medium' | 'complex' by its type; the parsed text is not checked *)
  complexity : string
}.
End Plan.

(** What [JSON.parse] yields for a plan: every property may be missing. *)
Module PlanData.
Record TechStack : Type := {
  frontend : option string;
  backend : option string;
  database : option string;
  deployment : option string
}.
Record Structure : Type := {
  pages : option (list string);
  components : option (list string);
  api : option (list string)
}.
Record t : Type := {
  name : option string;
  description : option string;
  features : option (list string);
  techStack : option TechStack;
  structure : option Structure;
  timeline : option string;
  complexity : option string
}.
End PlanData.

(** [VoxlorOrchestrator.ts]: interface [AppGenerationRequest]. *)
Module Request.
Record t : Type := {
  prompt : string;
  platform : string;
  features : list string;
  style : string;
  targetAudience : string
}.
End Request.

(** [DeployAgent.ts]: interfaces [DeploymentConfig] and [DeploymentResult],
    and the value of a status check. *)
Module Config.
Record t : Type := {
  platform : string;
  environment : string;
  domain : option string;
  customDomain : option string;
  url : option string
}.
End Config.

Module DeploymentResult.
Record t : Type := {
  success : bool;
  url : option string;
  deploymentId : option string;
  logs : list string;
  errors : list string
}.
End DeploymentResult.

Module Status.
Inductive state : Type := building | ready | error.
Record t : Type := {
  status : state;
  url : option string;
  logs : list string
}.
End Status.

(** What the providers answer, at the properties the code reads. *)
Module Provider.
(* POST /v13/deployments, POST /api/v1/sites: [data.id], [data.url] *)
Record Created : Type := {
  id : string;
  url : option string
}.
(* GET /v13/deployments/:id *)
Record VercelDeployment : Type := {
  readyState : string;
  vercel_url : option string;
  vercel_logs : option (list string);
  projectId : string
}.
(* GET /api/v1/sites/:id *)
Record NetlifySite : Type := {
  state : string;
  site_url : option string;
  deploy_log : option (list string)
}.
(* query { deployment(id) { status url logs } } *)
Record RailwayDeployment : Type := {
  status : string;
  railway_url : option string;
  railway_logs : option (list string)
}.
End Provider.

(** The three prompts of the research agent, the three of the planner and
    the four that [generateCode] sends.  Each is a fixed text around the listed
    arguments. *)
Inductive research_prompt : Type :=
| KeywordPrompt (prompt : string) (plan : option Plan.t)
| KnowledgePrompt (keywords : list string)
| AnalysisPrompt (results : list ResearchResult.t) (originalPrompt : string).

Inductive planner_prompt : Type :=
| PlanAnalysisPrompt (prompt : string)
| PlanningPrompt (prompt analysis : string) (research : option ResearchSummary.t)
| RefinementPrompt (plan : Plan.t) (feedback : string).

Inductive code_prompt : Type :=
| FrontendPrompt (plan : Plan.t)
| BackendPrompt (plan : Plan.t)
| DatabasePrompt (plan : Plan.t)
| DeploymentPrompt (plan : Plan.t).

(** ** The world outside the agents *)

Record World : Type := {
  (* text generation *)
  llama3_generate : research_prompt -> result string;   (* response.content *)
  getModelClient : result unit;
  generateText : planner_prompt -> result string;       (* response.text *)
  codeLlama_generate : code_prompt -> result string;
  (* JSON.parse at each place the code calls it *)
  parse_keywords : string -> result (list string);
  parse_results : string -> result (list ResearchResult.t);
  parse_cache : string -> result (list (string * list ResearchResult.t));
  parse_summary : string -> result ResearchSummary.t;
  parse_plan : string -> result PlanData.t;
  parse_frontend : string -> result Frontend;
  parse_backend : string -> result Backend;
  parse_database : string -> result Database;
  parse_deployment : string -> result Deployment;
  (* new RegExp(p, 'g') for a pattern with special characters that the model
     does not decide: a SyntaxError, or the number of matches in a subject *)
  regexp : string -> result (string -> nat);
  (* the three pattern extractors of a snippet, taken as given *)
  extractInsights : string -> list string;
  extractCodePatterns : string -> list string;
  extractUIPatterns : string -> list string;
  (* the search pages: the query, and for the alternatives the engine *)
  duckduckgo : string -> result (list Hit.t);
  search_engine : string -> string -> result (list Hit.t);
  (* research-cache.json: existsSync, readFileSync *)
  cache_exists : bool;
  cache_read : result string;
  (* process.env and Date.now(), the latter as printed *)
  RAILWAY_TOKEN : option string;
  AWS_ACCESS_KEY_ID : option string;
  AWS_SECRET_ACCESS_KEY : option string;
  AWS_REGION : option string;
  now : string;
  (* the deployment providers; a creation call covers the temporary files,
     the upload and the clean-up of one deploy method *)
  vercel_create : GeneratedCode -> Config.t -> result Provider.Created;
  netlify_stage : GeneratedCode -> Config.t -> result unit;
  netlify_archive : result unit;
  netlify_create : result Provider.Created;
  railway_create : GeneratedCode -> Config.t -> result string;
  aws_publish : string -> GeneratedCode -> Config.t -> result unit;
  vercel_get_deployment : string -> result Provider.VercelDeployment;
  vercel_list_deployments : string -> result (list string);   (* uid, newest first *)
  vercel_promote : string -> result unit;
  netlify_get_site : string -> result Provider.NetlifySite;
  netlify_list_deploys : string -> result (list string);      (* id *)
  netlify_restore : string -> result unit;
  railway_get_deployment : string -> result Provider.RailwayDeployment;
  railway_list_deployments : result (list string);            (* id *)
  railway_rollback : string -> result unit
}.

(** [!x] for an optional string: it is missing or empty. *)
Definition present (x : option string) : bool :=
  match x with
  | Some s => JS.truthy s
  | None => false
  end.

(** [x || d] for an optional string and for an optional list. *)
Definition or_string (x : option string) (d : string) : string :=
  match x with
  | Some s => if JS.truthy s then s else d
  | None => d
  end.

Definition or_list {A : Type} (x : option (list A)) (d : list A) : list A :=
  match x with
  | Some l => l
  | None => d
  end.

(** The text that [/\{[\s\S]*\}/] or [/\[[\s\S]*\]/] matches: from the first
    opening bracket to the last closing bracket after it. *)
Fixpoint from_first (c : ascii) (s : string) : option string :=
  match s with
  | "" => None
  | String d s' => if Ascii.eqb d c then Some s' else from_first c s'
  end.

Fixpoint upto_last (c : ascii) (s : string) : option string :=
  match s with
  | "" => None
  | String d s' =>
      match upto_last c s' with
      | Some r => Some (String d r)
      | None => if Ascii.eqb d c then Some (String d "") else None
      end
  end.

Definition bracket_match (open close : ascii) (s : string) : option string :=
  match from_first open s with
  | Some rest =>
      match upto_last close rest with
      | Some body => Some (String open body)
      | None => None
      end
  | None => None
  end.

Definition json_object_match : string -> option string := bracket_match "{" "}".
Definition json_array_match : string -> option string := bracket_match "[" "]".

(** ** [ResearchAgent.ts] *)

Module ResearchAgent.
Import JS.

(** *** Counting the matches of a keyword

    [new RegExp(keywordLower, 'g')] reads the keyword as a pattern.  The model
    decides two kinds of pattern itself and asks the world for the rest. *)

(** The syntax characters of a pattern. *)
Definition special (c : ascii) : bool :=
  existsb (Ascii.eqb c)
    ["\"; "^"; "$"; "."; "|"; "?"; "*"; "+"; "("; ")"; "["; "]"; "{"; "}"]%char.

Definition quantifier (c : ascii) : bool :=
  existsb (Ascii.eqb c) ["?"; "*"; "+"]%char.

(** A pattern of ordinary characters and quantifiers is a sequence of terms,
    each one character with at most one quantifier, which [?] may follow
    once more to make it lazy.  The states say what came last. *)
Inductive term_state : Type :=
| NothingYet | AfterAtom | AfterQuantifier | AfterLazy.

Fixpoint terms_ok (st : term_state) (p : string) : bool :=
  match p with
  | "" => true
  | String c p' =>
      if quantifier c then
        match st with
        | AfterAtom => terms_ok AfterQuantifier p'
        | AfterQuantifier => Ascii.eqb c "?" && terms_ok AfterLazy p'
        | NothingYet | AfterLazy => false
        end
      else terms_ok AfterAtom p'
  end.

Inductive pattern_kind : Type :=
| Plain        (* no syntax character: the pattern matches itself *)
| Malformed    (* ordinary characters and quantifiers, with nothing to repeat *)
| Other.       (* left to the world *)

Definition classify (p : string) : pattern_kind :=
  if Text.all_chars (fun c => negb (special c)) p then Plain
  else if Text.all_chars (fun c => negb (special c) || quantifier c) p
          && negb (terms_ok NothingYet p)
  then Malformed
  else Other.

(** The matches of a plain pattern: the occurrences found from left to
    right, each search starting where the last match ended; the empty
    pattern matches once at every index, the end included. *)
Fixpoint count_from (skip : nat) (subject k : string) : nat :=
  match subject with
  | "" => 0
  | String _ s' =>
      match skip with
      | S n => count_from n s' k
      | O => if prefix k subject
             then S (count_from (String.length k - 1) s' k)
             else count_from 0 s' k
      end
  end.

Definition count_plain (subject k : string) : nat :=
  match k with
  | "" => S (String.length subject)
  | _ => count_from 0 subject k
  end.

(** [(subject.match(new RegExp(p, 'g')) || []).length] *)
Definition match_count (w : World) (subject p : string) : result nat :=
  match classify p with
  | Plain => Normal (count_plain subject p)
  | Malformed =>
      Throw (SyntaxError ("Invalid regular expression: /" ++ p
                            ++ "/g: Nothing to repeat"))
  | Other => let* count := regexp w p in Normal (count subject)
  end.

(** [calculateRelevance]: the [forEach] adds a tenth per match to the score.
    Numbers are exact rationals here. *)
Fixpoint add_matches (w : World) (contentLower : string) (keywords : list string)
    (score : Q) : result Q :=
  match keywords with
  | [] => Normal score
  | keyword :: rest =>
      let keywordLower := toLowerCase keyword in
      let* matches := match_count w contentLower keywordLower in
      add_matches w contentLower rest (score + inject_Z (Z.of_nat matches) * (1 # 10))%Q
  end.

Definition calculateRelevance (w : World) (content : string) (keywords : list string)
    : result Q :=
  let contentLower := toLowerCase content in
  let* score := add_matches w contentLower keywords 0%Q in
  Normal (Qmin score 1).

(** *** Keywords *)

(** The fallback of [extractKeywords]. *)
Definition simple_keywords (prompt : string) : list string :=
  firstn 5 (filter (fun word => 3 <? length word) (split (toLowerCase prompt) " "%char)).

Definition extractKeywords (w : World) (prompt : string) (plan : option Plan.t)
    : result (list string) :=
  let* content := llama3_generate w (KeywordPrompt prompt plan) in
  let parsed : result (option (list string)) :=
    match json_array_match content with
    | Some jsonMatch => let* ks := parse_keywords w jsonMatch in Normal (Some ks)
    | None => Normal None
    end in
  match parsed with
  | Normal (Some ks) => Normal ks
  | Normal None | Throw _ => Normal (simple_keywords prompt)
  end.

(** *** Turning the elements of a result page into results *)

Definition result_of_hit (w : World) (keywords : list string) (h : Hit.t)
    : result (option ResearchResult.t) :=
  match Hit.href h with
  | Some url =>
      if truthy (Hit.title h) && truthy url && truthy (Hit.snippet h) then
        let snippet := Hit.snippet h in
        let* relevance := calculateRelevance w snippet keywords in
        Normal (Some {|
          ResearchResult.url := if startsWith url "//" then "https:" ++ url else url;
          ResearchResult.title := Hit.title h;
          ResearchResult.content := snippet;
          ResearchResult.relevance := relevance;
          ResearchResult.insights := extractInsights w snippet;
          ResearchResult.codePatterns := extractCodePatterns w snippet;
          ResearchResult.uiPatterns := extractUIPatterns w snippet |})
      else Normal None
  | None => Normal None
  end.

(** The [each] loop: [results] as it stands when the loop ends, and the
    exception if one ended it. *)
Fixpoint collect (w : World) (keywords : list string) (hits : list Hit.t)
    (results : list ResearchResult.t) : list ResearchResult.t * option exn :=
  match hits with
  | [] => (results, None)
  | h :: rest =>
      match result_of_hit w keywords h with
      | Normal (Some r) => collect w keywords rest (results ++ [r])
      | Normal None => collect w keywords rest results
      | Throw e => (results, Some e)
      end
  end.

(** *** The three alternative strategies *)

Definition engines : list string :=
  [ "https://www.startpage.com/sp/search?query=";
    "https://search.yahoo.com/search?p=";
    "https://www.ecosia.org/search?q=" ].

Fixpoint try_engines (w : World) (keywords : list string) (es : list string)
    : list ResearchResult.t :=
  match es with
  | [] => []
  | engine :: rest =>
      let attempt : result (list ResearchResult.t) :=
        let* hits := search_engine w engine (join keywords " ") in
        match collect w keywords (firstn 5 hits) [] with
        | (results, None) => Normal results
        | (_, Some e) => Throw e
        end in
      match attempt with
      | Normal results =>
          if 0 <? List.length results then results else try_engines w keywords rest
      | Throw _ => try_engines w keywords rest
      end
  end.

Definition searchWithAlternativeEngines (w : World) (keywords : list string)
    : result (list ResearchResult.t) :=
  Normal (try_engines w keywords engines).

(** [new Set(l)] keeps the first of equal elements. *)
Fixpoint distinct (l : list string) : list string :=
  match l with
  | [] => []
  | x :: r => x :: filter (fun y => negb (String.eqb x y)) (distinct r)
  end.

Definition calculateQuerySimilarity (query1 query2 : string) : Q :=
  let words1 := distinct (split query1 " "%char) in
  let words2 := distinct (split query2 " "%char) in
  let intersection := filter (fun x => existsb (String.eqb x) words2) words1 in
  let union := distinct (words1 ++ words2) in
  (Z.of_nat (List.length intersection) # Pos.of_nat (List.length union))%Q.

(** [a > b] on numbers. *)
Definition Qgtb (a b : Q) : bool := negb (Qle_bool a b).

Fixpoint similar_entry (query : string)
    (cache : list (string * list ResearchResult.t)) : option (list ResearchResult.t) :=
  match cache with
  | [] => None
  | (cachedQuery, results) :: rest =>
      if Qgtb (calculateQuerySimilarity query cachedQuery) (7 # 10)
      then Some results
      else similar_entry query rest
  end.

Definition searchWithCachedResults (w : World) (keywords : list string)
    : result (list ResearchResult.t) :=
  let attempt : result (option (list ResearchResult.t)) :=
    if cache_exists w then
      let* text := cache_read w in
      let* cache := parse_cache w text in
      let query := toLowerCase (join keywords " ") in
      Normal (similar_entry query cache)
    else Normal None in
  match attempt with
  | Normal (Some results) => Normal results
  | Normal None | Throw _ => Normal []
  end.

Definition searchWithAIKnowledge (w : World) (keywords : list string)
    : result (list ResearchResult.t) :=
  let attempt : result (option (list ResearchResult.t)) :=
    let* content := llama3_generate w (KnowledgePrompt keywords) in
    match json_array_match content with
    | Some jsonMatch => let* rs := parse_results w jsonMatch in Normal (Some rs)
    | None => Normal None
    end in
  match attempt with
  | Normal (Some results) => Normal results
  | Normal None | Throw _ => Normal []
  end.

(** *** The fallback chain *)

(** The [for] loop of [fallbackSearch] over the strategies. *)
Fixpoint first_results (strategies : list (unit -> result (list ResearchResult.t)))
    : list ResearchResult.t :=
  match strategies with
  | [] => []
  | strategy :: rest =>
      match strategy tt with
      | Normal results =>
          if 0 <? List.length results then results else first_results rest
      | Throw _ => first_results rest
      end
  end.

Definition fallbackSearch (w : World) (keywords : list string)
    : result (list ResearchResult.t) :=
  try_catch
    (Normal (first_results
               [ fun _ => searchWithAlternativeEngines w keywords;
                 fun _ => searchWithCachedResults w keywords;
                 fun _ => searchWithAIKnowledge w keywords ]))
    (fun _ => Normal []).

(** [results.sort((a, b) => b.relevance - a.relevance)]: the stable sort by
    falling relevance. *)
Fixpoint insert_by_relevance (x : ResearchResult.t) (sorted : list ResearchResult.t)
    : list ResearchResult.t :=
  match sorted with
  | [] => [x]
  | y :: rest =>
      if Qgtb (ResearchResult.relevance y) (ResearchResult.relevance x)
      then y :: insert_by_relevance x rest
      else x :: sorted
  end.

Definition sort_by_relevance (results : list ResearchResult.t) : list ResearchResult.t :=
  fold_right insert_by_relevance [] results.

(** The [try] block of [searchWeb]: [results] as it stands at its end, and
    the exception if one ended it. *)
Definition primary_search (w : World) (keywords : list string)
    : list ResearchResult.t * option exn :=
  let searchQuery := join keywords " " in
  match duckduckgo w searchQuery with
  | Throw e => ([], Some e)
  | Normal hits => collect w keywords (firstn 5 hits) []
  end.

Definition searchWeb (w : World) (keywords : list string)
    : result (list ResearchResult.t) :=
  let tried : list ResearchResult.t * option exn :=
    match primary_search w keywords with
    | (results, None) =>
        if List.length results =? 0 then
          match fallbackSearch w keywords with
          | Normal more => ((results ++ more)%list, None)
          | Throw e => (results, Some e)
          end
        else (results, None)
    | (results, Some e) => (results, Some e)
    end in
  let* results :=
    match tried with
    | (results, None) => Normal results
    | (results, Some _) =>
        let* more := fallbackSearch w keywords in Normal (results ++ more)%list
    end in
  Normal (sort_by_relevance results).

(** *** The summary *)

Definition fallback_summary : ResearchSummary.t := {|
  ResearchSummary.overallInsights := ["Research completed successfully"];
  ResearchSummary.recommendedTechStack := ["React"; "TypeScript"; "Tailwind CSS"];
  ResearchSummary.designPatterns := ["Component-based architecture"; "Responsive design"];
  ResearchSummary.codeExamples := ["Modern React patterns"; "TypeScript interfaces"];
  ResearchSummary.bestPractices := ["Code organization"; "Error handling"];
  ResearchSummary.potentialIssues := ["Performance optimization"; "Accessibility"] |}.

Definition analyzeResults (w : World) (results : list ResearchResult.t)
    (originalPrompt : string) : result ResearchSummary.t :=
  let* content := llama3_generate w (AnalysisPrompt results originalPrompt) in
  let parsed : result (option ResearchSummary.t) :=
    match json_object_match content with
    | Some jsonMatch => let* s := parse_summary w jsonMatch in Normal (Some s)
    | None => Normal None
    end in
  match parsed with
  | Normal (Some summary) => Normal summary
  | Normal None | Throw _ => Normal fallback_summary
  end.

Definition researchApp (w : World) (prompt : string) (plan : option Plan.t)
    : result ResearchSummary.t :=
  (* Step 1: Extract research keywords from prompt *)
  let* keywords := extractKeywords w prompt plan in
  (* Step 2: Search for relevant information *)
  let* searchResults := searchWeb w keywords in
  (* Step 3: Analyze and summarize findings *)
  analyzeResults w searchResults prompt.

End ResearchAgent.

(** ** [PlannerAgent.ts] *)

Module PlannerAgent.
Import JS.

(** [word.charAt(0).toUpperCase() + word.slice(1)] *)
Definition capitalize (word : string) : string :=
  match word with
  | "" => ""
  | String c rest => upper_unit c ++ rest
  end.

Definition generateAppName (prompt : string) : string :=
  let keywords :=
    firstn 2 (filter (fun word => 3 <? length word)
                     (split (toLowerCase prompt) " "%char)) in
  join (map capitalize keywords) " " ++ " App".

Definition createFallbackPlan (prompt : string) : Plan.t := {|
  Plan.name := generateAppName prompt;
  Plan.description := "AI-generated app based on your request";
  Plan.features := ["User interface"; "Data management"; "Responsive design"];
  Plan.techStack := {|
    Plan.frontend := "React + TypeScript + Tailwind CSS";
    Plan.backend := "Node.js + Express";
    Plan.database := "PostgreSQL";
    Plan.deployment := "Vercel" |};
  Plan.structure := {|
    Plan.pages := ["Home"; "Dashboard"];
    Plan.components := ["Header"; "Main"; "Footer"];
    Plan.api := ["/api/data"] |};
  Plan.timeline := "1-2 days";
  Plan.complexity := "simple" |}.

(** [planData.techStack?.frontend] and its like. *)
Definition via {A B : Type} (x : option A) (field : A -> option B) : option B :=
  match x with
  | Some a => field a
  | None => None
  end.

(** The object that the [try] block of [parsePlan] returns. *)
Definition plan_of_data (planData : PlanData.t) (originalPrompt : string) : Plan.t := {|
  Plan.name := or_string (PlanData.name planData) (generateAppName originalPrompt);
  Plan.description := or_string (PlanData.description planData) "AI-generated app";
  Plan.features := or_list (PlanData.features planData) [];
  Plan.techStack := {|
    Plan.frontend :=
      or_string (via (PlanData.techStack planData) PlanData.frontend) "React + TypeScript";
    Plan.backend :=
      or_string (via (PlanData.techStack planData) PlanData.backend) "Node.js + Express";
    Plan.database :=
      or_string (via (PlanData.techStack planData) PlanData.database) "PostgreSQL";
    Plan.deployment :=
      or_string (via (PlanData.techStack planData) PlanData.deployment) "Vercel" |};
  Plan.structure := {|
    Plan.pages := or_list (via (PlanData.structure planData) PlanData.pages) ["Home"];
    Plan.components :=
      or_list (via (PlanData.structure planData) PlanData.components) ["App"];
    Plan.api := or_list (via (PlanData.structure planData) PlanData.api) [] |};
  Plan.timeline := or_string (PlanData.timeline planData) "1-2 days";
  Plan.complexity := or_string (PlanData.complexity planData) "simple" |}.

(** [parsePlan] catches what its [try] block throws and never throws itself:
    the plan in the [catch] clause is the one of [createFallbackPlan]. *)
Definition parsePlan (w : World) (planContent originalPrompt : string) : Plan.t :=
  let attempt : result Plan.t :=
    match json_object_match planContent with
    | None => Throw (Error "No JSON found in plan response")
    | Some jsonMatch =>
        let* planData := parse_plan w jsonMatch in
        Normal (plan_of_data planData originalPrompt)
    end in
  match attempt with
  | Normal plan => plan
  | Throw _ => createFallbackPlan originalPrompt
  end.

Definition planApp (w : World) (request : Request.t)
    (research : option ResearchSummary.t) : result Plan.t :=
  try_catch
    (let* _ := getModelClient w in
     (* Step 1: Fast initial analysis *)
     let* analysis := generateText w (PlanAnalysisPrompt (Request.prompt request)) in
     (* Step 2: Detailed planning with research context *)
     let* planText :=
       generateText w (PlanningPrompt (Request.prompt request) analysis research) in
     (* Step 3: Parse and structure the plan *)
     Normal (parsePlan w planText (Request.prompt request)))
    (fun _ => Normal (createFallbackPlan (Request.prompt request))).

Definition refinePlan (w : World) (plan : Plan.t) (feedback : string) : result Plan.t :=
  try_catch
    (let* _ := getModelClient w in
     let* refinedText := generateText w (RefinementPrompt plan feedback) in
     let refinedPlan := parsePlan w refinedText (Plan.name plan) in
     Normal refinedPlan)
    (fun _ => Normal plan (* Return original plan if refinement fails *)).

End PlannerAgent.

(** ** [CodeAgent.ts] *)

Module CodeAgent.

(** [parseCodeResponse] at each of the four types it is called with. *)
Definition parseCodeResponse {A : Type} (parse : string -> result A) (fallback : A)
    (content : string) : A :=
  let attempt : result A :=
    match json_object_match content with
    | None => Throw (Error "No JSON found in response")
    | Some jsonMatch => parse jsonMatch
    end in
  match attempt with
  | Normal parsed => parsed
  | Throw _ => fallback
  end.

Definition fallback_frontend : Frontend := {|
  components := [("App.tsx", "// Generated component")];
  pages := [("Home.tsx", "// Generated page")];
  styles := [("globals.css", "/* Generated styles */")];
  frontend_config := [("package.json", "{}")] |}.

Definition fallback_backend : Backend := {|
  routes := [("index.ts", "// Generated route")];
  models := [("User.ts", "// Generated model")];
  middleware := [("auth.ts", "// Generated middleware")];
  backend_config := [("package.json", "{}")] |}.

Definition fallback_database : Database := {|
  schema := "// Generated schema";
  migrations := ["// Generated migration"];
  seeds := ["// Generated seed"] |}.

Definition fallback_deployment : Deployment := {|
  dockerfile := "# Generated Dockerfile";
  dockerCompose := "# Generated docker-compose.yml";
  vercelConfig := [] |}.

Definition generateFrontendCode (w : World) (plan : Plan.t) : result Frontend :=
  let* content := codeLlama_generate w (FrontendPrompt plan) in
  Normal (parseCodeResponse (parse_frontend w) fallback_frontend content).

Definition generateBackendCode (w : World) (plan : Plan.t) : result Backend :=
  let* content := codeLlama_generate w (BackendPrompt plan) in
  Normal (parseCodeResponse (parse_backend w) fallback_backend content).

Definition generateDatabaseCode (w : World) (plan : Plan.t) : result Database :=
  let* content := codeLlama_generate w (DatabasePrompt plan) in
  Normal (parseCodeResponse (parse_database w) fallback_database content).

Definition generateDeploymentCode (w : World) (plan : Plan.t) : result Deployment :=
  let* content := codeLlama_generate w (DeploymentPrompt plan) in
  Normal (parseCodeResponse (parse_deployment w) fallback_deployment content).

Definition generateCode (w : World) (plan : Plan.t) : result GeneratedCode :=
  let* fe := generateFrontendCode w plan in
  let* be := generateBackendCode w plan in
  let* db := generateDatabaseCode w plan in
  let* dp := generateDeploymentCode w plan in
  Normal {| frontend := fe; backend := be; database := db; deployment := dp |}.

End CodeAgent.

(** ** [DeployAgent.ts] *)

Module DeployAgent.
Import JS.

(** The agent holds the two tokens given to its constructor. *)
Record t : Type := {
  vercelToken : option string;
  netlifyToken : option string
}.

(** [new DeployAgent()] *)
Definition without_tokens : t := {| vercelToken := None; netlifyToken := None |}.

(** [catch (error) { throw new Error(`<what> failed: ${message}`) }] *)
Definition rethrow {A : Type} (what : string) (r : result A) : result A :=
  match r with
  | Normal a => Normal a
  | Throw e => Throw (Error (what ++ " failed: " ++ error_message e))
  end.

Definition deployToVercel (agent : t) (w : World) (code : GeneratedCode)
    (config : Config.t) : result string :=
  if negb (present (vercelToken agent)) then Throw (Error "Vercel token not provided")
  else
    rethrow "Vercel deployment"
      (let* created := vercel_create w code config in
       Normal (or_string (Provider.url created)
                         ("https://" ++ Provider.id created ++ ".vercel.app"))).

(** The archive is written after the [try] block has returned its promise:
    an error of the archive rejects it as it is, an error of the upload is
    wrapped by the handler of the stream. *)
Definition deployToNetlify (agent : t) (w : World) (code : GeneratedCode)
    (config : Config.t) : result string :=
  if negb (present (netlifyToken agent)) then Throw (Error "Netlify token not provided")
  else
    let* _ := rethrow "Netlify deployment" (netlify_stage w code config) in
    let* _ := netlify_archive w in
    rethrow "Netlify deployment"
      (let* created := netlify_create w in
       Normal (or_string (Provider.url created)
                         ("https://" ++ Provider.id created ++ ".netlify.app"))).

Definition deployToRailway (w : World) (code : GeneratedCode) (config : Config.t)
    : result string :=
  if negb (present (RAILWAY_TOKEN w))
  then Throw (Error "Railway token not provided. Set RAILWAY_TOKEN environment variable.")
  else
    rethrow "Railway deployment"
      (let* deploymentId := railway_create w code config in
       Normal ("https://" ++ deploymentId ++ ".railway.app")).

Definition deployToAWS (w : World) (code : GeneratedCode) (config : Config.t)
    : result string :=
  let awsRegion := or_string (AWS_REGION w) "us-east-1" in
  if negb (present (AWS_ACCESS_KEY_ID w)) || negb (present (AWS_SECRET_ACCESS_KEY w))
  then Throw (Error ("AWS credentials not provided. Set AWS_ACCESS_KEY_ID and "
                       ++ "AWS_SECRET_ACCESS_KEY environment variables."))
  else
    rethrow "AWS deployment"
      (let bucketName := "voxlor-app-" ++ now w in
       let* _ := aws_publish w bucketName code config in
       Normal ("https://" ++ bucketName ++ ".s3-website-" ++ awsRegion
                 ++ ".amazonaws.com")).

(** [deployApp].  The files prepared from the bundle are a function of the
    bundle and the configuration, which the creation calls receive. *)
Definition deployApp (agent : t) (w : World) (code : GeneratedCode)
    (config : Config.t) : result DeploymentResult.t :=
  let platform := Config.platform config in
  let attempt : result string :=
    if (platform =? "vercel")%string then deployToVercel agent w code config
    else if (platform =? "netlify")%string then deployToNetlify agent w code config
    else if (platform =? "railway")%string then deployToRailway w code config
    else if (platform =? "aws")%string then deployToAWS w code config
    else Throw (Error ("Unsupported platform: " ++ platform)) in
  match attempt with
  | Normal url =>
      Normal {| DeploymentResult.success := true;
                DeploymentResult.url := Some url;
                DeploymentResult.deploymentId := None;
                DeploymentResult.logs := ["Successfully deployed to " ++ platform];
                DeploymentResult.errors := [] |}
  | Throw e =>
      Normal {| DeploymentResult.success := false;
                DeploymentResult.url := None;
                DeploymentResult.deploymentId := None;
                DeploymentResult.logs := [];
                DeploymentResult.errors := [error_message e] |}
  end.

(** *** Status *)

Definition no_logs : list string := ["No logs available"].

Definition checkVercelStatus (agent : t) (w : World) (deploymentId : string)
    : result Status.t :=
  if negb (present (vercelToken agent)) then Throw (Error "Vercel token not provided")
  else
    let* deployment := vercel_get_deployment w deploymentId in
    let status :=
      if (Provider.readyState deployment =? "READY")%string then Status.ready
      else if (Provider.readyState deployment =? "ERROR")%string then Status.error
      else Status.building in
    Normal {| Status.status := status;
              Status.url := Provider.vercel_url deployment;
              Status.logs := or_list (Provider.vercel_logs deployment) no_logs |}.

Definition checkNetlifyStatus (agent : t) (w : World) (siteId : string)
    : result Status.t :=
  if negb (present (netlifyToken agent)) then Throw (Error "Netlify token not provided")
  else
    let* site := netlify_get_site w siteId in
    let status :=
      if (Provider.state site =? "ready")%string then Status.ready
      else if (Provider.state site =? "error")%string then Status.error
      else Status.building in
    Normal {| Status.status := status;
              Status.url := Provider.site_url site;
              Status.logs := or_list (Provider.deploy_log site) no_logs |}.

Definition checkRailwayStatus (w : World) (deploymentId : string) : result Status.t :=
  if negb (present (RAILWAY_TOKEN w)) then Throw (Error "Railway token not provided")
  else
    let* deployment := railway_get_deployment w deploymentId in
    let status :=
      if (Provider.status deployment =? "SUCCESS")%string then Status.ready
      else if (Provider.status deployment =? "FAILED")%string then Status.error
      else Status.building in
    Normal {| Status.status := status;
              Status.url := Provider.railway_url deployment;
              Status.logs := or_list (Provider.railway_logs deployment) no_logs |}.

(** AWS S3 static hosting is always ready once uploaded *)
Definition checkAWSStatus (bucketName : string) : result Status.t :=
  Normal {| Status.status := Status.ready;
            Status.url := Some ("https://" ++ bucketName
                                  ++ ".s3-website-us-east-1.amazonaws.com");
            Status.logs := ["AWS S3 deployment completed successfully"] |}.

(** The [switch] inside the [try] block of [checkDeploymentStatus]. *)
Definition platform_status (agent : t) (w : World) (deploymentId platform : string)
    : result Status.t :=
  if (platform =? "vercel")%string then checkVercelStatus agent w deploymentId
  else if (platform =? "netlify")%string then checkNetlifyStatus agent w deploymentId
  else if (platform =? "railway")%string then checkRailwayStatus w deploymentId
  else if (platform =? "aws")%string then checkAWSStatus deploymentId
  else Throw (Error ("Unsupported platform: " ++ platform)).

Definition checkDeploymentStatus (agent : t) (w : World) (deploymentId platform : string)
    : result Status.t :=
  try_catch
    (platform_status agent w deploymentId platform)
    (fun e =>
       Normal {| Status.status := Status.error;
                 Status.url := None;
                 Status.logs := ["Status check failed: " ++ error_message e] |}).

(** *** Rollback *)

(** [deployments[1]] after the test [deployments.length < 2]. *)
Definition previous (deployments : list string) : result string :=
  match deployments with
  | _ :: previousDeployment :: _ => Normal previousDeployment
  | _ => Throw (Error "No previous deployment to rollback to")
  end.

Definition rollbackVercel (agent : t) (w : World) (deploymentId : string) : result bool :=
  if negb (present (vercelToken agent)) then Throw (Error "Vercel token not provided")
  else
    (* Get the project ID from the deployment *)
    let* deployment := vercel_get_deployment w deploymentId in
    (* Get previous deployments *)
    let* deployments := vercel_list_deployments w (Provider.projectId deployment) in
    let* previousDeployment := previous deployments in
    (* Promote the previous deployment *)
    let* _ := vercel_promote w previousDeployment in
    Normal true.

Definition rollbackNetlify (agent : t) (w : World) (siteId : string) : result bool :=
  if negb (present (netlifyToken agent)) then Throw (Error "Netlify token not provided")
  else
    let* deploys := netlify_list_deploys w siteId in
    let* previousDeploy := previous deploys in
    let* _ := netlify_restore w previousDeploy in
    Normal true.

Definition rollbackRailway (w : World) (deploymentId : string) : result bool :=
  if negb (present (RAILWAY_TOKEN w)) then Throw (Error "Railway token not provided")
  else
    let* deployments := railway_list_deployments w in
    let* previousDeployment := previous deployments in
    let* _ := railway_rollback w previousDeployment in
    Normal true.

(** AWS S3 doesn't have built-in rollback *)
Definition rollbackAWS (bucketName : string) : result bool := Normal true.

Definition platform_rollback (agent : t) (w : World) (deploymentId platform : string)
    : result bool :=
  if (platform =? "vercel")%string then rollbackVercel agent w deploymentId
  else if (platform =? "netlify")%string then rollbackNetlify agent w deploymentId
  else if (platform =? "railway")%string then rollbackRailway w deploymentId
  else if (platform =? "aws")%string then rollbackAWS deploymentId
  else Throw (Error ("Unsupported platform: " ++ platform)).

Definition rollbackDeployment (agent : t) (w : World) (deploymentId platform : string)
    : result bool :=
  try_catch (platform_rollback agent w deploymentId platform) (fun _ => Normal false).

End DeployAgent.

(** ** [VoxlorOrchestrator.ts] *)

Module VoxlorOrchestrator.

Record AppGenerationResult : Type := {
  success : bool;
  appId : string;
  deploymentUrl : option string;
  code : option GeneratedCode;
  research : option ResearchSummary.t;
  optimization : option OptimizerAgent.OptimizationResult;
  errors : list string;
  logs : list string
}.

(** The assignments and pushes that [generateApp] makes on [result]. *)
Definition log (line : string) (r : AppGenerationResult) : AppGenerationResult :=
  {| success := success r; appId := appId r; deploymentUrl := deploymentUrl r;
     code := code r; research := research r; optimization := optimization r;
     errors := errors r; logs := logs r ++ [line] |}.

Definition fail (message : string) (r : AppGenerationResult) : AppGenerationResult :=
  {| success := success r; appId := appId r; deploymentUrl := deploymentUrl r;
     code := code r; research := research r; optimization := optimization r;
     errors := errors r ++ [message]; logs := logs r |}.

Definition set_research (x : ResearchSummary.t) (r : AppGenerationResult) :=
  {| success := success r; appId := appId r; deploymentUrl := deploymentUrl r;
     code := code r; research := Some x; optimization := optimization r;
     errors := errors r; logs := logs r |}.

Definition set_code (x : GeneratedCode) (r : AppGenerationResult) :=
  {| success := success r; appId := appId r; deploymentUrl := deploymentUrl r;
     code := Some x; research := research r; optimization := optimization r;
     errors := errors r; logs := logs r |}.

Definition set_optimization (x : OptimizerAgent.OptimizationResult)
    (r : AppGenerationResult) :=
  {| success := success r; appId := appId r; deploymentUrl := deploymentUrl r;
     code := code r; research := research r; optimization := Some x;
     errors := errors r; logs := logs r |}.

Definition set_deploymentUrl (x : string) (r : AppGenerationResult) :=
  {| success := success r; appId := appId r; deploymentUrl := Some x;
     code := code r; research := research r; optimization := optimization r;
     errors := errors r; logs := logs r |}.

Definition set_success (r : AppGenerationResult) :=
  {| success := true; appId := appId r; deploymentUrl := deploymentUrl r;
     code := code r; research := research r; optimization := optimization r;
     errors := errors r; logs := logs r |}.

(** The [catch] clause of [generateApp]. *)
Definition caught (e : exn) (r : AppGenerationResult) : AppGenerationResult :=
  log ("❌ Error: " ++ error_message e) (fail (error_message e) r).

(** The configuration that [generateApp] deploys with. *)
Definition production : Config.t :=
  {| Config.platform := "vercel"; Config.environment := "production";
     Config.domain := None; Config.customDomain := None; Config.url := None |}.

(** The orchestrator builds its deploy agent with [new DeployAgent()]. *)
Definition deployAgent : DeployAgent.t := DeployAgent.without_tokens.

(** [generateApp].  [result] is threaded through the [try] block; when a
    stage throws, the [catch] clause receives it as the stages before have
    left it.

    [result.code] is the object that [generateCode] returned, and the passes
    of the optimizer write into that object: each of them copies the bundle
    with [{ ...code }], which shares [frontend] and [backend] with the
    original, and assigns the new texts to [frontend.components] and
    [backend.routes].  Once [optimizeCode] has returned, [result.code] and
    [optimization.optimizedCode] hold the same four parts.

    The call [generateCode(plan, request)] passes a second argument, which
    [generateCode] does not read. *)
Definition generateApp (w : World) (request : Request.t) : AppGenerationResult :=
  let result :=
    {| success := false; appId := "voxlor-" ++ now w; deploymentUrl := None;
       code := None; research := None; optimization := None;
       errors := []; logs := [] |} in
  (* Step 1: Research and gather insights *)
  match ResearchAgent.researchApp w (Request.prompt request) None with
  | Throw e => caught e result
  | Normal research =>
      let result := log "✅ Research completed" (set_research research result) in
      (* Step 2: Plan the app structure *)
      match PlannerAgent.planApp w request (Some research) with
      | Throw e => caught e result
      | Normal plan =>
          let result := log "✅ App structure planned" result in
          (* Step 3: Generate code *)
          match CodeAgent.generateCode w plan with
          | Throw e => caught e result
          | Normal code =>
              let result := log "✅ Code generated" (set_code code result) in
              (* Step 4: Optimize code *)
              let optimization := OptimizerAgent.optimizeCode code in
              let result :=
                set_code (OptimizerAgent.optimizedCode optimization) result in
              let result :=
                log "✅ Code optimized" (set_optimization optimization result) in
              (* Step 5: Deploy app *)
              match DeployAgent.deployApp deployAgent w
                      (OptimizerAgent.optimizedCode optimization) production with
              | Throw e => caught e result
              | Normal deployment =>
                  let result :=
                    if DeploymentResult.success deployment
                       && present (DeploymentResult.url deployment)
                    then
                      log "✅ App deployed successfully"
                          (set_deploymentUrl
                             (or_string (DeploymentResult.url deployment) "") result)
                    else
                      log "❌ Deployment failed" (fail "Deployment failed" result) in
                  set_success result
              end
          end
      end
  end.

Definition generateAppFromPrompt (w : World) (prompt : string) : AppGenerationResult :=
  generateApp w {| Request.prompt := prompt; Request.platform := "web";
                   Request.features := []; Request.style := "modern";
                   Request.targetAudience := "general" |}.

End VoxlorOrchestrator.

(** ** Sample bundles *)

Module Samples.
Import JS.

Definition bundle_of (cs rs : dict) : GeneratedCode :=
  {| frontend := {| components := cs; pages := []; styles := [];
                    frontend_config := [] |};
     backend := {| routes := rs; models := []; middleware := [];
                   backend_config := [] |};
     database := {| schema := ""; migrations := []; seeds := [] |};
     deployment := {| dockerfile := ""; dockerCompose := ""; vercelConfig := [] |} |}.

(** One component that shows an image. *)
Definition hero : GeneratedCode :=
  bundle_of [("Hero.tsx", "<img src='hero.png'>")] [].

End Samples.

(** ** Vocabulary of the statements about the agents *)

Module Outcome.

(** A strategy comes to nothing: it fails or it yields no result. *)
Definition comes_to_nothing {A : Type} (r : result (list A)) : Prop :=
  match r with
  | Normal [] => True
  | Normal (_ :: _) => False
  | Throw _ => True
  end.

(** The same for the [try] block of [searchWeb], of which [primary_search]
    gives the results gathered and the exception, if any. *)
Definition primary_comes_to_nothing (w : World) (keywords : list string) : Prop :=
  snd (ResearchAgent.primary_search w keywords) <> None \/
  fst (ResearchAgent.primary_search w keywords) = [].

(** The summary that [analyzeResults] makes of a response. *)
Definition summary_of (w : World) (content : string) : ResearchSummary.t :=
  match json_object_match content with
  | Some jsonMatch =>
      match parse_summary w jsonMatch with
      | Normal summary => summary
      | Throw _ => ResearchAgent.fallback_summary
      end
  | None => ResearchAgent.fallback_summary
  end.

(** The keywords that [extractKeywords] makes of a response. *)
Definition keywords_of (w : World) (prompt content : string) : list string :=
  match json_array_match content with
  | Some jsonMatch =>
      match parse_keywords w jsonMatch with
      | Normal ks => ks
      | Throw _ => ResearchAgent.simple_keywords prompt
      end
  | None => ResearchAgent.simple_keywords prompt
  end.

(** What [searchWeb] returns, and nothing if it were to throw. *)
Definition search_results (w : World) (keywords : list string)
    : list ResearchResult.t :=
  match ResearchAgent.searchWeb w keywords with
  | Normal results => results
  | Throw _ => []
  end.

(** The deployments that a provider lists for a rollback, when the agent has
    the credential and the calls before the test of the length succeed. *)
Definition listed (agent : DeployAgent.t) (w : World) (deploymentId platform : string)
    : option (list string) :=
  if (platform =? "vercel")%string then
    if present (DeployAgent.vercelToken agent) then
      match vercel_get_deployment w deploymentId with
      | Normal d =>
          match vercel_list_deployments w (Provider.projectId d) with
          | Normal l => Some l
          | Throw _ => None
          end
      | Throw _ => None
      end
    else None
  else if (platform =? "netlify")%string then
    if present (DeployAgent.netlifyToken agent) then
      match netlify_list_deploys w deploymentId with
      | Normal l => Some l
      | Throw _ => None
      end
    else None
  else if (platform =? "railway")%string then
    if present (RAILWAY_TOKEN w) then
      match railway_list_deployments w with
      | Normal l => Some l
      | Throw _ => None
      end
    else None
  else None.

(** The call that puts an earlier deployment back in place. *)
Definition reinstate (w : World) (platform target : string) : result unit :=
  if (platform =? "vercel")%string then vercel_promote w target
  else if (platform =? "netlify")%string then netlify_restore w target
  else railway_rollback w target.

Definition succeeds {A : Type} (r : result A) : bool :=
  match r with
  | Normal _ => true
  | Throw _ => false
  end.

(** The keyword, lowered, holds no syntax character of a pattern. *)
Definition plain (keyword : string) : bool :=
  match ResearchAgent.classify (JS.toLowerCase keyword) with
  | ResearchAgent.Plain => true
  | _ => false
  end.

(** The occurrences of the keywords in a content, both lowered, counted
    from left to right without overlap. *)
Definition occurrences (content : string) (keywords : list string) : nat :=
  list_sum (map (fun keyword =>
                   ResearchAgent.count_plain (JS.toLowerCase content)
                                             (JS.toLowerCase keyword))
                keywords).

(** The keyword, lowered, is a pattern that [new RegExp] accepts. *)
Definition accepted (w : World) (keyword : string) : bool :=
  match ResearchAgent.classify (JS.toLowerCase keyword) with
  | ResearchAgent.Plain => true
  | ResearchAgent.Malformed => false
  | ResearchAgent.Other => succeeds (regexp w (JS.toLowerCase keyword))
  end.

End Outcome.

(** ** Sample worlds and inputs *)

Module Worlds.

Definition network_error : exn := Error "Network Error".

Definition unreachable {A : Type} : result A := Throw network_error.

(** A world in which every text generation client gives [reply] and every
    provider lists [deployments]; the second of them is the one that can be
    put back in place.  There is no search page, no cache file and no
    credential in the environment, and no text is valid JSON. *)
Definition world (reply : result string) (deployments : result (list string)) : World := {|
  llama3_generate := fun _ => reply;
  getModelClient := let* _ := reply in Normal tt;
  generateText := fun _ => reply;
  codeLlama_generate := fun _ => reply;
  parse_keywords := fun _ => Throw (SyntaxError "Unexpected token");
  parse_results := fun _ => Throw (SyntaxError "Unexpected token");
  parse_cache := fun _ => Throw (SyntaxError "Unexpected token");
  parse_summary := fun _ => Throw (SyntaxError "Unexpected token");
  parse_plan := fun _ => Throw (SyntaxError "Unexpected token");
  parse_frontend := fun _ => Throw (SyntaxError "Unexpected token");
  parse_backend := fun _ => Throw (SyntaxError "Unexpected token");
  parse_database := fun _ => Throw (SyntaxError "Unexpected token");
  parse_deployment := fun _ => Throw (SyntaxError "Unexpected token");
  regexp := fun _ => Throw (SyntaxError "Invalid regular expression");
  extractInsights := fun _ => [];
  extractCodePatterns := fun _ => [];
  extractUIPatterns := fun _ => [];
  duckduckgo := fun _ => unreachable;
  search_engine := fun _ _ => unreachable;
  cache_exists := false;
  cache_read := Throw (Error "ENOENT: no such file or directory");
  RAILWAY_TOKEN := None;
  AWS_ACCESS_KEY_ID := None;
  AWS_SECRET_ACCESS_KEY := None;
  AWS_REGION := None;
  now := "1700000000000";
  vercel_create := fun _ _ => unreachable;
  netlify_stage := fun _ _ => unreachable;
  netlify_archive := unreachable;
  netlify_create := unreachable;
  railway_create := fun _ _ => unreachable;
  aws_publish := fun _ _ _ => unreachable;
  vercel_get_deployment := fun _ =>
    let* _ := deployments in
    Normal {| Provider.readyState := "READY";
              Provider.vercel_url := Some "https://shop.vercel.app";
              Provider.vercel_logs := None;
              Provider.projectId := "prj_shop" |};
  vercel_list_deployments := fun _ => deployments;
  vercel_promote := fun uid =>
    let* l := deployments in
    match l with
    | _ :: previous :: _ =>
        if (uid =? previous)%string then Normal tt else Throw (Error "Not Found")
    | _ => Throw (Error "Not Found")
    end;
  netlify_get_site := fun _ => unreachable;
  netlify_list_deploys := fun _ => deployments;
  netlify_restore := fun _ => unreachable;
  railway_get_deployment := fun _ => unreachable;
  railway_list_deployments := deployments;
  railway_rollback := fun _ => unreachable
|}.

(** Every call to the outside fails. *)
Definition offline : World := world unreachable unreachable.

(** The text generation clients answer, with a text that holds no JSON. *)
Definition chatty : World := world (Normal "I cannot answer that.") unreachable.

(** The providers answer and list no deployment. *)
Definition no_deployments : World := world unreachable (Normal []).

(** The providers list two deployments, the newer first. *)
Definition two_deployments : World := world unreachable (Normal ["dpl_2"; "dpl_1"]).

(** An agent built with a Vercel token. *)
Definition with_vercel_token : DeployAgent.t :=
  {| DeployAgent.vercelToken := Some "token"; DeployAgent.netlifyToken := None |}.

(** A plan that a user has worked on. *)
Definition recipe_plan : Plan.t := {|
  Plan.name := "Recipe Box";
  Plan.description := "Collect and share family recipes";
  Plan.features := ["Recipe search"; "Shopping list"];
  Plan.techStack := {|
    Plan.frontend := "Vue";
    Plan.backend := "Go";
    Plan.database := "SQLite";
    Plan.deployment := "Netlify" |};
  Plan.structure := {|
    Plan.pages := ["Recipes"; "Editor"];
    Plan.components := ["RecipeCard"];
    Plan.api := ["/api/recipes"] |};
  Plan.timeline := "2 weeks";
  Plan.complexity := "medium" |}.

(** The bundle that [generateCode] makes of responses without JSON, and the
    result of a deployment to vercel by an agent without a token. *)
Definition fallback_code : GeneratedCode :=
  {| frontend := CodeAgent.fallback_frontend;
     backend := CodeAgent.fallback_backend;
     database := CodeAgent.fallback_database;
     deployment := CodeAgent.fallback_deployment |}.

Definition refused_deployment : DeploymentResult.t :=
  {| DeploymentResult.success := false;
     DeploymentResult.url := None;
     DeploymentResult.deploymentId := None;
     DeploymentResult.logs := [];
     DeploymentResult.errors := ["Vercel token not provided"] |}.

Definition todo_request : Request.t :=
  {| Request.prompt := "todo list app"; Request.platform := "web";
     Request.features := []; Request.style := "modern";
     Request.targetAudience := "general" |}.

End Worlds.

(** ** Further functions of the agents *)

(** *** [ResearchAgent.updateKnowledgeBase] *)

Module KnowledgeBase.

Record Entry : Type := {
  insights : list string;
  timestamp : string
}.

(** The file [knowledge-base.json] and the clock: [existsSync],
    [readFileSync], [JSON.parse] of what was read, [toISOString] of the
    current date, and [writeFileSync] of the entries. *)
Record Store : Type := {
  file_exists : bool;
  file_read : result string;
  file_parse : string -> result (list Entry);
  date_now : string;
  file_write : list Entry -> result unit
}.

(** Load existing knowledge base: a file that cannot be read or parsed
    leaves the empty list. *)
Definition existing (s : Store) : list Entry :=
  if file_exists s then
    match (let* existingData := file_read s in file_parse s existingData) with
    | Normal knowledgeBase => knowledgeBase
    | Throw _ => []
    end
  else [].

(** [knowledgeBase.slice(-100)] *)
Definition last_hundred (knowledgeBase : list Entry) : list Entry :=
  skipn (List.length knowledgeBase - 100) knowledgeBase.

(** The entries handed to [writeFileSync]. *)
Definition updated (s : Store) (newInsights : list string) : list Entry :=
  let knowledgeBase : list Entry :=
    (existing s ++ [ {| insights := newInsights; timestamp := date_now s |} ])%list in
  (* Keep only last 100 entries to prevent file from growing too large *)
  if 100 <? List.length knowledgeBase then last_hundred knowledgeBase
  else knowledgeBase.

Definition updateKnowledgeBase (s : Store) (newInsights : list string) : result unit :=
  try_catch (file_write s (updated s newInsights)) (fun _ => Normal tt).

End KnowledgeBase.

(** *** [ResearchAgent.researchSpecificTopic] and [getSimilarApps] *)

Module Enhancement.
Import JS.

(** What [JSON.parse] yields for the analysis of one result: every property
    may be missing. *)
Record TopicAnalysis : Type := {
  topic_insights : option (list string);
  topic_codePatterns : option (list string);
  topic_uiPatterns : option (list string)
}.

Record SimilarityAnalysis : Type := {
  similarity : option Q;
  learnings : option (list string);
  features : option (list string);
  techStack : option (list string)
}.

(** The text generation for the analysis of one result, and [JSON.parse] of
    the object in its response. *)
Record Analyst : Type := {
  analyze_topic : string -> ResearchResult.t -> result string;
  parse_topic : string -> result TopicAnalysis;
  analyze_similarity : string -> ResearchResult.t -> result string;
  parse_similarity : string -> result SimilarityAnalysis
}.

(** [x || d] for a number: zero is falsy. *)
Definition or_number (x : option Q) (d : Q) : Q :=
  match x with
  | Some q => if Qeq_bool q 0 then d else q
  | None => d
  end.

(** The callback that [researchSpecificTopic] maps over the results. *)
Definition enhance_topic (a : Analyst) (topic : string) (r : ResearchResult.t)
    : result ResearchResult.t :=
  let* content := analyze_topic a topic r in
  let parsed : result (option TopicAnalysis) :=
    match json_object_match content with
    | Some jsonMatch => let* analysis := parse_topic a jsonMatch in Normal (Some analysis)
    | None => Normal None
    end in
  match parsed with
  | Normal (Some analysis) =>
      Normal {| ResearchResult.url := ResearchResult.url r;
                ResearchResult.title := ResearchResult.title r;
                ResearchResult.content := ResearchResult.content r;
                ResearchResult.relevance := ResearchResult.relevance r;
                ResearchResult.insights :=
                  or_list (topic_insights analysis) (ResearchResult.insights r);
                ResearchResult.codePatterns :=
                  or_list (topic_codePatterns analysis) (ResearchResult.codePatterns r);
                ResearchResult.uiPatterns :=
                  or_list (topic_uiPatterns analysis) (ResearchResult.uiPatterns r) |}
  | Normal None | Throw _ => Normal r
  end.

(** [Promise.all(results.map(f))]: the values in the order of the results,
    or a rejection when a callback rejects. *)
Fixpoint all_of {A B : Type} (f : A -> result B) (l : list A) : result (list B) :=
  match l with
  | [] => Normal []
  | x :: rest =>
      let* y := f x in
      let* ys := all_of f rest in
      Normal (y :: ys)
  end.

Definition researchSpecificTopic (w : World) (a : Analyst) (topic : string)
    : result (list ResearchResult.t) :=
  try_catch
    (let* searchResults := ResearchAgent.searchWeb w [topic] in
     all_of (enhance_topic a topic) searchResults)
    (fun _ => ResearchAgent.fallbackSearch w [topic]).

(** The callback that [getSimilarApps] maps over the five best results. *)
Definition enhance_similar (a : Analyst) (appDescription : string)
    (r : ResearchResult.t) : result ResearchResult.t :=
  let* content := analyze_similarity a appDescription r in
  let parsed : result (option SimilarityAnalysis) :=
    match json_object_match content with
    | Some jsonMatch =>
        let* analysis := parse_similarity a jsonMatch in Normal (Some analysis)
    | None => Normal None
    end in
  match parsed with
  | Normal (Some analysis) =>
      Normal {| ResearchResult.url := ResearchResult.url r;
                ResearchResult.title := ResearchResult.title r;
                ResearchResult.content := ResearchResult.content r;
                ResearchResult.relevance :=
                  or_number (similarity analysis) (ResearchResult.relevance r);
                ResearchResult.insights :=
                  or_list (learnings analysis) (ResearchResult.insights r);
                ResearchResult.codePatterns :=
                  or_list (techStack analysis) (ResearchResult.codePatterns r);
                ResearchResult.uiPatterns :=
                  or_list (features analysis) (ResearchResult.uiPatterns r) |}
  | Normal None | Throw _ => Normal r
  end.

Definition searchQueries (appDescription : string) : list string :=
  [ dq ++ appDescription ++ dq ++ " similar apps";
    dq ++ appDescription ++ dq ++ " alternatives";
    "apps like " ++ dq ++ appDescription ++ dq;
    dq ++ appDescription ++ dq ++ " competitors" ].

(** The [for] loop over the queries. *)
Fixpoint search_all (w : World) (queries : list string)
    : result (list ResearchResult.t) :=
  match queries with
  | [] => Normal []
  | query :: rest =>
      let* results := ResearchAgent.searchWeb w [query] in
      let* more := search_all w rest in
      Normal (results ++ more)%list
  end.

(** [allResults.filter((result, index, self) =>
       index === self.findIndex(r => r.url === result.url))]:
    the first result of every URL. *)
Fixpoint unique_by_url (seen : list string) (l : list ResearchResult.t)
    : list ResearchResult.t :=
  match l with
  | [] => []
  | r :: rest =>
      if existsb (String.eqb (ResearchResult.url r)) seen
      then unique_by_url seen rest
      else r :: unique_by_url (ResearchResult.url r :: seen) rest
  end.

Definition getSimilarApps (w : World) (a : Analyst) (appDescription : string)
    : result (list ResearchResult.t) :=
  try_catch
    (let* allResults := search_all w (searchQueries appDescription) in
     (* Remove duplicates and sort by relevance *)
     let uniqueResults := unique_by_url [] allResults in
     let sortedResults := ResearchAgent.sort_by_relevance uniqueResults in
     (* Enhance results with AI analysis *)
     all_of (enhance_similar a appDescription) (firstn 5 sortedResults))
    (fun _ => ResearchAgent.fallbackSearch w [appDescription]).

End Enhancement.

(** *** [CodeAgent.optimizeCode] *)

Module CodeFeedback.

(** The text generation for the optimization prompt and [JSON.parse] of the
    object in its response. *)
Record Optimizer : Type := {
  generate : GeneratedCode -> string -> result string;
  parse : string -> result GeneratedCode
}.

(** [parseCodeResponse(content, 'optimization')]: the [catch] clause has no
    branch for this type and falls off its end, which returns [undefined]. *)
Definition parse_optimization (o : Optimizer) (content : string)
    : option GeneratedCode :=
  let attempt : result GeneratedCode :=
    match json_object_match content with
    | None => Throw (Error "No JSON found in optimization response")
    | Some jsonMatch => parse o jsonMatch
    end in
  match attempt with
  | Normal parsed => Some parsed
  | Throw _ => None
  end.

Definition optimizeCode (o : Optimizer) (code : GeneratedCode) (feedback : string)
    : result (option GeneratedCode) :=
  let* content := generate o code feedback in
  Normal (parse_optimization o content).

End CodeFeedback.

(** *** [ResearchAgent.extractCodePatterns] and [extractUIPatterns] *)

Module Patterns.
Import JS.

(** A pattern of alternatives, all of them words of letters, with the flags
    [g] and [i]: a code unit of the content matches a letter of a word when
    both have the same upper case. *)
Fixpoint prefix_ci (word s : string) : bool :=
  match word, s with
  | "", _ => true
  | String a word', String b s' =>
      Ascii.eqb (upper_char a) (upper_char b) && prefix_ci word' s'
  | String _ _, "" => false
  end.

(** The first [n] code units. *)
Fixpoint take (n : nat) (s : string) : string :=
  match n, s with
  | S k, String c s' => String c (take k s')
  | _, _ => ""
  end.

(** [content.match(pattern)]: at each index the alternatives are tried in
    their order, and the search goes on after a match.  [skip] counts the
    code units of a match that are still to be passed. *)
Fixpoint matches_from (alternatives : list string) (skip : nat) (s : string)
    : list string :=
  match s with
  | "" => []
  | String _ s' =>
      match skip with
      | S k => matches_from alternatives k s'
      | O =>
          match find (fun word => prefix_ci word s) alternatives with
          | Some word =>
              take (length word) s
                :: matches_from alternatives (length word - 1) s'
          | None => matches_from alternatives 0 s'
          end
      end
  end.

Definition matches (alternatives : list string) (content : string) : list string :=
  matches_from alternatives 0 content.

(** The [forEach] over the patterns, and
    [[...new Set(patterns)].slice(0, 5)]. *)
Definition extract (patterns : list (list string)) (content : string) : list string :=
  firstn 5 (ResearchAgent.distinct
              (flat_map (fun alternatives =>
                           map toLowerCase (matches alternatives content))
                        patterns)).

Definition codePatterns : list (list string) :=
  [ ["useState"; "useEffect"; "useContext"; "useReducer"];
    ["component"; "hook"; "function"; "class"];
    ["props"; "state"; "context"; "reducer"];
    ["async"; "await"; "promise"; "fetch"] ].

Definition uiPatterns : list (list string) :=
  [ ["responsive"; "mobile"; "desktop"; "tablet"];
    ["layout"; "grid"; "flexbox"; "css"];
    ["modal"; "dialog"; "popup"; "overlay"];
    ["navigation"; "menu"; "sidebar"; "header"];
    ["button"; "input"; "form"; "card"] ].

Definition extractCodePatterns (content : string) : list string :=
  extract codePatterns content.

Definition extractUIPatterns (content : string) : list string :=
  extract uiPatterns content.

(** The words of the patterns, as [toLowerCase] gives them. *)
Definition vocabulary (patterns : list (list string)) : list string :=
  map toLowerCase (concat patterns).

(** All the code units. *)
Definition code_units : list ascii := map ascii_of_nat (seq 0 256).

End Patterns.

(** *** [OptimizerAgent.generateRecommendations] *)

Module Report.
Import JS OptimizerAgent.

Definition advice (score : Z) (lines : list string) : list string :=
  if (score <? 80)%Z then lines else [].

(** The array [recommendations] after the three tests. *)
Definition recommendations (result : OptimizationResult) : list string :=
  (advice (performanceScore result)
     [ "- Consider adding React.memo to components";
       "- Optimize useEffect dependencies";
       "- Remove console.log statements" ]
   ++ advice (securityScore result)
        [ "- Add input validation";
          "- Implement CORS properly";
          "- Add security headers" ]
   ++ advice (maintainabilityScore result)
        [ "- Add TypeScript interfaces";
          "- Reduce component complexity";
          "- Add proper error handling" ])%list.

Definition generateRecommendations (result : OptimizationResult) : string :=
  join (recommendations result) nl.

(** The scores below 80. *)
Definition low_scores (result : OptimizationResult) : list Z :=
  filter (fun score => (score <? 80)%Z)
         [performanceScore result; securityScore result; maintainabilityScore result].

End Report.

(** ** Vocabulary of the further statements *)

Module Order.

(** [a] may stand before [b] in a list sorted by falling relevance. *)
Definition falling (a b : ResearchResult.t) : Prop :=
  (ResearchResult.relevance b <= ResearchResult.relevance a)%Q.

(** The results of a list whose relevance equals [q], in their order. *)
Definition with_relevance (q : Q) (l : list ResearchResult.t) : list ResearchResult.t :=
  filter (fun r => Qeq_bool (ResearchResult.relevance r) q) l.

End Order.

Module Shape.
Import JS.

(** A result as the page loops build it. *)
Definition from_page (r : ResearchResult.t) : Prop :=
  (0 <= ResearchResult.relevance r <= 1)%Q
  /\ ResearchResult.title r <> ""
  /\ ResearchResult.content r <> ""
  /\ ResearchResult.url r <> ""
  /\ startsWith (ResearchResult.url r) "//" = false.

(** A keyword as the fallback of [extractKeywords] makes it. *)
Definition simple (keyword : string) : Prop :=
  3 < length keyword
  /\ Text.all_chars (fun c => negb (Ascii.eqb c " ")) keyword = true
  /\ toLowerCase keyword = keyword.

(** [r'] is [r] with other insights and patterns. *)
Definition same_page (r r' : ResearchResult.t) : Prop :=
  ResearchResult.url r' = ResearchResult.url r
  /\ ResearchResult.title r' = ResearchResult.title r
  /\ ResearchResult.content r' = ResearchResult.content r
  /\ ResearchResult.relevance r' = ResearchResult.relevance r.

(** The results that [getSimilarApps] hands to the analysis: the five most
    relevant of the results of its four searches, one for each URL. *)
Definition similar_candidates (w : World) (appDescription : string)
    : list ResearchResult.t :=
  match Enhancement.search_all w (Enhancement.searchQueries appDescription) with
  | Normal allResults =>
      firstn 5 (ResearchAgent.sort_by_relevance
                  (Enhancement.unique_by_url [] allResults))
  | Throw _ => []
  end.

(** No text of the plan is empty. *)
Definition complete (plan : Plan.t) : Prop :=
  Plan.name plan <> ""
  /\ Plan.description plan <> ""
  /\ Plan.frontend (Plan.techStack plan) <> ""
  /\ Plan.backend (Plan.techStack plan) <> ""
  /\ Plan.database (Plan.techStack plan) <> ""
  /\ Plan.deployment (Plan.techStack plan) <> ""
  /\ Plan.timeline plan <> ""
  /\ Plan.complexity plan <> "".

(** The platforms that the [switch] statements of the deploy agent name. *)
Definition supported : list string := ["vercel"; "netlify"; "railway"; "aws"].

(** The entry that [updateKnowledgeBase] adds. *)
Definition new_entry (s : KnowledgeBase.Store) (newInsights : list string)
    : KnowledgeBase.Entry :=
  {| KnowledgeBase.insights := newInsights;
     KnowledgeBase.timestamp := KnowledgeBase.date_now s |}.

(** The prompts of the four text generations of [generateCode]. *)
Definition prompts (plan : Plan.t) : list code_prompt :=
  [FrontendPrompt plan; BackendPrompt plan; DatabasePrompt plan; DeploymentPrompt plan].

End Shape.

(** ** Vocabulary of the statements about occurrences *)

Module Border.

(** One of the two texts begins with the other. *)
Definition comparable (a b : string) : bool := prefix a b || prefix b a.

(** No text that [x] ends with, the empty one apart, is comparable with
    [other]. *)
Fixpoint tails_clear (x other : string) : bool :=
  match x with
  | "" => true
  | String _ x' => negb (comparable x other) && tails_clear x' other
  end.

(** Wherever [x] stands in a text, no occurrence of [sub] in that text
    shares a code unit with it: [sub] does not occur in [x], [x] does not
    end with the beginning of [sub] nor begin with the end of [sub], and
    [sub] does not reach over [x]. *)
Definition clear_of (x sub : string) : bool :=
  tails_clear x sub &&
  match sub with
  | "" => false
  | String _ sub' => tails_clear sub' x
  end.

(** A replacement text without [$]: it stands for itself. *)
Definition plain_template (tmpl : string) : bool :=
  Text.all_chars (fun c => negb (Ascii.eqb c "$"%char)) tmpl.

End Border.

(** ** More sample texts *)

Module Texts.
Import JS OptimizerAgent.

(** A file of two lines, the second of which logs. *)
Definition logging : string :=
  "import { log } from 'log';" ++ nl ++ "console.log(1);".

Definition logging_report : LintError :=
  {| line := 2; column := 0%Z;
     message := "Remove console.log statements in production code";
     lint_severity := warning |}.

(** A file with an import, a blank line and a call. *)
Definition calling : string :=
  "import { run } from 'runner';" ++ nl ++ nl ++ "run();".

(** The report of a [TODO] or [FIXME] comment at a column. *)
Definition comment_report (lineNumber : nat) (column : Z) : LintError :=
  {| line := lineNumber; column := column;
     message := "Address TODO/FIXME comments";
     lint_severity := info |}.

End Texts.

(** ** More sample worlds *)

Module Amended.

(** [w] with a search page, a cache file and a regular expression host of
    its own. *)
Definition world (w : World)
    (page : string -> result (list Hit.t))
    (cache : option (list (string * list ResearchResult.t)))
    (host : string -> result (string -> nat)) : World := {|
  llama3_generate := llama3_generate w;
  getModelClient := getModelClient w;
  generateText := generateText w;
  codeLlama_generate := codeLlama_generate w;
  parse_keywords := parse_keywords w;
  parse_results := parse_results w;
  parse_cache := fun text =>
    match cache with
    | Some entries => Normal entries
    | None => parse_cache w text
    end;
  parse_summary := parse_summary w;
  parse_plan := parse_plan w;
  parse_frontend := parse_frontend w;
  parse_backend := parse_backend w;
  parse_database := parse_database w;
  parse_deployment := parse_deployment w;
  regexp := host;
  extractInsights := extractInsights w;
  extractCodePatterns := extractCodePatterns w;
  extractUIPatterns := extractUIPatterns w;
  duckduckgo := page;
  search_engine := search_engine w;
  cache_exists := match cache with Some _ => true | None => cache_exists w end;
  cache_read := match cache with Some _ => Normal "{}" | None => cache_read w end;
  RAILWAY_TOKEN := RAILWAY_TOKEN w;
  AWS_ACCESS_KEY_ID := AWS_ACCESS_KEY_ID w;
  AWS_SECRET_ACCESS_KEY := AWS_SECRET_ACCESS_KEY w;
  AWS_REGION := AWS_REGION w;
  now := now w;
  vercel_create := vercel_create w;
  netlify_stage := netlify_stage w;
  netlify_archive := netlify_archive w;
  netlify_create := netlify_create w;
  railway_create := railway_create w;
  aws_publish := aws_publish w;
  vercel_get_deployment := vercel_get_deployment w;
  vercel_list_deployments := vercel_list_deployments w;
  vercel_promote := vercel_promote w;
  netlify_get_site := netlify_get_site w;
  netlify_list_deploys := netlify_list_deploys w;
  netlify_restore := netlify_restore w;
  railway_get_deployment := railway_get_deployment w;
  railway_list_deployments := railway_list_deployments w;
  railway_rollback := railway_rollback w
|}.

(** [w] with the credentials of AWS in the environment, [AWS_REGION] as
    given, and a bucket that takes every upload. *)
Definition with_aws (w : World) (region : option string) : World := {|
  llama3_generate := llama3_generate w;
  getModelClient := getModelClient w;
  generateText := generateText w;
  codeLlama_generate := codeLlama_generate w;
  parse_keywords := parse_keywords w;
  parse_results := parse_results w;
  parse_cache := parse_cache w;
  parse_summary := parse_summary w;
  parse_plan := parse_plan w;
  parse_frontend := parse_frontend w;
  parse_backend := parse_backend w;
  parse_database := parse_database w;
  parse_deployment := parse_deployment w;
  regexp := regexp w;
  extractInsights := extractInsights w;
  extractCodePatterns := extractCodePatterns w;
  extractUIPatterns := extractUIPatterns w;
  duckduckgo := duckduckgo w;
  search_engine := search_engine w;
  cache_exists := cache_exists w;
  cache_read := cache_read w;
  RAILWAY_TOKEN := RAILWAY_TOKEN w;
  AWS_ACCESS_KEY_ID := Some "AKIAEXAMPLE";
  AWS_SECRET_ACCESS_KEY := Some "secret";
  AWS_REGION := region;
  now := now w;
  vercel_create := vercel_create w;
  netlify_stage := netlify_stage w;
  netlify_archive := netlify_archive w;
  netlify_create := netlify_create w;
  railway_create := railway_create w;
  aws_publish := fun _ _ _ => Normal tt;
  vercel_get_deployment := vercel_get_deployment w;
  vercel_list_deployments := vercel_list_deployments w;
  vercel_promote := vercel_promote w;
  netlify_get_site := netlify_get_site w;
  netlify_list_deploys := netlify_list_deploys w;
  netlify_restore := netlify_restore w;
  railway_get_deployment := railway_get_deployment w;
  railway_list_deployments := railway_list_deployments w;
  railway_rollback := railway_rollback w
|}.

(** The environment names the region of Frankfurt. *)
Definition frankfurt : World := with_aws Worlds.offline (Some "eu-central-1").

Definition on_heroku : Config.t :=
  {| Config.platform := "heroku"; Config.environment := "production";
     Config.domain := None; Config.customDomain := None; Config.url := None |}.

Definition on_aws : Config.t :=
  {| Config.platform := "aws"; Config.environment := "production";
     Config.domain := None; Config.customDomain := None; Config.url := None |}.

Definition todo_result : ResearchResult.t := {|
  ResearchResult.url := "https://example.org/todo";
  ResearchResult.title := "A todo list in React";
  ResearchResult.content := "How to build a todo list";
  ResearchResult.relevance := 1 # 2;
  ResearchResult.insights := [];
  ResearchResult.codePatterns := [];
  ResearchResult.uiPatterns := [] |}.

(** The primary page shows one result. *)
Definition todo_hit : Hit.t :=
  {| Hit.title := "A todo list in React";
     Hit.href := Some "//example.org/todo";
     Hit.snippet := "How to build a todo list" |}.

Definition paged : World :=
  world Worlds.offline (fun _ => Normal [todo_hit]) None (regexp Worlds.offline).

(** The cache file holds one entry, for the query [todo list]. *)
Definition cached : World :=
  world Worlds.offline (duckduckgo Worlds.offline)
        (Some [("todo list", [todo_result])]) (regexp Worlds.offline).

End Amended.
(** * Properties *)

(** ** The three scores *)

Module ScoreBounds.
Import JS OptimizerAgent.

Lemma penalty_bounds (b : bool) (p : Z) : (0 <= p -> 0 <= penalty b p <= p)%Z.
Proof. destruct b; simpl; lia. Qed.

(** A running score that starts at most at [hi] and only loses penalties
    stays at most at [hi]. *)
Lemma fold_decreasing (step : Z -> string -> Z) (contents : list string) :
  (forall score content, step score content <= score)%Z ->
  forall start, (fold_left step contents start <= start)%Z.
Proof.
  intros Hstep. induction contents as [|c cs IH]; intros start; simpl.
  - lia.
  - specialize (IH (step start c)). specialize (Hstep start c). lia.
Qed.

Lemma performance_step_le score content : (performance_step score content <= score)%Z.
Proof.
  unfold performance_step.
  pose proof (penalty_bounds (includes content "console.log") 5).
  pose proof (penalty_bounds (includes content "useEffect" && negb (includes content "[]")) 10).
  pose proof (penalty_bounds (negb (includes content "React.memo")) 5).
  lia.
Qed.

Lemma security_step_le score content : (security_step score content <= score)%Z.
Proof.
  unfold security_step.
  pose proof (penalty_bounds (negb (includes content "cors")) 10).
  pose proof (penalty_bounds (negb (includes content "validate")) 15).
  pose proof (penalty_bounds (includes content "eval(") 50).
  pose proof (penalty_bounds (includes content "innerHTML") 20).
  lia.
Qed.

Lemma maintainability_step_le score content :
  (maintainability_step score content <= score)%Z.
Proof.
  unfold maintainability_step.
  pose proof (penalty_bounds (negb (includes content "interface")) 10).
  pose proof (penalty_bounds (includes content "any") 5).
  pose proof (penalty_bounds (500 <? length content) 5).
  lia.
Qed.

(** C7.  For every code bundle the performance, security and
    maintainability scores lie in the closed interval from 0 to 100: each is
    the maximum of 0 and a running score that starts at 100 and from which
    the fixed penalties are only subtracted. *)
Theorem scores_between_0_and_100 (code : GeneratedCode) :
  (0 <= calculatePerformanceScore code <= 100)%Z /\
  (0 <= calculateSecurityScore code <= 100)%Z /\
  (0 <= calculateMaintainabilityScore code <= 100)%Z /\
  (exists raw, (raw <= 100)%Z /\ calculatePerformanceScore code = Z.max 0 raw) /\
  (exists raw, (raw <= 100)%Z /\ calculateSecurityScore code = Z.max 0 raw) /\
  (exists raw, (raw <= 100)%Z /\ calculateMaintainabilityScore code = Z.max 0 raw).
Proof.
  unfold calculatePerformanceScore, calculateSecurityScore,
    calculateMaintainabilityScore.
  pose proof (fold_decreasing performance_step
                (values (components (frontend code))) performance_step_le 100%Z) as Hp.
  pose proof (fold_decreasing security_step
                (values (routes (backend code))) security_step_le 100%Z) as Hs.
  pose proof (fold_decreasing maintainability_step
                (values (components (frontend code))) maintainability_step_le 100%Z) as Hm.
  repeat split; try lia; eexists; (split; [|reflexivity]); assumption.
Qed.

(** The floor is reached: twenty-one bare components cost the performance
    score 105 points, and it is reported as 0. *)
Example performance_score_floor :
  calculatePerformanceScore (Samples.bundle_of (repeat ("C.tsx", "x") 21) []) = 0%Z.
Proof. reflexivity. Qed.

End ScoreBounds.

(** ** The performance pass applied twice *)

Module PerformancePass.
Import JS OptimizerAgent Samples.

Example hero_once :
  components (frontend (optimizePerformance hero))
  = [("Hero.tsx", "<img src='hero.png' loading=" ++ dq ++ "lazy" ++ dq ++ " />")].
Proof. reflexivity. Qed.

(** C3.  The pass is not idempotent on the code: the image rewrite has no
    guard, so a second run matches the tag that the first run produced and
    adds the [loading] attribute once more.  On the component
    [<img src='hero.png'>] the second run yields a text that differs from
    the result of the first. *)
Theorem optimizePerformance_twice_differs :
  components (frontend (optimizePerformance (optimizePerformance hero)))
  = [("Hero.tsx",
      "<img src='hero.png' loading=" ++ dq ++ "lazy" ++ dq ++ " / loading="
        ++ dq ++ "lazy" ++ dq ++ " />")] /\
  optimizePerformance (optimizePerformance hero) <> optimizePerformance hero.
Proof.
  split; [reflexivity|].
  intros H. apply (f_equal (fun c => components (frontend c))) in H.
  vm_compute in H. discriminate H.
Qed.

End PerformancePass.

(** ** Blank lines after the performance pass *)

Module NoBlankLines.
Import JS OptimizerAgent Text.

Section AllChars.
Variable p : ascii -> bool.

Lemma all_chars_app (a b : string) :
  all_chars p (a ++ b) = all_chars p a && all_chars p b.
Proof.
  induction a as [|c a IH]; simpl; [reflexivity|].
  rewrite IH. apply andb_assoc.
Qed.

Lemma all_chars_drop (n : nat) (s : string) :
  all_chars p s = true -> all_chars p (drop n s) = true.
Proof.
  revert s. induction n as [|n IH]; intros s H; [exact H|].
  destruct s as [|c s]; simpl in *; [reflexivity|].
  apply andb_true_iff in H. apply IH, H.
Qed.

Lemma all_chars_trimStart (s : string) :
  all_chars p s = true -> all_chars p (trimStart s) = true.
Proof.
  induction s as [|c s IH]; intros H; simpl; [reflexivity|].
  destruct (is_ws c); [|exact H].
  simpl in H. apply andb_true_iff in H. apply IH, H.
Qed.

Lemma all_chars_trimEnd (s : string) :
  all_chars p s = true -> all_chars p (trimEnd s) = true.
Proof.
  induction s as [|c s IH]; intros H; simpl; [reflexivity|].
  simpl in H. apply andb_true_iff in H. destruct H as [Hc Hs].
  specialize (IH Hs).
  destruct (trimEnd s) as [|d r].
  - destruct (is_ws c); simpl; [reflexivity|]. now rewrite Hc.
  - simpl. rewrite Hc. exact IH.
Qed.

Lemma all_chars_trim (s : string) :
  all_chars p s = true -> all_chars p (trim s) = true.
Proof. intros H. apply all_chars_trimEnd, all_chars_trimStart, H. Qed.

Lemma all_chars_span (q : ascii -> bool) (s : string) :
  all_chars p s = true ->
  all_chars p (fst (span q s)) = true /\ all_chars p (snd (span q s)) = true.
Proof.
  induction s as [|c s IH]; intros H; simpl; [split; reflexivity|].
  simpl in H. apply andb_true_iff in H. destruct H as [Hc Hs].
  destruct (q c).
  - destruct (span q s) as [a b]. simpl in *. destruct (IH Hs) as [Ha Hb].
    split; [now rewrite Hc|exact Hb].
  - simpl. split; [reflexivity|]. now rewrite Hc.
Qed.

Lemma all_chars_split (s : string) (sep : ascii) :
  all_chars p s = true -> Forall (fun x => all_chars p x = true) (split s sep).
Proof.
  induction s as [|c s IH]; intros H; simpl.
  - constructor; [reflexivity|constructor].
  - simpl in H. apply andb_true_iff in H. destruct H as [Hc Hs].
    specialize (IH Hs).
    destruct (Ascii.eqb c sep).
    + constructor; [reflexivity|exact IH].
    + destruct (split s sep) as [|x r].
      * constructor; [simpl; now rewrite Hc|constructor].
      * inversion IH; subst. constructor; [simpl; now rewrite Hc|assumption].
Qed.

Lemma all_chars_join (l : list string) (sep : string) :
  all_chars p sep = true ->
  Forall (fun x => all_chars p x = true) l ->
  all_chars p (join l sep) = true.
Proof.
  intros Hsep H. unfold join. induction H as [|x l Hx Hl IH]; [reflexivity|].
  simpl. destruct l as [|y l]; [exact Hx|].
  rewrite !all_chars_app, Hx, Hsep. exact IH.
Qed.

Lemma all_chars_expand (tmpl matched before after : string) :
  all_chars p tmpl = true -> all_chars p matched = true ->
  all_chars p before = true -> all_chars p after = true ->
  all_chars p (expand tmpl matched before after) = true.
Proof.
  intros Ht Hm Hb Ha.
  assert (G : forall n t, String.length t <= n -> all_chars p t = true ->
                          all_chars p (expand t matched before after) = true).
  { induction n as [|n IH]; intros t Hn Hall.
    - destruct t; [reflexivity|simpl in Hn; lia].
    - destruct t as [|c t]; [reflexivity|].
      simpl in Hall. apply andb_true_iff in Hall. destruct Hall as [Hc Hall].
      assert (Hdef : all_chars p (String c (expand t matched before after)) = true).
      { simpl. rewrite Hc. apply IH; [simpl in Hn; lia|exact Hall]. }
      destruct c as [[] [] [] [] [] [] [] []]; try exact Hdef.
      destruct t as [|d t]; [exact Hdef|].
      assert (Hrest : all_chars p (expand t matched before after) = true).
      { simpl in Hall. apply andb_true_iff in Hall.
        apply IH; [simpl in Hn; lia|apply Hall]. }
      destruct d as [[] [] [] [] [] [] [] []]; try exact Hdef;
      simpl; rewrite ?all_chars_app, ?Hm, ?Hb, ?Ha, ?Hc; simpl; exact Hrest. }
  apply (G (String.length tmpl)); [lia|exact Ht].
Qed.

Lemma all_chars_replace_from (before s pat tmpl : string) :
  all_chars p before = true -> all_chars p s = true ->
  all_chars p pat = true -> all_chars p tmpl = true ->
  all_chars p (replace_from before s pat tmpl) = true.
Proof.
  assert (Hit : forall b s0, all_chars p b = true -> all_chars p s0 = true ->
            all_chars p pat = true -> all_chars p tmpl = true ->
            all_chars p (b ++ expand tmpl pat b (drop (String.length pat) s0)
                           ++ drop (String.length pat) s0) = true).
  { intros b s0 Hb Hs0 Hp Ht. rewrite !all_chars_app, Hb. simpl andb.
    rewrite all_chars_expand; auto using all_chars_drop.
    now rewrite all_chars_drop. }
  revert before. induction s as [|c s IH]; intros before Hb Hs Hp Ht.
  - cbn [replace_from]. destruct (prefix pat ""); [|exact Hb]. now apply Hit.
  - cbn [replace_from]. destruct (prefix pat (String c s)); [now apply Hit|].
    simpl in Hs. apply andb_true_iff in Hs. destruct Hs as [Hc Hs].
    apply IH; auto. rewrite all_chars_app, Hb. simpl. now rewrite Hc.
Qed.

Lemma all_chars_import_match (s g : string) :
  all_chars p s = true -> import_match s = Some g -> all_chars p g = true.
Proof.
  induction s as [|c s IH]; intros Hs Hm.
  - simpl in Hm. unfold import_match_here in Hm. simpl in Hm. discriminate.
  - unfold import_match in Hm; fold import_match in Hm.
    destruct (import_match_here (String c s)) as [g'|] eqn:Hhere.
    + injection Hm as <-. unfold import_match_here in Hhere.
      destruct (prefix "import" (String c s)); [|discriminate].
      pose proof (all_chars_trimStart _ (all_chars_drop 6 _ Hs)) as Hr.
      destruct (trimStart (drop 6 (String c s))) as [|b r]; [discriminate|].
      simpl in Hr. apply andb_true_iff in Hr. destruct Hr as [_ Hr].
      pose proof (all_chars_span (fun c0 => negb (Ascii.eqb c0 "}"%char)) r Hr) as Hsp.
      destruct b as [[] [] [] [] [] [] [] []]; try discriminate.
      destruct (span (fun c0 => negb (Ascii.eqb c0 "}"%char)) r) as [x y].
      simpl in Hsp. destruct x as [|x0 x]; [discriminate|].
      destruct y as [|y0 y]; [discriminate|].
      destruct y0 as [[] [] [] [] [] [] [] []]; try discriminate.
      destruct (prefix "from" (trimStart y)); [|discriminate].
      injection Hhere as <-. apply Hsp.
    + simpl in Hs. apply andb_true_iff in Hs. apply IH; [apply Hs|exact Hm].
Qed.

End AllChars.

(** The pieces of a split hold no separator. *)
Lemma split_pieces_one_line (s : string) :
  Forall (fun x => one_line x = true) (split s nl_char).
Proof.
  unfold one_line. induction s as [|c s IH]; simpl.
  - constructor; [reflexivity|constructor].
  - destruct (Ascii.eqb c nl_char) eqn:E.
    + constructor; [reflexivity|exact IH].
    + destruct (split s nl_char) as [|x r].
      * constructor; [simpl; now rewrite E|constructor].
      * inversion IH; subst. constructor; [simpl; now rewrite E|assumption].
Qed.

Lemma split_single (x : string) :
  one_line x = true -> split x nl_char = [x].
Proof.
  unfold one_line. induction x as [|c x IH]; intros H; [reflexivity|].
  simpl in H. apply andb_true_iff in H. destruct H as [Hc Hx].
  simpl. apply negb_true_iff in Hc. rewrite Hc, (IH Hx). reflexivity.
Qed.

Lemma split_app_nl (x rest : string) :
  one_line x = true ->
  split (x ++ nl ++ rest) nl_char = x :: split rest nl_char.
Proof.
  unfold one_line. induction x as [|c x IH]; intros H.
  - reflexivity.
  - simpl in H. apply andb_true_iff in H. destruct H as [Hc Hx].
    apply negb_true_iff in Hc.
    change (String c x ++ nl ++ rest) with (String c (x ++ nl ++ rest)).
    cbn [split]. rewrite Hc, (IH Hx). reflexivity.
Qed.

(** Splitting what was joined gives the lines back. *)
Lemma split_join (ls : list string) :
  ls <> [] -> Forall (fun x => one_line x = true) ls ->
  split (join ls nl) nl_char = ls.
Proof.
  intros Hne H. induction H as [|x l Hx Hl IH]; [contradiction|].
  destruct l as [|y l].
  - apply split_single, Hx.
  - change (join (x :: y :: l) nl) with (x ++ nl ++ join (y :: l) nl).
    rewrite split_app_nl by exact Hx. f_equal. apply IH. discriminate.
Qed.

(** A rewritten import line is still a single line. *)
Lemma rewrite_import_line_one_line (usedImports : list string) (line : string) :
  one_line line = true -> one_line (rewrite_import_line usedImports line) = true.
Proof.
  intros H. unfold rewrite_import_line.
  destruct (import_match line) as [g|] eqn:Hm; [|exact H].
  pose proof (all_chars_import_match _ _ _ H Hm) as Hg.
  destruct (_ =? 0); [reflexivity|].
  destruct (_ <? _); [|exact H].
  unfold replace, one_line in *. apply all_chars_replace_from; auto.
  - rewrite !all_chars_app, Hg. reflexivity.
  - rewrite !all_chars_app. simpl andb. rewrite andb_true_r.
    apply all_chars_join; [reflexivity|].
    apply incl_Forall with (l1 := import_names g).
    + intros x Hx. apply filter_In in Hx. apply Hx.
    + unfold import_names. apply Forall_map.
      eapply Forall_impl; [|apply all_chars_split, Hg].
      intros a Ha. apply all_chars_trim, Ha.
Qed.

Lemma not_blank_spec (line : string) : not_blank line = true -> ~ blank line.
Proof.
  unfold not_blank, blank. intros H E. rewrite E in H. discriminate.
Qed.

(** [removeUnusedImports] returns the join of single lines none of which is
    blank. *)
Lemma removeUnusedImports_kept_lines (content : string) :
  exists kept,
    removeUnusedImports content = join kept nl
    /\ Forall (fun l => ~ blank l /\ one_line l = true) kept.
Proof.
  unfold removeUnusedImports.
  set (ls := filter not_blank _). exists ls. split; [reflexivity|].
  apply Forall_forall. intros l Hl. apply filter_In in Hl. destruct Hl as [Hl Hnb].
  split; [apply not_blank_spec, Hnb|].
  apply in_map_iff in Hl. destruct Hl as [l0 [<- Hl0]].
  apply rewrite_import_line_one_line.
  pose proof (split_pieces_one_line content) as Hs.
  rewrite Forall_forall in Hs. apply Hs, Hl0.
Qed.

(** [removeUnusedImports] leaves no blank line, whatever the imports. *)
Lemma removeUnusedImports_no_blank_lines (content : string) :
  no_blank_lines (removeUnusedImports content).
Proof.
  unfold no_blank_lines.
  destruct (removeUnusedImports_kept_lines content) as [kept [-> H]].
  assert (Hnb : Forall (fun l => ~ blank l) kept)
    by (eapply Forall_impl; [|exact H]; intros a Ha; apply Ha).
  assert (Hone : Forall (fun x => one_line x = true) kept)
    by (eapply Forall_impl; [|exact H]; intros a Ha; apply Ha).
  destruct kept as [|x l]; [constructor|].
  unfold lines. destruct (join (x :: l) nl) eqn:Ej; [constructor|].
  rewrite <- Ej, split_join; [exact Hnb|discriminate|exact Hone].
Qed.

(** C10.  The output of the performance pass for a frontend component holds
    no blank line: the last step, [removeUnusedImports], splits the text at
    the line feeds, drops every line whose trimmed text is empty and joins
    the rest, whether or not an import was unused.  The output is the join
    of single lines none of which is blank; read back line by line it has no
    blank line, for the rewrite of one component, for every component of a
    rewritten bundle and for [removeUnusedImports] on any text. *)
Theorem performance_pass_leaves_no_blank_line :
  (forall filename content,
      exists kept,
        optimizeComponent filename content = join kept nl
        /\ Forall (fun l => ~ blank l /\ one_line l = true) kept) /\
  (forall filename content, no_blank_lines (optimizeComponent filename content)) /\
  (forall code,
      Forall (fun entry => no_blank_lines (snd entry))
             (components (frontend (optimizePerformance code)))) /\
  (forall content, no_blank_lines (removeUnusedImports content)).
Proof.
  assert (H1 : forall filename content,
             no_blank_lines (optimizeComponent filename content)).
  { intros. unfold optimizeComponent. apply removeUnusedImports_no_blank_lines. }
  split.
  { intros. unfold optimizeComponent. apply removeUnusedImports_kept_lines. }
  split; [exact H1|]. split; [|exact removeUnusedImports_no_blank_lines].
  intros code. simpl. unfold update_each. apply Forall_map.
  apply Forall_forall. intros [k v] _. simpl. apply H1.
Qed.

(** A file without imports loses its blank lines all the same. *)
Example blank_lines_stripped_without_imports :
  removeUnusedImports ("const a = 1;" ++ nl ++ nl ++ "   " ++ nl ++ "const b = 2;")
  = "const a = 1;" ++ nl ++ "const b = 2;".
Proof. reflexivity. Qed.

(** A text of blank lines only becomes the empty text. *)
Example only_blank_lines : removeUnusedImports (nl ++ "  " ++ nl) = "".
Proof. reflexivity. Qed.

End NoBlankLines.

(** ** Status checks *)

Module StatusCheck.
Import DeployAgent.

(** The record that the [catch] clause of [checkDeploymentStatus] returns. *)
Lemma checkDeploymentStatus_unfold agent w deploymentId platform :
  checkDeploymentStatus agent w deploymentId platform =
    match platform_status agent w deploymentId platform with
    | Normal report => Normal report
    | Throw e =>
        Normal {| Status.status := Status.error;
                  Status.url := None;
                  Status.logs := ["Status check failed: " ++ error_message e] |}
    end.
Proof. reflexivity. Qed.

Lemma platform_status_aws agent w deploymentId :
  platform_status agent w deploymentId "aws" = checkAWSStatus deploymentId.
Proof. reflexivity. Qed.

(** C9.  For the platform [aws] the status check answers [ready] with the
    URL [https://<id>.s3-website-us-east-1.amazonaws.com] for every
    deployment id, whatever the agent and the world (the bucket, the region
    in the environment) are; and for every platform the check returns a
    record and never throws: what the check of the platform returns is
    passed on, and what it throws becomes a record with status [error] and
    one log line that gives the message. *)
Theorem checkDeploymentStatus_aws_ready_and_total
    (agent : DeployAgent.t) (w : World) (deploymentId platform : string) :
  checkDeploymentStatus agent w deploymentId "aws" =
    Normal {| Status.status := Status.ready;
              Status.url := Some ("https://" ++ deploymentId
                                    ++ ".s3-website-us-east-1.amazonaws.com");
              Status.logs := ["AWS S3 deployment completed successfully"] |}
  /\ (exists report, checkDeploymentStatus agent w deploymentId platform = Normal report)
  /\ checkDeploymentStatus agent w deploymentId platform =
       match platform_status agent w deploymentId platform with
       | Normal report => Normal report
       | Throw e =>
           Normal {| Status.status := Status.error;
                     Status.url := None;
                     Status.logs := ["Status check failed: " ++ error_message e] |}
       end.
Proof.
  split; [reflexivity|]. split; [|reflexivity].
  rewrite checkDeploymentStatus_unfold.
  destruct (platform_status agent w deploymentId platform); eexists; reflexivity.
Qed.

(** The URL of the status check names the region [us-east-1]; the region of
    the environment, which [deployToAWS] puts into its URL, is not read. *)
Example status_ignores_region :
  checkDeploymentStatus without_tokens Worlds.offline "voxlor-app-1" "aws" =
    Normal {| Status.status := Status.ready;
              Status.url := Some "https://voxlor-app-1.s3-website-us-east-1.amazonaws.com";
              Status.logs := ["AWS S3 deployment completed successfully"] |}.
Proof. reflexivity. Qed.

Example status_without_token :
  checkDeploymentStatus without_tokens Worlds.offline "dpl_1" "vercel" =
    Normal {| Status.status := Status.error;
              Status.url := None;
              Status.logs := ["Status check failed: Vercel token not provided"] |}.
Proof. reflexivity. Qed.

Example status_unknown_platform :
  checkDeploymentStatus without_tokens Worlds.offline "dpl_1" "heroku" =
    Normal {| Status.status := Status.error;
              Status.url := None;
              Status.logs := ["Status check failed: Unsupported platform: heroku"] |}.
Proof. reflexivity. Qed.

End StatusCheck.

(** ** Rollback *)

Module Rollback.
Import DeployAgent Outcome.

Lemma rollbackDeployment_total agent w deploymentId platform :
  exists done, rollbackDeployment agent w deploymentId platform = Normal done.
Proof.
  unfold rollbackDeployment, try_catch.
  destruct (platform_rollback agent w deploymentId platform); eexists; reflexivity.
Qed.

(** The second entry of the list, or the refusal. *)
Lemma previous_short (deployments : list string) :
  List.length deployments < 2 ->
  previous deployments = Throw (Error "No previous deployment to rollback to").
Proof.
  destruct deployments as [|a [|b l]]; simpl; intros H; try reflexivity; lia.
Qed.

Lemma previous_second (deployments : list string) (d : string) :
  nth_error deployments 1 = Some d -> previous deployments = Normal d.
Proof.
  destruct deployments as [|a [|b l]]; simpl; intros H; try discriminate.
  now injection H as ->.
Qed.

(** What the rollback returns once the provider has listed its
    deployments. *)
Lemma rollback_of_list agent w deploymentId platform deployments :
  listed agent w deploymentId platform = Some deployments ->
  rollbackDeployment agent w deploymentId platform =
    Normal match deployments with
           | _ :: target :: _ => succeeds (reinstate w platform target)
           | _ => false
           end.
Proof.
  unfold listed, rollbackDeployment, platform_rollback, reinstate, try_catch.
  destruct (platform =? "vercel")%string.
  { unfold rollbackVercel.
    destruct (present (vercelToken agent)); [simpl|discriminate].
    destruct (vercel_get_deployment w deploymentId) as [d|]; [simpl|discriminate].
    destruct (vercel_list_deployments w (Provider.projectId d)) as [l|];
      [simpl|discriminate].
    intros H. injection H as ->.
    destruct deployments as [|a [|b l]]; simpl; try reflexivity.
    destruct (vercel_promote w b); reflexivity. }
  destruct (platform =? "netlify")%string.
  { unfold rollbackNetlify.
    destruct (present (netlifyToken agent)); [simpl|discriminate].
    destruct (netlify_list_deploys w deploymentId) as [l|]; [simpl|discriminate].
    intros H. injection H as ->.
    destruct deployments as [|a [|b l]]; simpl; try reflexivity.
    destruct (netlify_restore w b); reflexivity. }
  destruct (platform =? "railway")%string; [|discriminate].
  unfold rollbackRailway.
  destruct (present (RAILWAY_TOKEN w)); [simpl|discriminate].
  destruct (railway_list_deployments w) as [l|]; [simpl|discriminate].
  intros H. injection H as ->.
  destruct deployments as [|a [|b l]]; simpl; try reflexivity.
  destruct (railway_rollback w b); reflexivity.
Qed.

(** What the rollback returns when the deployments are not listed: the
    credential is missing, a call before the test of the length fails, or
    the platform is not one of the three. *)
Lemma rollback_unlisted agent w deploymentId platform :
  listed agent w deploymentId platform = None ->
  platform <> "aws" ->
  rollbackDeployment agent w deploymentId platform = Normal false.
Proof.
  unfold listed, rollbackDeployment, platform_rollback, try_catch.
  destruct (platform =? "vercel")%string.
  { unfold rollbackVercel. intros H _.
    destruct (present (vercelToken agent)); [simpl|reflexivity].
    destruct (vercel_get_deployment w deploymentId) as [d|]; [simpl|reflexivity].
    destruct (vercel_list_deployments w (Provider.projectId d)) as [l|];
      [discriminate H|reflexivity]. }
  destruct (platform =? "netlify")%string.
  { unfold rollbackNetlify. intros H _.
    destruct (present (netlifyToken agent)); [simpl|reflexivity].
    destruct (netlify_list_deploys w deploymentId) as [l|];
      [discriminate H|reflexivity]. }
  destruct (platform =? "railway")%string.
  { unfold rollbackRailway. intros H _.
    destruct (present (RAILWAY_TOKEN w)); [simpl|reflexivity].
    destruct (railway_list_deployments w) as [l|]; [discriminate H|reflexivity]. }
  intros _ Haws. destruct (platform =? "aws")%string eqn:E; [|reflexivity].
  apply String.eqb_eq in E. contradiction.
Qed.

(** C4, as the code has it.  [rollbackDeployment] returns a boolean and
    never throws, whatever the agent, the world and the platform are, and
    for aws the result is [true] and no deployment is looked at.  For
    vercel, netlify and railway, once the credential is there and the
    provider has listed its deployments: with fewer than two entries the
    result is [false]; otherwise the provider is asked to put the second
    entry of the list back in place, and the result is [true] exactly when
    that call succeeds.  When the deployments are not listed, for want of a
    credential or because a call fails, the result is [false]. *)
Theorem rollbackDeployment_by_listed_deployments
    (agent : DeployAgent.t) (w : World) (deploymentId platform : string) :
  (exists done, rollbackDeployment agent w deploymentId platform = Normal done)
  /\ rollbackDeployment agent w deploymentId "aws" = Normal true
  /\ (forall deployments,
        listed agent w deploymentId platform = Some deployments ->
        (List.length deployments < 2 ->
           rollbackDeployment agent w deploymentId platform = Normal false)
        /\ (forall target, nth_error deployments 1 = Some target ->
              rollbackDeployment agent w deploymentId platform =
                Normal (succeeds (reinstate w platform target))))
  /\ (listed agent w deploymentId platform = None -> platform <> "aws" ->
        rollbackDeployment agent w deploymentId platform = Normal false).
Proof.
  split; [apply rollbackDeployment_total|]. split; [reflexivity|].
  split; [|apply rollback_unlisted].
  intros deployments H. pose proof (rollback_of_list _ _ _ _ _ H) as R. split.
  - intros Hlen. rewrite R. destruct deployments as [|a [|b l]]; simpl in *;
      try reflexivity; lia.
  - intros target Ht. rewrite R. destruct deployments as [|a [|b l]]; simpl in *;
      try discriminate. now injection Ht as ->.
Qed.

(** Two deployments: the older one, the second of the list, is promoted. *)
Lemma rollback_two_deployments :
  listed Worlds.with_vercel_token Worlds.two_deployments "dpl_2" "vercel"
    = Some ["dpl_2"; "dpl_1"]
  /\ rollbackDeployment Worlds.with_vercel_token Worlds.two_deployments "dpl_2" "vercel"
     = Normal (succeeds (reinstate Worlds.two_deployments "vercel" "dpl_1"))
  /\ succeeds (reinstate Worlds.two_deployments "vercel" "dpl_1") = true.
Proof.
  assert (H : listed Worlds.with_vercel_token Worlds.two_deployments "dpl_2" "vercel"
              = Some ["dpl_2"; "dpl_1"]) by reflexivity.
  destruct (rollbackDeployment_by_listed_deployments
              Worlds.with_vercel_token Worlds.two_deployments "dpl_2" "vercel")
    as [_ [_ [Hlisted _]]].
  destruct (Hlisted _ H) as [_ Hsecond].
  exact (conj H (conj (Hsecond "dpl_1" eq_refl) eq_refl)).
Defined.

(** The claim as the specification words it fails for aws: no provider lists
    a deployment, and the rollback reports success. *)
Lemma rollback_aws_succeeds_without_deployments :
  vercel_list_deployments Worlds.no_deployments "prj_shop" = Normal []
  /\ netlify_list_deploys Worlds.no_deployments "voxlor-app-1" = Normal []
  /\ railway_list_deployments Worlds.no_deployments = Normal []
  /\ rollbackDeployment without_tokens Worlds.no_deployments "voxlor-app-1" "aws"
     = Normal true.
Proof. repeat split. Qed.

(** Without a second deployment the rollback of vercel reports failure as
    the value [false], not as an exception. *)
Example rollback_vercel_single_deployment :
  rollbackDeployment Worlds.with_vercel_token Worlds.no_deployments "dpl_1" "vercel"
  = Normal false.
Proof. reflexivity. Qed.

End Rollback.

(** ** Refinement of a plan *)

Module Refinement.
Import PlannerAgent.

(** A response without a JSON object makes [parsePlan] return the plan of
    its [catch] clause. *)
Lemma parsePlan_without_json w planContent originalPrompt :
  json_object_match planContent = None ->
  parsePlan w planContent originalPrompt = createFallbackPlan originalPrompt.
Proof. intros H. unfold parsePlan. rewrite H. reflexivity. Qed.

(** So does a JSON object that [JSON.parse] rejects. *)
Lemma parsePlan_with_bad_json w planContent originalPrompt jsonMatch e :
  json_object_match planContent = Some jsonMatch ->
  parse_plan w jsonMatch = Throw e ->
  parsePlan w planContent originalPrompt = createFallbackPlan originalPrompt.
Proof. intros H1 H2. unfold parsePlan. rewrite H1, H2. reflexivity. Qed.

(** When the model client or the text generation fails, the plan comes back
    as it was given. *)
Lemma refinePlan_keeps_plan_when_generation_fails w plan feedback :
  (exists e, getModelClient w = Throw e) \/
  (exists e, generateText w (RefinementPrompt plan feedback) = Throw e) ->
  refinePlan w plan feedback = Normal plan.
Proof.
  unfold refinePlan, try_catch, bind. intros [[e H]|[e H]].
  - rewrite H. reflexivity.
  - rewrite H. destruct (getModelClient w); reflexivity.
Qed.

(** When the response cannot be parsed, the exception stays inside
    [parsePlan]: the [catch] clause of [refinePlan] is not reached and the
    result is the generic plan, named after the name of the plan given. *)
Lemma refinePlan_generic_when_parsing_fails w plan feedback refinedText :
  getModelClient w = Normal tt ->
  generateText w (RefinementPrompt plan feedback) = Normal refinedText ->
  json_object_match refinedText = None ->
  refinePlan w plan feedback = Normal (createFallbackPlan (Plan.name plan)).
Proof.
  intros H1 H2 H3. unfold refinePlan, try_catch, bind. rewrite H1, H2.
  now rewrite parsePlan_without_json.
Qed.

(** C5.  The code departs from the claim when the response cannot be
    parsed.  The recipe plan is refined with a text generation that answers
    [I cannot answer that.]: the result is the generic plan named
    [Recipe App], with the generic description, features, stack and
    structure, and not the plan that was given. *)
Theorem refinePlan_replaces_plan_on_unparseable_response :
  refinePlan Worlds.chatty Worlds.recipe_plan "add a shopping list"
    = Normal (createFallbackPlan "Recipe Box")
  /\ Plan.name (createFallbackPlan "Recipe Box") = "Recipe App"
  /\ createFallbackPlan "Recipe Box" <> Worlds.recipe_plan.
Proof.
  repeat split. intros H. apply (f_equal Plan.name) in H. discriminate H.
Qed.

End Refinement.

(** ** A run whose deployment fails *)

Module Run.
Import VoxlorOrchestrator.

(** The deploy agent of the orchestrator has no token: its deployment to
    vercel stops at the test of the token. *)
Lemma orchestrator_deployment_fails w code :
  DeployAgent.deployApp deployAgent w code production =
    Normal {| DeploymentResult.success := false;
              DeploymentResult.url := None;
              DeploymentResult.deploymentId := None;
              DeploymentResult.logs := [];
              DeploymentResult.errors := ["Vercel token not provided"] |}.
Proof. reflexivity. Qed.

(** C2.  When the four stages before it have returned and the deploy call
    returns a result that is not a success with a URL, [generateApp] pushes
    the run error [Deployment failed], sets no deployment URL and reports
    [success: true]; the research and the optimization are in the result,
    and its code is the bundle as the optimizer has left it. *)
Theorem generateApp_succeeds_when_deployment_fails
    (w : World) (request : Request.t) (summary : ResearchSummary.t)
    (plan : Plan.t) (generated : GeneratedCode) (deployment : DeploymentResult.t) :
  ResearchAgent.researchApp w (Request.prompt request) None = Normal summary ->
  PlannerAgent.planApp w request (Some summary) = Normal plan ->
  CodeAgent.generateCode w plan = Normal generated ->
  DeployAgent.deployApp deployAgent w
    (OptimizerAgent.optimizedCode (OptimizerAgent.optimizeCode generated)) production
    = Normal deployment ->
  DeploymentResult.success deployment && present (DeploymentResult.url deployment)
    = false ->
  success (generateApp w request) = true
  /\ deploymentUrl (generateApp w request) = None
  /\ errors (generateApp w request) = ["Deployment failed"]
  /\ logs (generateApp w request) =
       ["✅ Research completed"; "✅ App structure planned"; "✅ Code generated";
        "✅ Code optimized"; "❌ Deployment failed"]
  /\ research (generateApp w request) = Some summary
  /\ code (generateApp w request)
     = Some (OptimizerAgent.optimizedCode (OptimizerAgent.optimizeCode generated))
  /\ optimization (generateApp w request) = Some (OptimizerAgent.optimizeCode generated).
Proof.
  intros Hr Hp Hc Hd Hfail. unfold generateApp.
  rewrite Hr, Hp, Hc, Hd, Hfail. repeat split.
Qed.

(** The run of the request for a todo list app in a world whose text
    generation answers without JSON: every stage falls back, the deployment
    fails for want of a token, and the run reports success. *)
Lemma generateApp_todo_list_run :
  ResearchAgent.researchApp Worlds.chatty "todo list app" None
    = Normal ResearchAgent.fallback_summary
  /\ PlannerAgent.planApp Worlds.chatty Worlds.todo_request
       (Some ResearchAgent.fallback_summary)
     = Normal (PlannerAgent.createFallbackPlan "todo list app")
  /\ CodeAgent.generateCode Worlds.chatty (PlannerAgent.createFallbackPlan "todo list app")
     = Normal Worlds.fallback_code
  /\ DeployAgent.deployApp deployAgent Worlds.chatty
       (OptimizerAgent.optimizedCode (OptimizerAgent.optimizeCode Worlds.fallback_code))
       production
     = Normal Worlds.refused_deployment
  /\ success (generateApp Worlds.chatty Worlds.todo_request) = true
  /\ deploymentUrl (generateApp Worlds.chatty Worlds.todo_request) = None
  /\ errors (generateApp Worlds.chatty Worlds.todo_request) = ["Deployment failed"].
Proof.
  assert (Hr : ResearchAgent.researchApp Worlds.chatty
                 (Request.prompt Worlds.todo_request) None
               = Normal ResearchAgent.fallback_summary) by reflexivity.
  assert (Hp : PlannerAgent.planApp Worlds.chatty Worlds.todo_request
                 (Some ResearchAgent.fallback_summary)
               = Normal (PlannerAgent.createFallbackPlan "todo list app"))
    by reflexivity.
  assert (Hc : CodeAgent.generateCode Worlds.chatty
                 (PlannerAgent.createFallbackPlan "todo list app")
               = Normal Worlds.fallback_code) by reflexivity.
  assert (Hd : DeployAgent.deployApp deployAgent Worlds.chatty
                 (OptimizerAgent.optimizedCode
                    (OptimizerAgent.optimizeCode Worlds.fallback_code)) production
               = Normal Worlds.refused_deployment) by reflexivity.
  destruct (generateApp_succeeds_when_deployment_fails
              Worlds.chatty Worlds.todo_request _ _ _ _ Hr Hp Hc Hd eq_refl)
    as [H1 [H2 [H3 _]]].
  exact (conj Hr (conj Hp (conj Hc (conj Hd (conj H1 (conj H2 H3)))))).
Defined.

(** A stage that throws ends the run with [success: false]. *)
Example generateApp_offline :
  success (generateApp Worlds.offline Worlds.todo_request) = false
  /\ errors (generateApp Worlds.offline Worlds.todo_request) = ["Network Error"].
Proof. split; reflexivity. Qed.

End Run.

(** ** Relevance *)

Module Relevance.
Import JS ResearchAgent Outcome.

(** Whether [match_count] throws depends on the pattern alone. *)
Lemma match_count_accepted w subject keyword :
  accepted w keyword = true ->
  exists n, match_count w subject (toLowerCase keyword) = Normal n.
Proof.
  unfold accepted, match_count.
  destruct (classify (toLowerCase keyword)); intros H;
    [eexists; reflexivity|discriminate|].
  destruct (regexp w (toLowerCase keyword)); [eexists; reflexivity|discriminate].
Qed.

Lemma match_count_rejected w subject keyword :
  accepted w keyword = false ->
  exists e, match_count w subject (toLowerCase keyword) = Throw e.
Proof.
  unfold accepted, match_count.
  destruct (classify (toLowerCase keyword)); intros H;
    [discriminate|eexists; reflexivity|].
  destruct (regexp w (toLowerCase keyword)); [discriminate|eexists; reflexivity].
Qed.

Lemma add_matches_accepted w contentLower keywords :
  forallb (accepted w) keywords = true ->
  forall score, (0 <= score)%Q ->
  exists total, add_matches w contentLower keywords score = Normal total
                /\ (0 <= total)%Q.
Proof.
  induction keywords as [|k ks IH]; intros Hall score Hs.
  - exists score. split; [reflexivity|exact Hs].
  - simpl in Hall. apply andb_true_iff in Hall. destruct Hall as [Hk Hks].
    destruct (match_count_accepted w contentLower k Hk) as [n Hn].
    simpl. rewrite Hn. simpl. apply IH; [exact Hks|].
    rewrite <- (Qplus_0_r 0). apply Qplus_le_compat; [exact Hs|].
    apply Qmult_le_0_compat; [|discriminate].
    change 0%Q with (inject_Z 0). rewrite <- Zle_Qle. lia.
Qed.

Lemma add_matches_rejected w contentLower keywords :
  forallb (accepted w) keywords = false ->
  forall score, exists e, add_matches w contentLower keywords score = Throw e.
Proof.
  induction keywords as [|k ks IH]; intros Hall score; [discriminate|].
  simpl in Hall. simpl.
  destruct (accepted w k) eqn:Hk.
  - destruct (match_count_accepted w contentLower k Hk) as [n Hn].
    rewrite Hn. simpl. apply IH. exact Hall.
  - destruct (match_count_rejected w contentLower k Hk) as [e He].
    rewrite He. eexists; reflexivity.
Qed.

(** [calculateRelevance] returns exactly when every keyword is an accepted
    pattern, and then with a value between 0 and 1. *)
Lemma calculateRelevance_accepted w content keywords :
  forallb (accepted w) keywords = true ->
  exists relevance, calculateRelevance w content keywords = Normal relevance
                    /\ (0 <= relevance <= 1)%Q.
Proof.
  intros H. unfold calculateRelevance.
  destruct (add_matches_accepted w (toLowerCase content) keywords H 0%Q (Qle_refl 0))
    as [total [Ht Hpos]].
  rewrite Ht. simpl. eexists. split; [reflexivity|]. split.
  - apply Q.min_glb; [exact Hpos|discriminate].
  - apply Q.le_min_r.
Qed.

Lemma calculateRelevance_rejected w content keywords :
  forallb (accepted w) keywords = false ->
  exists e, calculateRelevance w content keywords = Throw e.
Proof.
  intros H. unfold calculateRelevance.
  destruct (add_matches_rejected w (toLowerCase content) keywords H 0%Q) as [e He].
  rewrite He. eexists; reflexivity.
Qed.

Lemma relevance_between_0_and_1 w content keywords relevance :
  calculateRelevance w content keywords = Normal relevance ->
  (0 <= relevance <= 1)%Q.
Proof.
  intros H. destruct (forallb (accepted w) keywords) eqn:E.
  - destruct (calculateRelevance_accepted w content keywords E) as [r [Hr Hb]].
    rewrite Hr in H. injection H as <-. exact Hb.
  - destruct (calculateRelevance_rejected w content keywords E) as [e He].
    rewrite He in H. discriminate.
Qed.

(** For keywords without syntax characters the score is a tenth per
    occurrence, capped at 1, in the exact sum of the model. *)
Lemma add_matches_plain w contentLower keywords :
  forallb plain keywords = true ->
  forall score,
  exists total,
    add_matches w contentLower keywords score = Normal total
    /\ (total == score
                  + inject_Z (Z.of_nat
                      (list_sum (map (fun k => count_plain contentLower (toLowerCase k))
                                     keywords))) * (1 # 10))%Q.
Proof.
  induction keywords as [|k ks IH]; intros Hall score.
  - exists score. split; [reflexivity|]. simpl. ring.
  - simpl in Hall. apply andb_true_iff in Hall. destruct Hall as [Hk Hks].
    unfold plain in Hk. cbn [add_matches]. unfold match_count.
    destruct (classify (toLowerCase k)); try discriminate. cbn [bind].
    destruct (IH Hks (score + inject_Z (Z.of_nat (count_plain contentLower (toLowerCase k)))
                               * (1 # 10))%Q) as [total [Ht Heq]].
    exists total. split; [exact Ht|]. rewrite Heq.
    unfold list_sum. cbn [map fold_right]. rewrite Nat2Z.inj_add, inject_Z_plus. ring.
Qed.

Lemma calculateRelevance_plain w content keywords :
  forallb plain keywords = true ->
  exists relevance,
    calculateRelevance w content keywords = Normal relevance
    /\ (relevance == Qmin (inject_Z (Z.of_nat (occurrences content keywords)) * (1 # 10)) 1)%Q.
Proof.
  intros H. unfold calculateRelevance, occurrences.
  destruct (add_matches_plain w (toLowerCase content) keywords H 0%Q) as [total [Ht Heq]].
  rewrite Ht. cbn [bind]. eexists. split; [reflexivity|].
  apply Q.min_compat; [|reflexivity]. rewrite Heq. ring.
Qed.

(** A tenth per occurrence, for keywords without syntax characters. *)
Example relevance_of_plain_keywords w :
  exists relevance,
    calculateRelevance w "React hooks: a React guide" ["React"]
      = Normal relevance
    /\ (relevance == 2 # 10)%Q.
Proof. eexists. split; reflexivity. Qed.

Example relevance_is_capped w :
  exists relevance,
    calculateRelevance w "go go go go go go go go go go go go" ["go"]
      = Normal relevance
    /\ (relevance == 1)%Q.
Proof. eexists. split; reflexivity. Qed.

(** C8.  The computation fails for a keyword that is not a valid pattern.
    The keyword [C++] is lowered to [c++] and handed to [new RegExp]: the
    second [+] has nothing to repeat, the constructor throws a SyntaxError
    and [calculateRelevance] returns no score, whatever the world is. *)
Theorem calculateRelevance_throws_on_keyword_cpp (w : World) :
  calculateRelevance w "Modern C++ tutorial for beginners" ["tutorial"; "C++"]
  = Throw (SyntaxError "Invalid regular expression: /c++/g: Nothing to repeat").
Proof. reflexivity. Qed.

End Relevance.

(** ** The search fallback chain and the research stage *)

Module Research.
Import JS ResearchAgent Outcome.

(** The hit loop pushes a result only if the relevance could be computed,
    so after a push it cannot throw any more, and before a throw nothing was
    pushed. *)
Lemma collect_accepted w keywords hits results :
  forallb (Outcome.accepted w) keywords = true ->
  snd (collect w keywords hits results) = None.
Proof.
  intros H. revert results. induction hits as [|h hs IH]; intros results;
    [reflexivity|].
  simpl. unfold result_of_hit.
  destruct (Hit.href h) as [u|]; [|apply IH].
  destruct (truthy (Hit.title h) && truthy u && truthy (Hit.snippet h)); [|apply IH].
  destruct (Relevance.calculateRelevance_accepted w (Hit.snippet h) keywords H)
    as [r [Hr _]].
  rewrite Hr. simpl. apply IH.
Qed.

Lemma collect_rejected w keywords hits results :
  forallb (Outcome.accepted w) keywords = false ->
  fst (collect w keywords hits results) = results.
Proof.
  intros H. revert results. induction hits as [|h hs IH]; intros results;
    [reflexivity|].
  simpl. unfold result_of_hit.
  destruct (Hit.href h) as [u|]; [|apply IH].
  destruct (truthy (Hit.title h) && truthy u && truthy (Hit.snippet h)); [|apply IH].
  destruct (Relevance.calculateRelevance_rejected w (Hit.snippet h) keywords H)
    as [e He].
  rewrite He. reflexivity.
Qed.

Lemma primary_search_throw_empty w keywords :
  snd (primary_search w keywords) <> None -> fst (primary_search w keywords) = [].
Proof.
  unfold primary_search. destruct (duckduckgo w (join keywords " ")) as [hits|e];
    [|reflexivity].
  destruct (forallb (Outcome.accepted w) keywords) eqn:E.
  - rewrite collect_accepted by exact E. intros H. contradiction H. reflexivity.
  - intros _. apply collect_rejected, E.
Qed.

(** [fallbackSearch] and [searchWeb] return. *)
Lemma fallbackSearch_total w keywords :
  exists results, fallbackSearch w keywords = Normal results.
Proof. eexists. reflexivity. Qed.

Lemma searchWeb_total w keywords :
  ResearchAgent.searchWeb w keywords = Normal (search_results w keywords).
Proof.
  unfold search_results, searchWeb.
  destruct (fallbackSearch_total w keywords) as [more Hmore]. rewrite Hmore.
  destruct (primary_search w keywords) as [results [e|]]; simpl; [reflexivity|].
  destruct (List.length results =? 0); reflexivity.
Qed.

Lemma fallbackSearch_nothing w keywords :
  comes_to_nothing (searchWithAlternativeEngines w keywords) ->
  comes_to_nothing (searchWithCachedResults w keywords) ->
  comes_to_nothing (searchWithAIKnowledge w keywords) ->
  fallbackSearch w keywords = Normal [].
Proof.
  unfold fallbackSearch, try_catch, comes_to_nothing. cbn [first_results].
  destruct (searchWithAlternativeEngines w keywords) as [[|a l]|];
    try contradiction; intros _;
  destruct (searchWithCachedResults w keywords) as [[|b m]|];
    try contradiction; intros _;
  destruct (searchWithAIKnowledge w keywords) as [[|c n]|];
    try contradiction; intros _; reflexivity.
Qed.

(** C6.  When the primary provider, the alternative providers, the cache
    and the knowledge of the text generation all fail or yield no result,
    [searchWeb] returns the empty sequence and does not throw. *)
Theorem searchWeb_empty_when_all_strategies_come_to_nothing
    (w : World) (keywords : list string) :
  primary_comes_to_nothing w keywords ->
  comes_to_nothing (searchWithAlternativeEngines w keywords) ->
  comes_to_nothing (searchWithCachedResults w keywords) ->
  comes_to_nothing (searchWithAIKnowledge w keywords) ->
  ResearchAgent.searchWeb w keywords = Normal [].
Proof.
  intros Hp Ha Hc Hk.
  assert (Hempty : fst (primary_search w keywords) = []).
  { destruct Hp as [Hp|Hp]; [apply primary_search_throw_empty, Hp|exact Hp]. }
  unfold searchWeb. rewrite (fallbackSearch_nothing w keywords Ha Hc Hk).
  destruct (primary_search w keywords) as [results thrown]. simpl in Hempty. subst.
  destruct thrown; reflexivity.
Qed.

(** The scenario of the specification: the keyword [xyzxyz_no_such_topic]
    with every call to the outside failing. *)
Lemma searchWeb_offline :
  primary_comes_to_nothing Worlds.offline ["xyzxyz_no_such_topic"]
  /\ comes_to_nothing (searchWithAlternativeEngines Worlds.offline ["xyzxyz_no_such_topic"])
  /\ comes_to_nothing (searchWithCachedResults Worlds.offline ["xyzxyz_no_such_topic"])
  /\ comes_to_nothing (searchWithAIKnowledge Worlds.offline ["xyzxyz_no_such_topic"])
  /\ ResearchAgent.searchWeb Worlds.offline ["xyzxyz_no_such_topic"] = Normal [].
Proof.
  assert (Hp : primary_comes_to_nothing Worlds.offline ["xyzxyz_no_such_topic"]).
  { left. vm_compute. discriminate. }
  assert (Ha : comes_to_nothing
                 (searchWithAlternativeEngines Worlds.offline ["xyzxyz_no_such_topic"])).
  { vm_compute. exact I. }
  assert (Hc : comes_to_nothing
                 (searchWithCachedResults Worlds.offline ["xyzxyz_no_such_topic"])).
  { vm_compute. exact I. }
  assert (Hk : comes_to_nothing
                 (searchWithAIKnowledge Worlds.offline ["xyzxyz_no_such_topic"])).
  { vm_compute. exact I. }
  exact (conj Hp (conj Ha (conj Hc (conj Hk
           (searchWeb_empty_when_all_strategies_come_to_nothing _ _ Hp Ha Hc Hk))))).
Defined.

(** With the network down, no cache file and a text generation that fails,
    every strategy comes to nothing, whatever the keywords are. *)
Lemma searchWeb_network_down w keywords :
  (forall query, exists e, duckduckgo w query = Throw e) ->
  (forall engine query, exists e, search_engine w engine query = Throw e) ->
  cache_exists w = false ->
  (exists e, llama3_generate w (KnowledgePrompt keywords) = Throw e) ->
  ResearchAgent.searchWeb w keywords = Normal [].
Proof.
  intros Hd He Hc [e Hk].
  assert (Hnothing : fallbackSearch w keywords = Normal []).
  { apply fallbackSearch_nothing.
    - unfold searchWithAlternativeEngines, engines, comes_to_nothing.
      cbn [try_engines].
      destruct (He "https://www.startpage.com/sp/search?query=" (join keywords " "))
        as [e1 ->].
      destruct (He "https://search.yahoo.com/search?p=" (join keywords " ")) as [e2 ->].
      destruct (He "https://www.ecosia.org/search?q=" (join keywords " ")) as [e3 ->].
      exact I.
    - unfold searchWithCachedResults. rewrite Hc. exact I.
    - unfold searchWithAIKnowledge. rewrite Hk. exact I. }
  unfold searchWeb. rewrite Hnothing. unfold primary_search.
  destruct (Hd (join keywords " ")) as [e' ->]. reflexivity.
Qed.

(** A primary provider that found nothing and alternatives that found
    something: the results of the first alternative that has any. *)
Example fallback_stops_at_first_results (r : ResearchResult.t) :
  first_results [ fun _ => Throw Worlds.network_error;
                  fun _ => Normal [];
                  fun _ => Normal [r];
                  fun _ => Throw Worlds.network_error ] = [r].
Proof. reflexivity. Qed.

(** *** The research stage *)

Lemma extractKeywords_unfold w prompt plan :
  extractKeywords w prompt plan =
    match llama3_generate w (KeywordPrompt prompt plan) with
    | Normal content => Normal (keywords_of w prompt content)
    | Throw e => Throw e
    end.
Proof.
  unfold extractKeywords, keywords_of, bind.
  destruct (llama3_generate w (KeywordPrompt prompt plan)) as [content|e];
    [|reflexivity].
  destruct (json_array_match content) as [m|]; [|reflexivity].
  destruct (parse_keywords w m); reflexivity.
Qed.

Lemma analyzeResults_unfold w results prompt :
  analyzeResults w results prompt =
    match llama3_generate w (AnalysisPrompt results prompt) with
    | Normal content => Normal (summary_of w content)
    | Throw e => Throw e
    end.
Proof.
  unfold analyzeResults, summary_of, bind.
  destruct (llama3_generate w (AnalysisPrompt results prompt)) as [content|e];
    [|reflexivity].
  destruct (json_object_match content) as [m|]; [|reflexivity].
  destruct (parse_summary w m); reflexivity.
Qed.

(** C1, as the code has it.  [researchApp] throws exactly when one of its
    own two text generation calls fails, the one for the keywords or the one
    for the analysis, and then with the exception of that call.  Otherwise
    it returns a summary: the search in between cannot fail, a keyword
    response without a parseable array gives the keywords of the prompt,
    and an analysis response without a parseable object gives the static
    default summary. *)
Theorem researchApp_fails_only_with_text_generation
    (w : World) (prompt : string) (plan : option Plan.t) :
  researchApp w prompt plan =
    match llama3_generate w (KeywordPrompt prompt plan) with
    | Throw e => Throw e
    | Normal keywordText =>
        let keywords := keywords_of w prompt keywordText in
        let searchResults := search_results w keywords in
        match llama3_generate w (AnalysisPrompt searchResults prompt) with
        | Throw e => Throw e
        | Normal analysisText => Normal (summary_of w analysisText)
        end
    end.
Proof.
  unfold researchApp. rewrite extractKeywords_unfold.
  destruct (llama3_generate w (KeywordPrompt prompt plan)) as [keywordText|e];
    [|reflexivity].
  simpl. rewrite searchWeb_total. simpl. apply analyzeResults_unfold.
Qed.

(** The claim as the specification words it fails when the text generation
    client fails: the exception of the keyword call leaves [researchApp]. *)
Lemma researchApp_throws_when_text_generation_fails :
  researchApp Worlds.offline "todo list app" None = Throw Worlds.network_error
  /\ ~ (exists summary,
          researchApp Worlds.offline "todo list app" None = Normal summary).
Proof.
  split; [reflexivity|]. intros [summary H]. discriminate H.
Qed.

(** With a text generation that answers without JSON the default summary
    comes back. *)
Example researchApp_default_summary :
  researchApp Worlds.chatty "todo list app" None = Normal fallback_summary.
Proof. reflexivity. Qed.

End Research.

(** * Further properties *)

(** ** Occurrences of a text in another *)

Module Substrings.
Import JS Text Border.

Lemma append_nil_r (s : string) : s ++ "" = s.
Proof. induction s as [|c s IH]; simpl; [reflexivity|now rewrite IH]. Qed.

Lemma append_assoc (a b c : string) : (a ++ b) ++ c = a ++ b ++ c.
Proof. induction a as [|x a IH]; simpl; [reflexivity|now rewrite IH]. Qed.

Lemma length_append (a b : string) :
  String.length (a ++ b) = String.length a + String.length b.
Proof. induction a as [|x a IH]; simpl; [reflexivity|now rewrite IH]. Qed.

Lemma append_inv_head (a x y : string) : a ++ x = a ++ y -> x = y.
Proof.
  induction a as [|c a IH]; simpl; intros H; [exact H|].
  injection H as H. now apply IH.
Qed.

Lemma append_inv_tail (x y s : string) : x ++ s = y ++ s -> x = y.
Proof.
  revert y. induction x as [|c x IH]; intros [|d y] H; simpl in H.
  - reflexivity.
  - apply (f_equal String.length) in H. simpl in H. rewrite length_append in H. lia.
  - apply (f_equal String.length) in H. simpl in H. rewrite length_append in H. lia.
  - injection H as -> H. f_equal. now apply IH.
Qed.

Lemma prefix_nil (s : string) : prefix "" s = true.
Proof. destruct s; reflexivity. Qed.

Lemma prefix_spec (p s : string) : prefix p s = true <-> exists r, s = p ++ r.
Proof.
  revert s. induction p as [|c p IH]; intros s.
  - rewrite prefix_nil. split; [intros _; now exists s|reflexivity].
  - destruct s as [|d s]; simpl.
    + split; [discriminate|intros [r H]; discriminate H].
    + destruct (Ascii.ascii_dec c d) as [<-|N].
      * rewrite IH. split; intros [r H]; exists r; [now rewrite H|].
        now injection H.
      * split; [discriminate|]. intros [r H]. injection H as <- _. contradiction.
Qed.

Lemma prefix_append (p r : string) : prefix p (p ++ r) = true.
Proof. apply prefix_spec. now exists r. Qed.

Lemma prefix_refl (p : string) : prefix p p = true.
Proof. apply prefix_spec. exists "". now rewrite append_nil_r. Qed.

Lemma drop_append (p r : string) : drop (String.length p) (p ++ r) = r.
Proof. induction p as [|c p IH]; simpl; [now destruct r|exact IH]. Qed.

Lemma drop_suffix (n : nat) (s : string) : exists p, s = p ++ drop n s.
Proof.
  revert s. induction n as [|n IH]; intros s; [now exists ""|].
  destruct s as [|c s]; [now exists ""|]. simpl.
  destruct (IH s) as [p H]. exists (String c p). simpl. now rewrite <- H.
Qed.

Lemma span_append (p : ascii -> bool) (s a b : string) : span p s = (a, b) -> s = a ++ b.
Proof.
  revert a b. induction s as [|c s IH]; simpl; intros a b H.
  - now injection H as <- <-.
  - destruct (p c).
    + destruct (span p s) as [a' b']. injection H as <- <-. simpl.
      now rewrite (IH a' b').
    + now injection H as <- <-.
Qed.

(** [s.includes(sub)]: [sub] stands somewhere in [s]. *)
Lemma includes_spec (s sub : string) :
  includes s sub = true <-> exists a b, s = a ++ sub ++ b.
Proof.
  induction s as [|c s IH]; cbn [includes].
  - rewrite orb_false_r. rewrite prefix_spec. split.
    + intros [r H]. now exists "", r.
    + intros (a & b & H). destruct a; [now exists b|discriminate H].
  - rewrite orb_true_iff, IH, prefix_spec. split.
    + intros [[r H]|(a & b & H)]; [now exists "", r|].
      exists (String c a), b. simpl. now rewrite H.
    + intros (a & b & H). destruct a as [|d a]; [left; now exists b|].
      right. injection H as _ H. now exists a, b.
Qed.

Lemma includes_refl (s : string) : includes s s = true.
Proof. apply includes_spec. exists "", "". simpl. now rewrite append_nil_r. Qed.

Lemma includes_append_l (a b sub : string) :
  includes a sub = true -> includes (a ++ b) sub = true.
Proof.
  rewrite !includes_spec. intros (x & y & ->). exists x, (y ++ b).
  now rewrite !append_assoc.
Qed.

Lemma includes_append_r (a b sub : string) :
  includes b sub = true -> includes (a ++ b) sub = true.
Proof.
  rewrite !includes_spec. intros (x & y & ->). exists (a ++ x), y.
  now rewrite !append_assoc.
Qed.

Lemma includes_middle (a sub b : string) : includes (a ++ sub ++ b) sub = true.
Proof. apply includes_spec. now exists a, b. Qed.

Lemma includes_trans (s t u : string) :
  includes s t = true -> includes t u = true -> includes s u = true.
Proof.
  rewrite !includes_spec. intros (a & b & ->) (x & y & ->).
  exists (a ++ x), (y ++ b). now rewrite !append_assoc.
Qed.

(** A text that begins [x ++ b] begins with [x], or [x] with it. *)
Lemma prefix_append_cases (p x b : string) :
  prefix p (x ++ b) = true -> prefix p x = true \/ prefix x p = true.
Proof.
  revert x. induction p as [|c p IH]; intros x H; [left; apply prefix_nil|].
  destruct x as [|d x]; [right; reflexivity|]. simpl in *.
  destruct (Ascii.ascii_dec c d) as [<-|N]; [|discriminate H].
  destruct (Ascii.ascii_dec c c) as [_|N]; [|contradiction]. now apply IH.
Qed.

Lemma prefix_append_split (sub a r : string) :
  prefix sub (a ++ r) = true ->
  prefix sub a = true \/ exists v, v <> "" /\ sub = a ++ v /\ prefix v r = true.
Proof.
  revert sub. induction a as [|c a IH]; intros sub H.
  - destruct sub as [|d sub]; [left; reflexivity|].
    right. exists (String d sub). repeat split; [discriminate|exact H].
  - destruct sub as [|d sub]; [left; reflexivity|]. simpl in *.
    destruct (Ascii.ascii_dec d c) as [->|N]; [|discriminate H].
    destruct (IH sub H) as [Hp|(v & Hv & -> & Hr)]; [now left|].
    right. now exists v.
Qed.

Lemma tails_clear_tail (a v x : string) :
  tails_clear (a ++ v) x = true -> v <> "" -> comparable v x = false.
Proof.
  induction a as [|c a IH]; simpl; intros H Hv.
  - destruct v as [|d v]; [contradiction|]. simpl in H.
    apply andb_true_iff in H as [H _]. now apply negb_true_iff in H.
  - apply andb_true_iff in H as [_ H]. now apply IH.
Qed.

Lemma occurrence_after (x b sub : string) :
  tails_clear x sub = true -> includes (x ++ b) sub = true -> includes b sub = true.
Proof.
  induction x as [|c x IH]; intros Hc H; [exact H|].
  cbn [tails_clear] in Hc. apply andb_true_iff in Hc as [Hn Hc].
  apply negb_true_iff in Hn. unfold comparable in Hn.
  apply orb_false_iff in Hn as [Hxs Hsx].
  change (String c x ++ b) with (String c (x ++ b)) in H. cbn [includes] in H.
  apply orb_true_iff in H as [H|H]; [|now apply IH].
  change (String c (x ++ b)) with (String c x ++ b) in H.
  apply prefix_append_cases in H as [H|H]; congruence.
Qed.

(** An occurrence of [sub] in a text around [x], of which [sub] is clear,
    lies before [x] or after it. *)
Lemma occurrence_beside (a x b sub : string) :
  clear_of x sub = true ->
  includes (a ++ x ++ b) sub = true ->
  includes a sub = true \/ includes b sub = true.
Proof.
  unfold clear_of. intros Hc. apply andb_true_iff in Hc as [Hx Hs].
  destruct sub as [|d sub']; [discriminate Hs|].
  induction a as [|c a IH]; intros H.
  - right. now apply (occurrence_after x b).
  - change (String c a ++ x ++ b) with (String c (a ++ x ++ b)) in H.
    cbn [includes] in H. apply orb_true_iff in H as [H|H].
    + change (String c (a ++ x ++ b)) with (String c a ++ x ++ b) in H.
      apply prefix_append_split in H as [H|(v & Hv & E & H)].
      * left. cbn [includes]. now rewrite H.
      * exfalso. injection E as -> ->.
        pose proof (tails_clear_tail a v x Hs Hv) as Hcmp.
        unfold comparable in Hcmp. apply orb_false_iff in Hcmp as [H1 H2].
        apply prefix_append_cases in H as [H|H]; congruence.
    + destruct (IH H) as [Ha|Hb]; [left|now right].
      cbn [includes]. rewrite Ha. apply orb_true_r.
Qed.

Lemma expand_plain (tmpl matched before after : string) :
  plain_template tmpl = true -> expand tmpl matched before after = tmpl.
Proof.
  unfold plain_template.
  induction tmpl as [|c t IH]; [reflexivity|]. cbn [all_chars].
  intros H. apply andb_true_iff in H as [Hc Ht].
  assert (E : expand (String c t) matched before after
              = String c (expand t matched before after)).
  { destruct c as [[] [] [] [] [] [] [] []]; try reflexivity. discriminate Hc. }
  rewrite E. now rewrite IH.
Qed.

Lemma replace_from_spec (before s pat tmpl : string) :
  (includes s pat = false /\ replace_from before s pat tmpl = before ++ s)
  \/ exists a b,
       s = a ++ pat ++ b
       /\ replace_from before s pat tmpl
          = (before ++ a) ++ expand tmpl pat (before ++ a) b ++ b.
Proof.
  revert before. induction s as [|c s IH]; intros before; cbn [replace_from includes].
  - destruct (prefix pat "") eqn:E.
    + right. apply prefix_spec in E as [r E]. destruct pat; [|discriminate E].
      exists "", "". split; [reflexivity|]. cbn [String.length drop].
      now rewrite !append_nil_r.
    + left. split; [reflexivity|]. now rewrite append_nil_r.
  - destruct (prefix pat (String c s)) eqn:E.
    + right. apply prefix_spec in E as [r E]. exists "", r. split; [exact E|].
      rewrite E, drop_append, append_nil_r. reflexivity.
    + cbn [orb]. destruct (IH (before ++ String c "")) as [[Hn Hr]|(a & b & Hs & Hr)].
      * left. split; [exact Hn|]. rewrite Hr, append_assoc. reflexivity.
      * right. exists (String c a), b. split; [simpl; now rewrite Hs|].
        rewrite Hr, !append_assoc. reflexivity.
Qed.

(** [s.replace(pat, tmpl)] for a replacement text without [$]. *)
Lemma replace_spec (s pat tmpl : string) :
  plain_template tmpl = true ->
  (includes s pat = false /\ replace s pat tmpl = s)
  \/ exists a b, s = a ++ pat ++ b /\ replace s pat tmpl = a ++ tmpl ++ b.
Proof.
  intros Ht. unfold replace.
  destruct (replace_from_spec "" s pat tmpl) as [[Hn Hr]|(a & b & Hs & Hr)].
  - left. now split.
  - right. exists a, b. split; [exact Hs|]. rewrite Hr. simpl.
    now rewrite expand_plain.
Qed.

(** A replacement keeps the occurrences of a text that is clear of the
    pattern. *)
Lemma replace_keeps (s pat tmpl sub : string) :
  clear_of pat sub = true ->
  includes s sub = true -> includes (replace s pat tmpl) sub = true.
Proof.
  intros Hc H. unfold replace.
  destruct (replace_from_spec "" s pat tmpl) as [[Hn Hr]|(a & b & Hs & Hr)].
  - now rewrite Hr.
  - rewrite Hr. simpl. rewrite Hs in H.
    destruct (occurrence_beside a pat b sub Hc H) as [Ha|Hb].
    + now apply includes_append_l.
    + now apply includes_append_r, includes_append_r.
Qed.

(** A replacement by a text that is clear of another makes no occurrence
    of that other. *)
Lemma replace_adds_nothing (s pat tmpl sub : string) :
  plain_template tmpl = true -> clear_of tmpl sub = true ->
  includes s sub = false -> includes (replace s pat tmpl) sub = false.
Proof.
  intros Ht Hc H.
  destruct (replace_spec s pat tmpl Ht) as [[Hn Hr]|(a & b & Hs & Hr)];
    [now rewrite Hr|].
  rewrite Hr. destruct (includes (a ++ tmpl ++ b) sub) eqn:E; [|reflexivity].
  rewrite <- H, Hs. symmetry.
  destruct (occurrence_beside a tmpl b sub Hc E) as [Ha|Hb].
  - now apply includes_append_l.
  - now apply includes_append_r, includes_append_r.
Qed.

(** A replacement that takes place brings what the replacement text holds. *)
Lemma replace_brings (s pat tmpl sub : string) :
  plain_template tmpl = true -> includes tmpl sub = true ->
  includes s pat = true -> includes (replace s pat tmpl) sub = true.
Proof.
  intros Ht Hi H.
  destruct (replace_spec s pat tmpl Ht) as [[Hn Hr]|(a & b & Hs & Hr)]; [congruence|].
  rewrite Hr. now apply includes_append_r, includes_append_l.
Qed.

Lemma replace_absent (s pat tmpl : string) :
  includes s pat = false -> replace s pat tmpl = s.
Proof.
  intros H. unfold replace.
  destruct (replace_from_spec "" s pat tmpl) as [[Hn Hr]|(a & b & Hs & Hr)];
    [exact Hr|].
  rewrite Hs, includes_middle in H. discriminate H.
Qed.

Lemma prepend_adds_nothing (p s sub : string) :
  tails_clear p sub = true ->
  includes s sub = false -> includes (p ++ s) sub = false.
Proof.
  intros Hc H. destruct (includes (p ++ s) sub) eqn:E; [|reflexivity].
  rewrite <- H. symmetry. now apply (occurrence_after p s).
Qed.

End Substrings.

(** ** The order of the search results *)

Module SortedResults.
Import ResearchAgent Order.

Lemma Qgtb_false (a b : Q) : Qgtb a b = false -> (a <= b)%Q.
Proof.
  unfold Qgtb. intros H. apply negb_false_iff in H. now apply Qle_bool_iff.
Qed.

Lemma Qgtb_true (a b : Q) : Qgtb a b = true -> (b < a)%Q.
Proof.
  unfold Qgtb. intros H. apply negb_true_iff in H.
  apply Qnot_le_lt. intros Hle. apply Qle_bool_iff in Hle. congruence.
Qed.

Lemma insert_permutation x sorted :
  Permutation (x :: sorted) (insert_by_relevance x sorted).
Proof.
  induction sorted as [|y rest IH]; simpl; [apply Permutation_refl|].
  destruct (Qgtb (ResearchResult.relevance y) (ResearchResult.relevance x)).
  - eapply perm_trans; [apply perm_swap|]. now apply perm_skip.
  - apply Permutation_refl.
Qed.

Lemma insert_sorted x sorted :
  StronglySorted falling sorted ->
  StronglySorted falling (insert_by_relevance x sorted).
Proof.
  induction 1 as [|y rest Hs IH Hall]; simpl.
  - constructor; constructor.
  - destruct (Qgtb (ResearchResult.relevance y) (ResearchResult.relevance x)) eqn:E.
    + constructor; [exact IH|].
      apply (Permutation_Forall (insert_permutation x rest)).
      constructor; [|exact Hall].
      unfold falling. apply Qlt_le_weak, Qgtb_true, E.
    + apply Qgtb_false in E. constructor.
      * constructor; assumption.
      * constructor; [exact E|].
        eapply Forall_impl; [|exact Hall].
        intros z Hz. unfold falling in *. eapply Qle_trans; eassumption.
Qed.

Lemma insert_with_relevance q x sorted :
  with_relevance q (insert_by_relevance x sorted) = with_relevance q (x :: sorted).
Proof.
  unfold with_relevance.
  induction sorted as [|y rest IH]; [reflexivity|].
  cbn [insert_by_relevance].
  destruct (Qgtb (ResearchResult.relevance y) (ResearchResult.relevance x)) eqn:E;
    [|reflexivity].
  cbn [filter] in *. rewrite IH.
  destruct (Qeq_bool (ResearchResult.relevance x) q) eqn:Ex; [|reflexivity].
  destruct (Qeq_bool (ResearchResult.relevance y) q) eqn:Ey; [|reflexivity].
  exfalso. apply Qgtb_true in E. apply Qeq_bool_iff in Ex, Ey.
  rewrite Ex, Ey in E. exact (Qlt_irrefl q E).
Qed.

Lemma sort_spec (results : list ResearchResult.t) :
  Permutation results (sort_by_relevance results)
  /\ StronglySorted falling (sort_by_relevance results)
  /\ (forall q, with_relevance q (sort_by_relevance results)
                = with_relevance q results).
Proof.
  unfold sort_by_relevance.
  induction results as [|x rest (Hp & Hs & Hq)]; simpl.
  - repeat split; constructor.
  - split; [|split].
    + eapply perm_trans; [apply perm_skip, Hp|apply insert_permutation].
    + apply insert_sorted, Hs.
    + intros q. rewrite insert_with_relevance. unfold with_relevance in *.
      cbn [filter]. now rewrite Hq.
Qed.

(** What [searchWeb] returns is in that order. *)
Lemma searchWeb_sorted w keywords results :
  searchWeb w keywords = Normal results -> StronglySorted falling results.
Proof.
  unfold searchWeb. intros H.
  match type of H with bind ?r _ = _ => destruct r as [gathered|e] end;
    simpl in H; [|discriminate].
  injection H as <-. apply sort_spec.
Qed.

(** X1.  [results.sort((a, b) => b.relevance - a.relevance)] returns the same
    results in another order, by falling relevance, and results of equal
    relevance keep the order they had; what [searchWeb] returns is in that
    order. *)
Theorem sort_by_relevance_sorts :
  (forall results,
      Permutation results (sort_by_relevance results)
      /\ StronglySorted falling (sort_by_relevance results)
      /\ (forall q, with_relevance q (sort_by_relevance results)
                    = with_relevance q results))
  /\ (forall w keywords, StronglySorted falling (Outcome.search_results w keywords)).
Proof.
  split; [exact sort_spec|].
  intros w keywords. apply (searchWeb_sorted w keywords), Research.searchWeb_total.
Qed.

End SortedResults.

(** ** The results built from a page *)

Module PageResults.
Import JS ResearchAgent Shape.

Lemma truthy_nonempty (s : string) : truthy s = true -> s <> "".
Proof. intros H E. subst. discriminate H. Qed.

Lemma result_of_hit_from_page w keywords h r :
  result_of_hit w keywords h = Normal (Some r) -> from_page r.
Proof.
  unfold result_of_hit. destruct (Hit.href h) as [u|]; [|discriminate].
  destruct (truthy (Hit.title h)) eqn:Ht; [|discriminate].
  destruct (truthy u) eqn:Hu; [|discriminate].
  destruct (truthy (Hit.snippet h)) eqn:Hs; [|discriminate]. simpl.
  destruct (calculateRelevance w (Hit.snippet h) keywords) as [q|e] eqn:Hq;
    [|discriminate].
  simpl. intros H. injection H as <-. unfold from_page. simpl.
  split; [eapply Relevance.relevance_between_0_and_1; exact Hq|].
  split; [apply truthy_nonempty, Ht|].
  split; [apply truthy_nonempty, Hs|].
  destruct (startsWith u "//") eqn:E.
  - split; [discriminate|reflexivity].
  - split; [apply truthy_nonempty, Hu|exact E].
Qed.

Lemma collect_from_page w keywords hits results :
  Forall from_page results ->
  Forall from_page (fst (collect w keywords hits results)).
Proof.
  revert results. induction hits as [|h rest IH]; intros results H; [exact H|].
  simpl. destruct (result_of_hit w keywords h) as [[r|]|e] eqn:E.
  - apply IH. apply Forall_app. split; [exact H|].
    constructor; [|constructor]. eapply result_of_hit_from_page, E.
  - apply IH, H.
  - exact H.
Qed.

Lemma collect_length w keywords hits results :
  List.length (fst (collect w keywords hits results))
  <= List.length results + List.length hits.
Proof.
  revert results. induction hits as [|h rest IH]; intros results; simpl; [lia|].
  destruct (result_of_hit w keywords h) as [[r|]|e].
  - specialize (IH (results ++ [r])%list). rewrite length_app in IH. simpl in IH. lia.
  - specialize (IH results). lia.
  - simpl. lia.
Qed.

Lemma collect_five w keywords hits :
  List.length (fst (collect w keywords (firstn 5 hits) [])) <= 5.
Proof.
  pose proof (collect_length w keywords (firstn 5 hits) []) as H.
  pose proof (firstn_le_length 5 hits) as H5.
  change (List.length (@nil ResearchResult.t)) with 0 in H. lia.
Qed.

Lemma try_engines_from_page w keywords es :
  List.length (try_engines w keywords es) <= 5
  /\ Forall from_page (try_engines w keywords es).
Proof.
  induction es as [|engine rest IH]; [split; [simpl; lia|constructor]|].
  cbn [try_engines].
  destruct (search_engine w engine (join keywords " ")) as [hits|e];
    cbn [bind]; [|exact IH].
  pose proof (collect_five w keywords hits) as H5.
  pose proof (collect_from_page w keywords (firstn 5 hits) [] (Forall_nil _)) as Hf.
  destruct (collect w keywords (firstn 5 hits) []) as [results [e|]]; [exact IH|].
  cbn [fst] in H5, Hf.
  destruct (0 <? List.length results); [split; assumption|exact IH].
Qed.

(** X2.  The results that [searchWeb] gathers from the primary page and
    those that [searchWithAlternativeEngines] returns are at most five, and
    each has a relevance between 0 and 1, a title, a content and a URL that
    are not empty, and a URL that does not start with [//]. *)
Theorem page_results_are_few_and_well_formed (w : World) (keywords : list string) :
  List.length (fst (primary_search w keywords)) <= 5
  /\ Forall from_page (fst (primary_search w keywords))
  /\ exists results,
       searchWithAlternativeEngines w keywords = Normal results
       /\ List.length results <= 5
       /\ Forall from_page results.
Proof.
  unfold primary_search. split; [|split].
  - destruct (duckduckgo w (join keywords " ")); [apply collect_five|simpl; lia].
  - destruct (duckduckgo w (join keywords " "));
      [apply collect_from_page|]; constructor.
  - eexists. split; [reflexivity|]. apply try_engines_from_page.
Qed.

(** X3.  When the primary page gives results and the loop over them ends
    without an exception, [searchWeb] returns these results, sorted, and
    asks no fallback: they are at most five. *)
Theorem searchWeb_keeps_to_the_primary_page (w : World) (keywords : list string) :
  snd (primary_search w keywords) = None ->
  fst (primary_search w keywords) <> [] ->
  searchWeb w keywords = Normal (sort_by_relevance (fst (primary_search w keywords)))
  /\ List.length (Outcome.search_results w keywords) <= 5.
Proof.
  intros Hs Hf.
  assert (E : searchWeb w keywords
              = Normal (sort_by_relevance (fst (primary_search w keywords)))).
  { unfold searchWeb. destruct (primary_search w keywords) as [results [e|]];
      [discriminate Hs|].
    destruct results as [|r rest]; [contradiction|]. reflexivity. }
  split; [exact E|]. unfold Outcome.search_results. rewrite E.
  destruct (SortedResults.sort_spec (fst (primary_search w keywords))) as [Hp _].
  rewrite <- (Permutation_length Hp).
  unfold primary_search.
  destruct (duckduckgo w (join keywords " ")); [apply collect_five|simpl; lia].
Qed.

Lemma searchWeb_of_a_page :
  searchWeb Amended.paged ["todo"]
  = Normal (sort_by_relevance (fst (primary_search Amended.paged ["todo"])))
  /\ List.length (Outcome.search_results Amended.paged ["todo"]) <= 5.
Proof.
  apply (searchWeb_keeps_to_the_primary_page Amended.paged ["todo"]).
  - reflexivity.
  - vm_compute. discriminate.
Defined.

End PageResults.

(** ** The keywords taken from the prompt itself *)

Module Keywords.
Import JS Text ResearchAgent Shape.

Lemma lower_char_idempotent (c : ascii) : lower_char (lower_char c) = lower_char c.
Proof. destruct c as [[] [] [] [] [] [] [] []]; reflexivity. Qed.

Lemma toLowerCase_lowered (s : string) :
  all_chars (fun c => Ascii.eqb (lower_char c) c) (toLowerCase s) = true.
Proof.
  induction s as [|c s IH]; [reflexivity|]. simpl.
  rewrite lower_char_idempotent, Ascii.eqb_refl. exact IH.
Qed.

Lemma lowered_fixed (s : string) :
  all_chars (fun c => Ascii.eqb (lower_char c) c) s = true -> toLowerCase s = s.
Proof.
  induction s as [|c s IH]; [reflexivity|]. simpl.
  intros H. apply andb_true_iff in H as [Hc Hs].
  apply Ascii.eqb_eq in Hc. now rewrite Hc, IH.
Qed.

(** The pieces of a split hold no separator. *)
Lemma split_pieces_no_sep (s : string) (sep : ascii) :
  Forall (fun x => all_chars (fun c => negb (Ascii.eqb c sep)) x = true) (split s sep).
Proof.
  induction s as [|c s IH]; simpl; [repeat constructor|].
  destruct (Ascii.eqb c sep) eqn:E.
  - constructor; [reflexivity|exact IH].
  - destruct (split s sep) as [|x r]; [repeat constructor; simpl; now rewrite E|].
    inversion IH as [|? ? Hx Hr]; subst. constructor; [|exact Hr].
    simpl. now rewrite E, Hx.
Qed.

Lemma split_nonempty (s : string) (sep : ascii) : split s sep <> [].
Proof.
  destruct s as [|c s]; simpl; [discriminate|].
  destruct (Ascii.eqb c sep); [discriminate|].
  destruct (split s sep); discriminate.
Qed.

Lemma In_firstn {A : Type} (n : nat) (l : list A) (x : A) :
  In x (firstn n l) -> In x l.
Proof.
  intros H. rewrite <- (firstn_skipn n l). apply in_or_app. now left.
Qed.

Lemma toLowerCase_idempotent (s : string) : toLowerCase (toLowerCase s) = toLowerCase s.
Proof. apply lowered_fixed, toLowerCase_lowered. Qed.

Lemma add_matches_lowered w contentLower keywords score :
  add_matches w contentLower (map toLowerCase keywords) score
  = add_matches w contentLower keywords score.
Proof.
  revert score. induction keywords as [|k rest IH]; intros score; [reflexivity|].
  cbn [map add_matches]. rewrite toLowerCase_idempotent.
  destruct (match_count w contentLower (toLowerCase k)); cbn [bind];
    [apply IH|reflexivity].
Qed.

(** X4.  [calculateRelevance] does not tell upper case from lower case, in the
    content or in the keywords: it gives what it gives for the content and
    the keywords in lower case. *)
Theorem calculateRelevance_ignores_case
    (w : World) (content : string) (keywords : list string) :
  calculateRelevance w content keywords
  = calculateRelevance w (toLowerCase content) (map toLowerCase keywords).
Proof.
  unfold calculateRelevance.
  now rewrite toLowerCase_idempotent, add_matches_lowered.
Qed.

(** X5.  The keywords that [extractKeywords] falls back on are at most five
    words of the prompt in lower case, as its spaces cut it: each is longer
    than three code units, holds no space and no upper case letter. *)
Theorem simple_keywords_are_few_long_words (prompt : string) :
  List.length (simple_keywords prompt) <= 5
  /\ Forall simple (simple_keywords prompt)
  /\ Forall (fun keyword => In keyword (split (toLowerCase prompt) " "%char))
            (simple_keywords prompt).
Proof.
  unfold simple_keywords. split; [apply firstn_le_length|].
  split; apply Forall_forall; intros k Hk; apply In_firstn in Hk;
    apply filter_In in Hk as [Hin Hlen]; [|exact Hin].
  pose proof (split_pieces_no_sep (toLowerCase prompt) " "%char) as Hsep.
  pose proof (NoBlankLines.all_chars_split _ _ " "%char (toLowerCase_lowered prompt))
    as Hlow.
  rewrite Forall_forall in Hsep, Hlow.
  split; [now apply Nat.ltb_lt|]. split; [now apply Hsep|].
  apply lowered_fixed. now apply Hlow.
Qed.

End Keywords.

(** ** The similarity of two queries and the cached results *)

Module Similarity.
Import JS ResearchAgent.

Lemma In_distinct (x : string) (l : list string) : In x (distinct l) <-> In x l.
Proof.
  induction l as [|a r IH]; [reflexivity|]. simpl. rewrite filter_In, IH.
  split.
  - intros [H|[H _]]; [now left|now right].
  - intros [H|H]; [now left|].
    destruct (String.eqb a x) eqn:E.
    + left. now apply String.eqb_eq.
    + right. split; [exact H|reflexivity].
Qed.

Lemma NoDup_distinct (l : list string) : NoDup (distinct l).
Proof.
  induction l as [|a r IH]; simpl; constructor.
  - rewrite filter_In. intros [_ H]. now rewrite String.eqb_refl in H.
  - now apply NoDup_filter.
Qed.

Lemma same_length (a b : list string) :
  NoDup a -> NoDup b -> (forall x, In x a <-> In x b) ->
  List.length a = List.length b.
Proof.
  intros Ha Hb H. apply Permutation_length, NoDup_Permutation; assumption.
Qed.

Lemma existsb_eqb (x : string) (l : list string) :
  existsb (String.eqb x) l = true <-> In x l.
Proof.
  rewrite existsb_exists. split.
  - intros (y & Hy & E). apply String.eqb_eq in E. now subst.
  - intros H. exists x. split; [exact H|apply String.eqb_refl].
Qed.

Lemma distinct_nonempty (l : list string) : l <> [] -> 0 < List.length (distinct l).
Proof. destruct l; [congruence|simpl; lia]. Qed.

Lemma ratio_bounds (n d : nat) :
  n <= d -> 0 < d -> (0 <= Z.of_nat n # Pos.of_nat d <= 1)%Q.
Proof.
  intros Hn Hd. unfold Qle. simpl.
  rewrite <- (positive_nat_Z (Pos.of_nat d)), Nat2Pos.id by lia. lia.
Qed.

Lemma ratio_one (d : nat) : 0 < d -> (Z.of_nat d # Pos.of_nat d == 1)%Q.
Proof.
  intros Hd. unfold Qeq. simpl.
  rewrite <- (positive_nat_Z (Pos.of_nat d)), Nat2Pos.id by lia. lia.
Qed.

Lemma similarity_self (query : string) :
  (calculateQuerySimilarity query query == 1)%Q.
Proof.
  unfold calculateQuerySimilarity.
  pose proof (NoDup_distinct (split query " "%char)) as N1.
  pose proof (distinct_nonempty _ (Keywords.split_nonempty query " "%char)) as P1.
  set (words1 := distinct (split query " "%char)) in *.
  assert (E1 : filter (fun x => existsb (String.eqb x) words1) words1 = words1).
  { apply forallb_filter_id, forallb_forall. intros x Hx. now apply existsb_eqb. }
  assert (E2 : List.length (distinct (words1 ++ words1)) = List.length words1).
  { apply same_length; [apply NoDup_distinct|exact N1|]. intros x.
    rewrite In_distinct, in_app_iff. tauto. }
  rewrite E1, E2. now apply ratio_one.
Qed.

(** X6.  [calculateQuerySimilarity] lies between 0 and 1, does not depend on
    the order of its two queries, and is 1 for a query and itself. *)
Theorem calculateQuerySimilarity_bounds_and_symmetry (query1 query2 : string) :
  (0 <= calculateQuerySimilarity query1 query2 <= 1)%Q
  /\ calculateQuerySimilarity query1 query2 = calculateQuerySimilarity query2 query1
  /\ (calculateQuerySimilarity query1 query1 == 1)%Q.
Proof.
  unfold calculateQuerySimilarity.
  pose proof (NoDup_distinct (split query1 " "%char)) as N1.
  pose proof (NoDup_distinct (split query2 " "%char)) as N2.
  pose proof (distinct_nonempty _ (Keywords.split_nonempty query1 " "%char)) as P1.
  set (words1 := distinct (split query1 " "%char)) in *.
  set (words2 := distinct (split query2 " "%char)) in *.
  split; [|split].
  - apply ratio_bounds.
    + transitivity (List.length words1); [apply filter_length_le|].
      apply NoDup_incl_length; [exact N1|].
      intros x Hx. apply In_distinct, in_or_app. now left.
    + apply distinct_nonempty. destruct words1; [simpl in P1; lia|discriminate].
  - f_equal; [f_equal|f_equal]; apply same_length;
      try apply NoDup_filter; try apply NoDup_distinct; try assumption; intros x.
    + rewrite !filter_In, !existsb_eqb. tauto.
    + rewrite !In_distinct, !in_app_iff. tauto.
  - apply similarity_self.
Qed.

Lemma similar_entry_found query cache results :
  similar_entry query cache = Some results ->
  exists cachedQuery,
    In (cachedQuery, results) cache
    /\ (7 # 10 < calculateQuerySimilarity query cachedQuery)%Q.
Proof.
  induction cache as [|[cachedQuery rs] rest IH]; [discriminate|]. simpl.
  destruct (Qgtb (calculateQuerySimilarity query cachedQuery) (7 # 10)) eqn:E.
  - intros H. injection H as <-. exists cachedQuery.
    split; [now left|now apply SortedResults.Qgtb_true].
  - intros H. destruct (IH H) as (q & Hin & Hq). exists q. split; [now right|exact Hq].
Qed.

(** X7.  [searchWithCachedResults] never throws, and what it returns, if not
    the empty list, are the results of an entry of the cache file whose
    query has a similarity above 0.7 to the keywords joined in lower case. *)
Theorem searchWithCachedResults_serves_similar_entries (w : World) (keywords : list string) :
  exists results,
    searchWithCachedResults w keywords = Normal results
    /\ (results = []
        \/ exists text cache cachedQuery,
             cache_exists w = true
             /\ cache_read w = Normal text
             /\ parse_cache w text = Normal cache
             /\ In (cachedQuery, results) cache
             /\ (7 # 10 < calculateQuerySimilarity
                            (toLowerCase (join keywords " ")) cachedQuery)%Q).
Proof.
  unfold searchWithCachedResults.
  destruct (cache_exists w) eqn:Hex; [|eexists; split; [reflexivity|now left]].
  destruct (cache_read w) as [text|e] eqn:Hr; simpl;
    [|eexists; split; [reflexivity|now left]].
  destruct (parse_cache w text) as [cache|e] eqn:Hp; simpl;
    [|eexists; split; [reflexivity|now left]].
  destruct (similar_entry (toLowerCase (join keywords " ")) cache) as [results|] eqn:Hs;
    [|eexists; split; [reflexivity|now left]].
  exists results. split; [reflexivity|]. right.
  destruct (similar_entry_found _ _ _ Hs) as (q & Hin & Hq).
  exists text, cache, q. repeat split; assumption.
Qed.

(** X8.  When the first entry of the cache file is for the very query, the
    keywords joined in lower case, [searchWithCachedResults] returns its
    results. *)
Theorem searchWithCachedResults_serves_the_same_query
    (w : World) (keywords : list string) (text : string)
    (results : list ResearchResult.t) (rest : list (string * list ResearchResult.t)) :
  cache_exists w = true ->
  cache_read w = Normal text ->
  parse_cache w text = Normal ((toLowerCase (join keywords " "), results) :: rest) ->
  searchWithCachedResults w keywords = Normal results.
Proof.
  intros Hex Hr Hp. unfold searchWithCachedResults. rewrite Hex, Hr. simpl.
  rewrite Hp. simpl.
  pose proof (similarity_self (toLowerCase (join keywords " "))) as H1.
  assert (E : Qgtb (calculateQuerySimilarity (toLowerCase (join keywords " "))
                      (toLowerCase (join keywords " "))) (7 # 10) = true).
  { unfold Qgtb. apply negb_true_iff. destruct (Qle_bool _ _) eqn:Q; [|reflexivity].
    apply Qle_bool_iff in Q. rewrite H1 in Q. unfold Qle in Q. simpl in Q. lia. }
  now rewrite E.
Qed.

Lemma cached_todo_list :
  searchWithCachedResults Amended.cached ["Todo"; "List"] = Normal [Amended.todo_result].
Proof.
  apply (searchWithCachedResults_serves_the_same_query
           Amended.cached ["Todo"; "List"] "{}" [Amended.todo_result] []);
    reflexivity.
Defined.

End Similarity.

(** ** The knowledge base *)

Module KnowledgeBaseFacts.
Import KnowledgeBase Shape.

Lemma updateKnowledgeBase_total (s : Store) (newInsights : list string) :
  updateKnowledgeBase s newInsights = Normal tt.
Proof.
  unfold updateKnowledgeBase, try_catch.
  destruct (file_write s (updated s newInsights)) as [[]|e]; reflexivity.
Qed.

(** X9.  [updateKnowledgeBase] never throws.  The entries it writes are the
    end of the entries read followed by the new entry: the new entry is the
    last, there are at most 100, and nothing is left out while fewer than
    100 entries were read. *)
Theorem updateKnowledgeBase_keeps_the_last_hundred
    (s : Store) (newInsights : list string) :
  updateKnowledgeBase s newInsights = Normal tt
  /\ (exists dropped,
        (existing s ++ [new_entry s newInsights])%list
        = (dropped ++ updated s newInsights)%list
        /\ (List.length (existing s) < 100 -> dropped = []))
  /\ 1 <= List.length (updated s newInsights) <= 100
  /\ (exists kept, updated s newInsights = (kept ++ [new_entry s newInsights])%list).
Proof.
  split; [apply updateKnowledgeBase_total|].
  unfold updated. change {| insights := newInsights; timestamp := date_now s |}
    with (new_entry s newInsights).
  set (entry := new_entry s newInsights). set (old := existing s).
  assert (Hlen : List.length (old ++ [entry]) = S (List.length old))
    by (rewrite length_app; simpl; lia).
  destruct (100 <? List.length (old ++ [entry])) eqn:E.
  - apply Nat.ltb_lt in E. unfold last_hundred.
    assert (Hskip : skipn (List.length (old ++ [entry]) - 100) (old ++ [entry])
                    = (skipn (List.length old - 99) old ++ [entry])%list).
    { rewrite skipn_app, Hlen.
      replace (S (List.length old) - 100) with (List.length old - 99) by lia.
      replace (List.length old - 99 - List.length old) with 0 by lia.
      reflexivity. }
    split; [|split].
    + exists (firstn (List.length (old ++ [entry]) - 100) (old ++ [entry])).
      split; [symmetry; apply firstn_skipn|]. lia.
    + rewrite length_skipn. lia.
    + rewrite Hskip. eexists. reflexivity.
  - apply Nat.ltb_ge in E. split; [|split].
    + exists []. split; reflexivity.
    + lia.
    + eexists. reflexivity.
Qed.

End KnowledgeBaseFacts.

(** ** Results enhanced by an analysis *)

Module Enhanced.
Import JS ResearchAgent Enhancement Shape Outcome.

Lemma forallb_same {A : Type} (f g : A -> bool) (l : list A) :
  (forall x, f x = g x) -> forallb f l = forallb g l.
Proof.
  intros H. induction l as [|x l IH]; [reflexivity|]. simpl. now rewrite H, IH.
Qed.

Lemma Forall2_weaken {A B : Type} (P Q : A -> B -> Prop) (l : list A) (m : list B) :
  (forall x y, P x y -> Q x y) -> Forall2 P l m -> Forall2 Q l m.
Proof. intros H. induction 1; constructor; auto. Qed.

(** [Promise.all] over callbacks: the values of all of them, or a
    rejection as soon as one of them rejects. *)
Lemma all_of_cases {A B : Type} (f : A -> result B) (l : list A) :
  (forallb (fun x => succeeds (f x)) l = true
   /\ exists ys, all_of f l = Normal ys /\ Forall2 (fun x y => f x = Normal y) l ys)
  \/ (forallb (fun x => succeeds (f x)) l = false
      /\ exists e, all_of f l = Throw e).
Proof.
  induction l as [|x rest IH]; cbn [all_of forallb].
  - left. split; [reflexivity|]. exists []. split; [reflexivity|constructor].
  - destruct (f x) as [y|e] eqn:E; cbn [succeeds bind andb].
    + destruct IH as [(Hall & ys & Eys & Hys)|(Hsome & e & Ee)].
      * left. split; [exact Hall|]. exists (y :: ys). rewrite Eys.
        split; [reflexivity|now constructor].
      * right. split; [exact Hsome|]. exists e. now rewrite Ee.
    + right. split; [reflexivity|]. now exists e.
Qed.

Lemma enhance_topic_succeeds a topic r :
  succeeds (enhance_topic a topic r) = succeeds (analyze_topic a topic r).
Proof.
  unfold enhance_topic.
  destruct (analyze_topic a topic r) as [content|e]; [|reflexivity]. cbn [bind].
  destruct (json_object_match content) as [jsonMatch|]; [|reflexivity].
  destruct (parse_topic a jsonMatch); reflexivity.
Qed.

Lemma enhance_topic_same_page a topic r r' :
  enhance_topic a topic r = Normal r' -> same_page r r'.
Proof.
  unfold enhance_topic.
  destruct (analyze_topic a topic r) as [content|e]; [|discriminate]. cbn [bind].
  destruct (json_object_match content) as [jsonMatch|].
  - destruct (parse_topic a jsonMatch) as [analysis|e]; cbn [bind];
      intros H; injection H as <-; repeat split.
  - intros H. injection H as <-. repeat split.
Qed.

(** X10.  [researchSpecificTopic] never throws.  When the analysis of every
    result of the search returns, it gives the values of its callback, one
    for each result of the search and in the same order, each with the URL,
    the title, the content and the relevance of its result; when the
    analysis of one of them fails, it gives what [fallbackSearch] gives. *)
Theorem researchSpecificTopic_keeps_the_pages (w : World) (a : Analyst) (topic : string) :
  (exists results, researchSpecificTopic w a topic = Normal results)
  /\ ((forallb (fun r => succeeds (analyze_topic a topic r))
               (search_results w [topic]) = true
       /\ exists results,
            researchSpecificTopic w a topic = Normal results
            /\ Forall2 (fun r r' => enhance_topic a topic r = Normal r'
                                    /\ same_page r r')
                       (search_results w [topic]) results)
      \/ (forallb (fun r => succeeds (analyze_topic a topic r))
                  (search_results w [topic]) = false
          /\ researchSpecificTopic w a topic = fallbackSearch w [topic])).
Proof.
  unfold researchSpecificTopic. rewrite Research.searchWeb_total. cbn [bind].
  rewrite <- (forallb_same _ _ _ (enhance_topic_succeeds a topic)).
  destruct (all_of_cases (enhance_topic a topic) (search_results w [topic]))
    as [(Hall & rs & E & Hrs)|(Hsome & e & E)]; rewrite E; cbn [try_catch].
  - split; [now exists rs|]. left. split; [exact Hall|]. exists rs.
    split; [reflexivity|]. eapply Forall2_weaken; [|exact Hrs].
    intros r r' H. split; [exact H|]. eapply enhance_topic_same_page, H.
  - split; [apply Research.fallbackSearch_total|]. right. now split.
Qed.

Lemma enhance_similar_succeeds a description r :
  succeeds (enhance_similar a description r)
  = succeeds (analyze_similarity a description r).
Proof.
  unfold enhance_similar.
  destruct (analyze_similarity a description r) as [content|e]; [|reflexivity].
  cbn [bind]. destruct (json_object_match content) as [jsonMatch|]; [|reflexivity].
  destruct (parse_similarity a jsonMatch); reflexivity.
Qed.

Lemma enhance_similar_url a description r r' :
  enhance_similar a description r = Normal r' ->
  ResearchResult.url r' = ResearchResult.url r.
Proof.
  unfold enhance_similar.
  destruct (analyze_similarity a description r) as [content|e]; [|discriminate].
  cbn [bind]. destruct (json_object_match content) as [jsonMatch|].
  - destruct (parse_similarity a jsonMatch) as [analysis|e]; cbn [bind];
      intros H; injection H as <-; reflexivity.
  - intros H. injection H as <-. reflexivity.
Qed.

Lemma search_all_total w queries :
  exists results, search_all w queries = Normal results.
Proof.
  induction queries as [|q rest [more IH]]; [eexists; reflexivity|].
  cbn [search_all]. rewrite Research.searchWeb_total, IH. eexists. reflexivity.
Qed.

Lemma unique_by_url_spec seen l :
  NoDup (map ResearchResult.url (unique_by_url seen l))
  /\ (forall u, In u (map ResearchResult.url (unique_by_url seen l)) ->
                ~ In u seen /\ In u (map ResearchResult.url l)).
Proof.
  revert seen. induction l as [|r rest IH]; intros seen; simpl.
  - split; [constructor|intros u []].
  - destruct (existsb (String.eqb (ResearchResult.url r)) seen) eqn:E.
    + destruct (IH seen) as [Hn Hin]. split; [exact Hn|].
      intros u Hu. destruct (Hin u Hu). split; [assumption|now right].
    + destruct (IH (ResearchResult.url r :: seen)) as [Hn Hin]. simpl. split.
      * constructor; [|exact Hn]. intros Hu. destruct (Hin _ Hu) as [H _].
        apply H. now left.
      * intros u [<-|Hu].
        -- split; [|now left]. intros Hs.
           assert (existsb (String.eqb (ResearchResult.url r)) seen = true).
           { apply existsb_exists. eexists. split; [exact Hs|apply String.eqb_refl]. }
           congruence.
        -- destruct (Hin u Hu) as [H1 H2]. split; [|now right].
           intros Hs. apply H1. now right.
Qed.

Lemma NoDup_firstn {A : Type} (n : nat) (l : list A) : NoDup l -> NoDup (firstn n l).
Proof.
  intros H. rewrite <- (firstn_skipn n l) in H. now apply NoDup_app_remove_r in H.
Qed.

Lemma similar_candidates_spec w appDescription :
  List.length (similar_candidates w appDescription) <= 5
  /\ NoDup (map ResearchResult.url (similar_candidates w appDescription)).
Proof.
  unfold similar_candidates.
  destruct (search_all w (searchQueries appDescription)) as [allResults|e];
    [|split; [simpl; lia|constructor]].
  split; [apply firstn_le_length|].
  rewrite <- firstn_map. apply NoDup_firstn.
  destruct (SortedResults.sort_spec (unique_by_url [] allResults)) as [Hp _].
  apply (Permutation_NoDup (Permutation_map ResearchResult.url Hp)).
  apply unique_by_url_spec.
Qed.

Lemma Forall2_urls (f : ResearchResult.t -> result ResearchResult.t)
    (l rs : list ResearchResult.t) :
  Forall2 (fun r r' => f r = Normal r'
                       /\ ResearchResult.url r' = ResearchResult.url r) l rs ->
  map ResearchResult.url rs = map ResearchResult.url l.
Proof.
  induction 1 as [|r r' l rs [_ Hu] _ IH]; [reflexivity|]. simpl. now rewrite Hu, IH.
Qed.

(** X11.  [getSimilarApps] never throws.  The results it hands to the
    analysis are at most five, with URLs that differ from one another.
    When the analysis of every one of them returns, it gives the values of
    its callback, one for each of them and in the same order, each with the
    URL of its result: at most five results, whose URLs differ from one
    another.  When the analysis of one of them fails, it gives what
    [fallbackSearch] gives. *)
Theorem getSimilarApps_gives_five_distinct_pages
    (w : World) (a : Analyst) (appDescription : string) :
  (exists results, getSimilarApps w a appDescription = Normal results)
  /\ ((forallb (fun r => succeeds (analyze_similarity a appDescription r))
               (similar_candidates w appDescription) = true
       /\ exists results,
            getSimilarApps w a appDescription = Normal results
            /\ Forall2 (fun r r' =>
                          enhance_similar a appDescription r = Normal r'
                          /\ ResearchResult.url r' = ResearchResult.url r)
                       (similar_candidates w appDescription) results
            /\ List.length results <= 5
            /\ NoDup (map ResearchResult.url results))
      \/ (forallb (fun r => succeeds (analyze_similarity a appDescription r))
                  (similar_candidates w appDescription) = false
          /\ getSimilarApps w a appDescription = fallbackSearch w [appDescription])).
Proof.
  destruct (similar_candidates_spec w appDescription) as [Hfive Hurls].
  revert Hfive Hurls. unfold getSimilarApps, similar_candidates.
  destruct (search_all_total w (searchQueries appDescription)) as [allResults E].
  rewrite E. cbn [bind].
  set (best := firstn 5 (sort_by_relevance (unique_by_url [] allResults))).
  intros Hfive Hurls.
  rewrite <- (forallb_same _ _ _ (enhance_similar_succeeds a appDescription)).
  destruct (all_of_cases (enhance_similar a appDescription) best)
    as [(Hall & rs & Ers & Hrs)|(Hsome & e & Ee)]; rewrite ?Ers, ?Ee; cbn [try_catch].
  - split; [now exists rs|]. left. split; [exact Hall|]. exists rs.
    assert (Hpairs : Forall2 (fun r r' =>
                                enhance_similar a appDescription r = Normal r'
                                /\ ResearchResult.url r' = ResearchResult.url r)
                             best rs).
    { eapply Forall2_weaken; [|exact Hrs]. intros r r' H. split; [exact H|].
      eapply enhance_similar_url, H. }
    pose proof (Forall2_urls _ _ _ Hpairs) as Hmap.
    split; [reflexivity|]. split; [exact Hpairs|]. split.
    + rewrite <- (length_map ResearchResult.url), Hmap, length_map. exact Hfive.
    + rewrite Hmap. exact Hurls.
  - split; [apply Research.fallbackSearch_total|]. right. now split.
Qed.

End Enhanced.

(** ** The plan *)

Module Planning.
Import JS PlannerAgent Shape.

Lemma or_string_nonempty (x : option string) (d : string) :
  d <> "" -> or_string x d <> "".
Proof.
  intros Hd. unfold or_string. destruct x as [s|]; [|exact Hd].
  destruct (truthy s) eqn:E; [|exact Hd]. intros ->. discriminate E.
Qed.

Lemma generateAppName_nonempty (prompt : string) : generateAppName prompt <> "".
Proof.
  unfold generateAppName.
  destruct (join _ " ") as [|c s]; discriminate.
Qed.

Lemma createFallbackPlan_complete (prompt : string) : complete (createFallbackPlan prompt).
Proof.
  unfold complete. simpl.
  split; [apply generateAppName_nonempty|]. repeat split; discriminate.
Qed.

Lemma plan_of_data_complete (planData : PlanData.t) (prompt : string) :
  complete (plan_of_data planData prompt).
Proof.
  unfold complete. simpl.
  split; [apply or_string_nonempty, generateAppName_nonempty|].
  repeat split; apply or_string_nonempty; discriminate.
Qed.

Lemma parsePlan_cases (w : World) (planContent originalPrompt : string) :
  parsePlan w planContent originalPrompt = createFallbackPlan originalPrompt
  \/ exists jsonMatch planData,
       json_object_match planContent = Some jsonMatch
       /\ parse_plan w jsonMatch = Normal planData
       /\ parsePlan w planContent originalPrompt = plan_of_data planData originalPrompt.
Proof.
  unfold parsePlan. destruct (json_object_match planContent) as [jsonMatch|]; [|now left].
  destruct (parse_plan w jsonMatch) as [planData|e] eqn:E; [|now left].
  right. exists jsonMatch, planData. repeat split. exact E.
Qed.

Lemma planApp_total (w : World) (request : Request.t)
    (research : option ResearchSummary.t) :
  exists plan, planApp w request research = Normal plan.
Proof.
  unfold planApp. destruct (getModelClient w) as [[]|e]; cbn [bind try_catch];
    [|eexists; reflexivity].
  destruct (generateText w (PlanAnalysisPrompt (Request.prompt request)))
    as [analysis|e]; cbn [bind try_catch]; [|eexists; reflexivity].
  destruct (generateText w (PlanningPrompt (Request.prompt request) analysis research))
    as [planText|e]; cbn [bind try_catch]; eexists; reflexivity.
Qed.

(** X12.  [planApp] never throws, and no text of the plan it returns is
    empty: the plan is the fallback plan, or it is made of a parsed
    response, with a default in the place of every text that is missing or
    empty. *)
Theorem planApp_returns_a_complete_plan
    (w : World) (request : Request.t) (research : option ResearchSummary.t) :
  exists plan,
    planApp w request research = Normal plan
    /\ complete plan
    /\ (plan = createFallbackPlan (Request.prompt request)
        \/ exists jsonMatch planData,
             parse_plan w jsonMatch = Normal planData
             /\ plan = plan_of_data planData (Request.prompt request)).
Proof.
  unfold planApp.
  destruct (getModelClient w) as [[]|e]; cbn [bind try_catch];
    [|eexists; split; [reflexivity|split; [apply createFallbackPlan_complete|now left]]].
  destruct (generateText w (PlanAnalysisPrompt (Request.prompt request)))
    as [analysis|e]; cbn [bind try_catch];
    [|eexists; split; [reflexivity|split; [apply createFallbackPlan_complete|now left]]].
  destruct (generateText w (PlanningPrompt (Request.prompt request) analysis research))
    as [planText|e]; cbn [bind try_catch];
    [|eexists; split; [reflexivity|split; [apply createFallbackPlan_complete|now left]]].
  eexists. split; [reflexivity|].
  destruct (parsePlan_cases w planText (Request.prompt request))
    as [E|(jsonMatch & planData & _ & Hp & E)]; rewrite E.
  - split; [apply createFallbackPlan_complete|now left].
  - split; [apply plan_of_data_complete|]. right. now exists jsonMatch, planData.
Qed.

(** X13.  For a prompt without a word of more than three code units,
    [generateAppName] gives the name [ App], which begins with a space. *)
Theorem generateAppName_of_short_words (prompt : string) :
  Forall (fun word => length word <= 3) (split (toLowerCase prompt) " "%char) ->
  generateAppName prompt = " App".
Proof.
  intros H. unfold generateAppName.
  assert (E : filter (fun word => 3 <? length word) (split (toLowerCase prompt) " "%char)
              = []).
  { induction H as [|x l Hx Hl IH]; [reflexivity|]. simpl.
    apply Nat.ltb_ge in Hx. now rewrite Hx. }
  now rewrite E.
Qed.

Lemma generateAppName_of_a_to_do :
  generateAppName "A to do" = " App".
Proof.
  apply (generateAppName_of_short_words "A to do").
  repeat constructor.
Defined.

End Planning.

(** ** The code bundle *)

Module Generation.
Import CodeAgent Shape.

Ltac absurd_prompt H :=
  repeat (apply Forall_cons_iff in H as [? H]); cbn beta in *;
  match goal with
  | S : Outcome.succeeds ?x = true, E : ?x = Throw _ |- _ =>
      rewrite E in S; discriminate S
  end.

(** X14.  [generateCode] fails exactly when one of its four text
    generations fails, and then with the exception of that generation: a
    response that cannot be parsed never makes it fail. *)
Theorem generateCode_fails_only_with_text_generation (w : World) (plan : Plan.t) :
  ((exists code, generateCode w plan = Normal code)
   <-> Forall (fun p => Outcome.succeeds (codeLlama_generate w p) = true) (prompts plan))
  /\ (forall e, generateCode w plan = Throw e ->
                exists p, In p (prompts plan) /\ codeLlama_generate w p = Throw e).
Proof.
  unfold generateCode, generateFrontendCode, generateBackendCode,
    generateDatabaseCode, generateDeploymentCode, prompts.
  destruct (codeLlama_generate w (FrontendPrompt plan)) as [c1|e1] eqn:E1; cbn [bind].
  2:{ split.
      - split; [intros [code H]; discriminate H|]. intros H. absurd_prompt H.
      - intros e H. injection H as <-. exists (FrontendPrompt plan).
        split; [now left|exact E1]. }
  destruct (codeLlama_generate w (BackendPrompt plan)) as [c2|e2] eqn:E2; cbn [bind].
  2:{ split.
      - split; [intros [code H]; discriminate H|]. intros H. absurd_prompt H.
      - intros e H. injection H as <-. exists (BackendPrompt plan).
        split; [now right; left|exact E2]. }
  destruct (codeLlama_generate w (DatabasePrompt plan)) as [c3|e3] eqn:E3; cbn [bind].
  2:{ split.
      - split; [intros [code H]; discriminate H|]. intros H. absurd_prompt H.
      - intros e H. injection H as <-. exists (DatabasePrompt plan).
        split; [now right; right; left|exact E3]. }
  destruct (codeLlama_generate w (DeploymentPrompt plan)) as [c4|e4] eqn:E4; cbn [bind].
  2:{ split.
      - split; [intros [code H]; discriminate H|]. intros H. absurd_prompt H.
      - intros e H. injection H as <-. exists (DeploymentPrompt plan).
        split; [now right; right; right; left|exact E4]. }
  split.
  - split; [|intros _; eexists; reflexivity].
    intros _. repeat (apply Forall_cons; [now rewrite ?E1, ?E2, ?E3, ?E4|]).
    constructor.
  - intros e H. discriminate H.
Qed.

(** X15.  [CodeAgent.optimizeCode] fails exactly when its text generation
    fails, and it returns [undefined] exactly when the response holds no
    JSON object or one that cannot be parsed. *)
Theorem optimizeCode_returns_undefined_on_unparseable_response
    (o : CodeFeedback.Optimizer) (code : GeneratedCode) (feedback : string) :
  (forall e, CodeFeedback.optimizeCode o code feedback = Throw e
             <-> CodeFeedback.generate o code feedback = Throw e)
  /\ (CodeFeedback.optimizeCode o code feedback = Normal None
      <-> exists content,
            CodeFeedback.generate o code feedback = Normal content
            /\ (json_object_match content = None
                \/ exists jsonMatch e,
                     json_object_match content = Some jsonMatch
                     /\ CodeFeedback.parse o jsonMatch = Throw e)).
Proof.
  unfold CodeFeedback.optimizeCode, CodeFeedback.parse_optimization.
  destruct (CodeFeedback.generate o code feedback) as [content|e0]; cbn [bind].
  - split; [intros e; split; discriminate|].
    destruct (json_object_match content) as [jsonMatch|] eqn:Ej.
    + destruct (CodeFeedback.parse o jsonMatch) as [parsed|e1] eqn:Ep; split.
      * discriminate.
      * intros (c & Hc & [H|(m & e & Hm & He)]); injection Hc as <-; [congruence|].
        rewrite Ej in Hm. injection Hm as <-. congruence.
      * intros _. exists content. split; [reflexivity|]. right.
        exists jsonMatch, e1. split; [exact Ej|exact Ep].
      * reflexivity.
    + split; [|reflexivity]. intros _. exists content. split; [reflexivity|now left].
  - split; [intros e; split; intros H; injection H as <-; reflexivity|].
    split; [discriminate|]. intros (c & Hc & _). discriminate Hc.
Qed.

End Generation.

(** ** The security and maintainability passes, and the routes of the
    performance pass *)

Module Passes.
Import JS Text OptimizerAgent Border Substrings.

Lemma update_each_twice (f : string -> string -> string) (d : dict) :
  (forall k v, f k (f k v) = f k v) ->
  update_each f (update_each f d) = update_each f d.
Proof.
  intros H. unfold update_each. rewrite map_map. apply map_ext.
  intros [k v]. simpl. now rewrite H.
Qed.

Lemma typeComponent_twice (filename content : string) :
  typeComponent filename (typeComponent filename content)
  = typeComponent filename content.
Proof.
  unfold typeComponent.
  destruct (includes content "props" && negb (includes content "interface")) eqn:E;
    [|now rewrite E].
  match goal with
  | |- (if includes ?t "props" && negb (includes ?t "interface") then _ else _) = _ =>
      assert (Hi : includes t "interface" = true)
        by (apply includes_append_r; reflexivity);
      rewrite Hi
  end.
  now rewrite andb_false_r.
Qed.

Lemma typeComponent_interface (filename content : string) :
  includes (typeComponent filename content) "props" = true ->
  includes (typeComponent filename content) "interface" = true.
Proof.
  unfold typeComponent.
  destruct (includes content "props" && negb (includes content "interface")) eqn:E.
  - intros _. apply includes_append_r. reflexivity.
  - intros H. rewrite H in E. simpl in E. now apply negb_false_iff in E.
Qed.

(** X16.  [optimizeMaintainability] changes nothing when it is applied a
    second time, and after it every component that mentions [props]
    mentions [interface]. *)
Theorem optimizeMaintainability_is_idempotent (code : GeneratedCode) :
  optimizeMaintainability (optimizeMaintainability code) = optimizeMaintainability code
  /\ Forall (fun content => includes content "props" = true ->
                            includes content "interface" = true)
            (values (components (frontend (optimizeMaintainability code)))).
Proof.
  split.
  - unfold optimizeMaintainability, with_components. simpl.
    now rewrite (update_each_twice typeComponent _ typeComponent_twice).
  - unfold optimizeMaintainability, with_components, values, update_each. simpl.
    rewrite map_map. apply Forall_forall. intros content Hin.
    apply in_map_iff in Hin as ([k v] & <- & _). simpl.
    apply typeComponent_interface.
Qed.

(** *** An import at the head and a call before [app.use(express.json())] *)

Section Use.
Variables name imp tmpl content : string.
Hypothesis plain : plain_template tmpl = true.

Lemma use_brings :
  includes imp name = true -> includes tmpl name = true ->
  includes
    (if negb (includes content name)
     then replace (imp ++ content) "app.use(express.json())" tmpl
     else content) name = true.
Proof.
  intros Hi Ht. destruct (includes content name) eqn:E; [exact E|].
  cbn [negb].
  destruct (replace_spec (imp ++ content) "app.use(express.json())" tmpl plain)
    as [[Hn Hr]|(a & b & Hs & Hr)]; rewrite Hr.
  - now apply includes_append_l.
  - now apply includes_append_r, includes_append_l.
Qed.

Lemma use_keeps (sub : string) :
  clear_of "app.use(express.json())" sub = true ->
  includes content sub = true ->
  includes
    (if negb (includes content name)
     then replace (imp ++ content) "app.use(express.json())" tmpl
     else content) sub = true.
Proof.
  intros Hc H. destruct (negb (includes content name)); [|exact H].
  apply replace_keeps; [exact Hc|]. now apply includes_append_r.
Qed.

Lemma use_adds_nothing (sub : string) :
  tails_clear imp sub = true -> clear_of tmpl sub = true ->
  includes content sub = false ->
  includes
    (if negb (includes content name)
     then replace (imp ++ content) "app.use(express.json())" tmpl
     else content) sub = false.
Proof.
  intros Hi Hc H. destruct (negb (includes content name)); [|exact H].
  apply replace_adds_nothing; [exact plain|exact Hc|].
  now apply prepend_adds_nothing.
Qed.

End Use.

Lemma validation_step (content : string) :
  let content' :=
    if includes content "req.body" && negb (includes content "validate")
    then replace content "req.body" "validateInput(req.body)"
    else content in
  includes content' "req.body" = false \/ includes content' "validate" = true.
Proof.
  cbv zeta.
  destruct (includes content "req.body" && negb (includes content "validate")) eqn:E.
  - right. apply andb_true_iff in E as [E _].
    apply replace_brings; [reflexivity|reflexivity|exact E].
  - apply andb_false_iff in E as [E|E]; [now left|right].
    now apply negb_false_iff in E.
Qed.

Lemma secureRoute_cors (content : string) :
  includes (secureRoute content) "cors" = true.
Proof.
  unfold secureRoute.
  apply (use_brings "cors" ("import cors from " ++ dq ++ "cors" ++ dq ++ ";" ++ nl));
    reflexivity.
Qed.

Lemma secureRoute_validated (content : string) :
  includes (secureRoute content) "req.body" = false
  \/ includes (secureRoute content) "validate" = true.
Proof.
  unfold secureRoute. destruct (validation_step content) as [H|H]; cbv zeta in H.
  - left.
    apply (use_adds_nothing "cors"
             ("import cors from " ++ dq ++ "cors" ++ dq ++ ";" ++ nl));
      [reflexivity|reflexivity|reflexivity|exact H].
  - right.
    apply (use_keeps "cors" ("import cors from " ++ dq ++ "cors" ++ dq ++ ";" ++ nl));
      [reflexivity|exact H].
Qed.

Lemma secureRoute_twice (content : string) :
  secureRoute (secureRoute content) = secureRoute content.
Proof.
  pose proof (secureRoute_cors content) as Hc.
  pose proof (secureRoute_validated content) as Hv.
  set (secured := secureRoute content) in *.
  unfold secureRoute.
  assert (E : includes secured "req.body" && negb (includes secured "validate") = false).
  { destruct Hv as [H|H]; rewrite H; [reflexivity|apply andb_false_r]. }
  rewrite E. cbv zeta. now rewrite Hc.
Qed.

(** X17.  [optimizeSecurity] changes nothing when it is applied a second
    time, and after it every route mentions [cors], and mentions [validate]
    if it mentions [req.body]. *)
Theorem optimizeSecurity_is_idempotent (code : GeneratedCode) :
  optimizeSecurity (optimizeSecurity code) = optimizeSecurity code
  /\ Forall (fun content =>
               includes content "cors" = true
               /\ (includes content "req.body" = true ->
                   includes content "validate" = true))
            (values (routes (backend (optimizeSecurity code)))).
Proof.
  split.
  - unfold optimizeSecurity, with_routes. simpl.
    now rewrite (update_each_twice (fun _ => secureRoute) _
                   (fun _ => secureRoute_twice)).
  - unfold optimizeSecurity, with_routes, values, update_each. simpl.
    rewrite map_map. apply Forall_forall. intros content Hin.
    apply in_map_iff in Hin as ([k v] & <- & _). simpl.
    split; [apply secureRoute_cors|].
    intros H. destruct (secureRoute_validated v) as [N|V]; [congruence|exact V].
Qed.

Lemma cache_control_step (content : string) :
  let content' :=
    if includes content "res.json" && negb (includes content "Cache-Control")
    then replace content "res.json("
           ("res.set(" ++ dq ++ "Cache-Control" ++ dq ++ ", " ++ dq
              ++ "public, max-age=300" ++ dq ++ ");" ++ nl ++ "    res.json(")
    else content in
  includes content' "Cache-Control" = true \/ includes content' "res.json(" = false.
Proof.
  cbv zeta.
  destruct (includes content "res.json" && negb (includes content "Cache-Control")) eqn:E.
  - destruct (includes content "res.json(") eqn:Ej.
    + left. apply replace_brings; [reflexivity|reflexivity|exact Ej].
    + right. now rewrite replace_absent.
  - apply andb_false_iff in E as [E|E].
    + right. destruct (includes content "res.json(") eqn:Ej; [|reflexivity].
      rewrite <- E. symmetry. apply (includes_trans _ _ _ Ej). reflexivity.
    + left. now apply negb_false_iff in E.
Qed.

Lemma optimizeRoute_facts (content : string) :
  (includes (optimizeRoute content) "Cache-Control" = true
   \/ includes (optimizeRoute content) "res.json(" = false)
  /\ includes (optimizeRoute content) "compression" = true
  /\ includes (optimizeRoute content) "rateLimit" = true.
Proof.
  unfold optimizeRoute.
  pose (compress := "import compression from " ++ dq ++ "compression" ++ dq ++ ";" ++ nl).
  pose (limit := "import rateLimit from " ++ dq ++ "express-rate-limit" ++ dq ++ ";" ++ nl).
  split; [|split].
  - destruct (cache_control_step content) as [H|H]; cbv zeta in H.
    + left. apply (use_keeps "rateLimit" limit); [reflexivity|].
      apply (use_keeps "compression" compress); [reflexivity|exact H].
    + right.
      apply (use_adds_nothing "rateLimit" limit);
        [reflexivity|reflexivity|reflexivity|].
      apply (use_adds_nothing "compression" compress);
        [reflexivity|reflexivity|reflexivity|exact H].
  - apply (use_keeps "rateLimit" limit); [reflexivity|].
    apply (use_brings "compression" compress); reflexivity.
  - apply (use_brings "rateLimit" limit); reflexivity.
Qed.

Lemma optimizeRoute_twice (content : string) :
  optimizeRoute (optimizeRoute content) = optimizeRoute content.
Proof.
  destruct (optimizeRoute_facts content) as (Hc & Hz & Hr).
  set (optimized := optimizeRoute content) in *.
  unfold optimizeRoute.
  match goal with
  | |- context [if ?c then replace optimized "res.json(" ?t else optimized] =>
      assert (E : (if c then replace optimized "res.json(" t else optimized) = optimized)
  end.
  { destruct Hc as [H|H]; [rewrite H, andb_false_r; reflexivity|].
    rewrite (replace_absent _ _ _ H). now destruct (_ && _). }
  rewrite E. cbv zeta. rewrite Hz. cbn [negb]. now rewrite Hr.
Qed.

(** X18.  On the routes, [optimizePerformance] changes nothing when it is
    applied a second time, and after it every route mentions [compression]
    and [rateLimit]. *)
Theorem optimizePerformance_is_idempotent_on_routes (code : GeneratedCode) :
  routes (backend (optimizePerformance (optimizePerformance code)))
  = routes (backend (optimizePerformance code))
  /\ Forall (fun content =>
               includes content "compression" = true
               /\ includes content "rateLimit" = true)
            (values (routes (backend (optimizePerformance code)))).
Proof.
  split.
  - unfold optimizePerformance. simpl.
    now rewrite (update_each_twice (fun _ => optimizeRoute) _
                   (fun _ => optimizeRoute_twice)).
  - unfold optimizePerformance, values, update_each. simpl.
    rewrite map_map. apply Forall_forall. intros content Hin.
    apply in_map_iff in Hin as ([k v] & <- & _). simpl.
    destruct (optimizeRoute_facts v) as (_ & Hz & Hr). now split.
Qed.

End Passes.

(** ** Linting, tests and imports *)

Module Linting.
Import JS Text OptimizerAgent Border Substrings.

Lemma includes_nil (s : string) : includes s "" = true.
Proof. destruct s; reflexivity. Qed.

Lemma includes_cons (c : ascii) (s sub : string) :
  includes s sub = true -> includes (String c s) sub = true.
Proof. apply (includes_append_r (String c "")). Qed.

Lemma prefix_includes (p s : string) : prefix p s = true -> includes s p = true.
Proof. intros H. destruct s; cbn [includes]; now rewrite H. Qed.

(** The first piece of a split begins the text, and every piece stands in
    the text. *)
Lemma split_first (s : string) (sep : ascii) :
  match split s sep with
  | [] => True
  | first :: rest =>
      prefix first s = true /\ Forall (fun x => includes s x = true) rest
  end.
Proof.
  induction s as [|c s IH]; cbn [split]; [split; [reflexivity|constructor]|].
  destruct (Ascii.eqb c sep).
  - split; [reflexivity|]. destruct (split s sep) as [|y r]; [constructor|].
    destruct IH as [Hy Hr]. constructor.
    + now apply includes_cons, prefix_includes.
    + eapply Forall_impl; [|exact Hr]. intros x. apply includes_cons.
  - destruct (split s sep) as [|y r]; [split; [|constructor]|].
    + simpl. destruct (Ascii.ascii_dec c c); [apply prefix_nil|contradiction].
    + destruct IH as [Hy Hr]. split.
      * simpl. destruct (Ascii.ascii_dec c c); [exact Hy|contradiction].
      * eapply Forall_impl; [|exact Hr]. intros x. apply includes_cons.
Qed.

Lemma split_within (s : string) (sep : ascii) :
  Forall (fun x => includes s x = true) (split s sep).
Proof.
  pose proof (split_first s sep) as H.
  destruct (split s sep) as [|y r]; [constructor|].
  destruct H as [Hy Hr]. constructor; [now apply prefix_includes|exact Hr].
Qed.

Lemma trimStart_suffix (s : string) : exists p, s = p ++ trimStart s.
Proof.
  induction s as [|c s [p IH]]; [now exists ""|]. simpl.
  destruct (is_ws c); [|now exists ""].
  exists (String c p). simpl. now rewrite <- IH.
Qed.

Lemma trimEnd_prefix (s : string) : exists q, s = trimEnd s ++ q.
Proof.
  induction s as [|c s [q IH]]; [now exists ""|]. simpl.
  destruct (trimEnd s) as [|d r].
  - destruct (is_ws c); [now exists (String c s)|].
    exists s. reflexivity.
  - exists q. simpl in *. now rewrite <- IH.
Qed.

Lemma trim_within (s : string) : includes s (trim s) = true.
Proof.
  unfold trim. destruct (trimStart_suffix s) as [p Hp].
  destruct (trimEnd_prefix (trimStart s)) as [q Hq].
  apply includes_spec. exists p, q. now rewrite <- Hq.
Qed.

Lemma import_match_here_within (s g : string) :
  import_match_here s = Some g -> includes s g = true.
Proof.
  unfold import_match_here. destruct (prefix "import" s); [|discriminate].
  destruct (drop_suffix 6 s) as [p1 H1].
  destruct (trimStart_suffix (drop 6 s)) as [p2 H2].
  destruct (trimStart (drop 6 s)) as [|b r]; [discriminate|].
  destruct b as [[] [] [] [] [] [] [] []]; try discriminate.
  destruct (span (fun c0 => negb (Ascii.eqb c0 "}"%char)) r) as [x y] eqn:Hs.
  apply span_append in Hs.
  destruct x as [|x0 x]; [discriminate|].
  destruct y as [|y0 y]; [discriminate|].
  destruct y0 as [[] [] [] [] [] [] [] []]; try discriminate.
  destruct (prefix "from" (trimStart y)); [|discriminate].
  intros H. injection H as <-.
  apply includes_spec. exists (p1 ++ p2 ++ "{"), (String "}" y).
  rewrite H1 at 1. rewrite H2, Hs, !append_assoc. reflexivity.
Qed.

Lemma import_match_within (s g : string) :
  import_match s = Some g -> includes s g = true.
Proof.
  induction s as [|c s IH]; intros H.
  - discriminate H.
  - unfold import_match in H; fold import_match in H.
    destruct (import_match_here (String c s)) as [g'|] eqn:E.
    + injection H as <-. now apply import_match_here_within.
    + now apply includes_cons, IH.
Qed.

(** Every name that a line imports stands in the line. *)
Lemma import_names_within (line g imp : string) :
  import_match line = Some g -> In imp (import_names g) -> includes line imp = true.
Proof.
  intros Hm Hin. unfold import_names in Hin.
  apply in_map_iff in Hin as (x & <- & Hx).
  pose proof (split_within g ","%char) as Hs. rewrite Forall_forall in Hs.
  apply (includes_trans _ g); [now apply import_match_within|].
  apply (includes_trans _ x); [now apply Hs|apply trim_within].
Qed.

Lemma flat_map_nil {A B : Type} (f : A -> list B) (l : list A) :
  (forall x, In x l -> f x = []) -> flat_map f l = [].
Proof.
  induction l as [|x l IH]; intros H; [reflexivity|]. simpl.
  rewrite (H x) by now left. apply IH. intros y Hy. apply H. now right.
Qed.

Lemma lint_line_kinds (content : string) (lineNumber : nat) (l : string) (e : LintError) :
  includes content l = true ->
  In e (lint_line content lineNumber l) ->
  line e = lineNumber
  /\ (message e = "Remove console.log statements in production code"
      \/ message e = "Address TODO/FIXME comments").
Proof.
  intros Hl. unfold lint_line. rewrite !in_app_iff. intros [H|[H|H]].
  - destruct (includes l "console.log"); [|contradiction].
    destruct H as [<-|[]]. split; [reflexivity|now left].
  - destruct (includes l "TODO" || includes l "FIXME"); [|contradiction].
    destruct H as [<-|[]]. split; [reflexivity|now right].
  - exfalso. destruct (includes l "import" && includes l "{" && includes l "}");
      [|contradiction].
    destruct (import_match l) as [g|] eqn:Hm; [|contradiction].
    rewrite flat_map_nil in H; [contradiction|].
    intros imp Himp.
    rewrite (includes_trans content l imp Hl (import_names_within l g imp Hm Himp)).
    reflexivity.
Qed.

Lemma lint_lines_kinds (content : string) (lineNumber : nat) (ls : list string)
    (e : LintError) :
  Forall (fun l => includes content l = true) ls ->
  In e (lint_lines content lineNumber ls) ->
  lineNumber <= line e < lineNumber + List.length ls
  /\ (message e = "Remove console.log statements in production code"
      \/ message e = "Address TODO/FIXME comments").
Proof.
  revert lineNumber. induction ls as [|l rest IH]; intros lineNumber Hf H;
    [contradiction|].
  inversion Hf as [|? ? Hl Hrest]; subst. cbn [lint_lines] in H.
  apply in_app_iff in H as [H|H].
  - destruct (lint_line_kinds content lineNumber l e Hl H) as [-> Hk].
    split; [simpl; lia|exact Hk].
  - destruct (IH (S lineNumber) Hrest H) as [Hn Hk]. split; [simpl; lia|exact Hk].
Qed.

(** X19.  [lintFile] reports a [console.log] or a [TODO/FIXME] comment only,
    never an unused import, since every name that a line imports stands in
    the content; the line of a report is between 1 and the number of lines. *)
Theorem lintFile_never_reports_an_unused_import
    (filename content : string) (e : LintError) :
  In e (errors (lintFile filename content)) ->
  1 <= line e <= List.length (split content nl_char)
  /\ (message e = "Remove console.log statements in production code"
      \/ message e = "Address TODO/FIXME comments").
Proof.
  unfold lintFile. cbn [errors]. intros H.
  destruct (lint_lines_kinds content 1 (split content nl_char) e
              (split_within content nl_char) H) as [Hn Hk].
  split; [lia|exact Hk].
Qed.

Lemma lintFile_of_a_logging_line :
  1 <= line Texts.logging_report <= List.length (split Texts.logging nl_char)
  /\ (message Texts.logging_report = "Remove console.log statements in production code"
      \/ message Texts.logging_report = "Address TODO/FIXME comments").
Proof.
  apply (lintFile_never_reports_an_unused_import "log.ts" Texts.logging).
  vm_compute. left. reflexivity.
Defined.

Lemma index_from_absent (i : Z) (s sub : string) :
  includes s sub = false -> index_from i s sub = (-1)%Z.
Proof.
  revert i. induction s as [|c s IH]; intros i; cbn [includes index_from]; intros H;
    apply orb_false_iff in H as [Hp Hs]; rewrite Hp; [reflexivity|now apply IH].
Qed.

(** X20.  For a line that holds [FIXME] and no [TODO], the column that
    [lintFile] reports is -1. *)
Theorem lint_line_gives_no_column_for_fixme
    (content : string) (lineNumber : nat) (l : string) :
  includes l "TODO" = false -> includes l "FIXME" = true ->
  In (Texts.comment_report lineNumber (-1)) (lint_line content lineNumber l).
Proof.
  intros Ht Hf. unfold lint_line. apply in_or_app. right. apply in_or_app. left.
  rewrite Ht, Hf. cbn [orb]. unfold indexOf. rewrite (index_from_absent 0 l "TODO" Ht).
  left. reflexivity.
Qed.

Lemma lint_line_of_a_fixme :
  In (Texts.comment_report 7 (-1)) (lint_line "// FIXME: later" 7 "// FIXME: later").
Proof.
  apply (lint_line_gives_no_column_for_fixme "// FIXME: later" 7 "// FIXME: later");
    reflexivity.
Defined.

(** *** Imports *)

Lemma no_star (s : string) :
  all_chars (fun c => negb (Ascii.eqb c "*"%char)) s = true -> includes s "*" = false.
Proof.
  intros H. destruct (includes s "*") eqn:E; [|reflexivity].
  apply includes_spec in E as (a & b & ->).
  rewrite NoBlankLines.all_chars_app in H. apply andb_true_iff in H as [_ H].
  discriminate H.
Qed.

Lemma import_names_nonempty (g : string) : import_names g <> [].
Proof.
  unfold import_names. pose proof (Keywords.split_nonempty g ","%char) as H.
  destruct (split g ","%char); [contradiction|discriminate].
Qed.

Lemma rewrite_import_line_keeps (content : string) (ls : list string) (l : string) :
  includes content "*" = false ->
  includes content l = true -> In l ls ->
  rewrite_import_line (used_imports content ls) l = l.
Proof.
  intros Hstar Hl Hin. unfold rewrite_import_line.
  destruct (import_match l) as [g|] eqn:Hm; [|reflexivity].
  assert (E : filter (has (used_imports content ls)) (import_names g) = import_names g).
  { apply forallb_filter_id, forallb_forall. intros imp Himp.
    unfold has. apply existsb_exists. exists imp. split; [|apply String.eqb_refl].
    unfold used_imports. apply in_flat_map. exists l. split; [exact Hin|].
    rewrite Hm. apply filter_In. split; [exact Himp|].
    pose proof (includes_trans content l imp Hl (import_names_within l g imp Hm Himp))
      as Hc.
    rewrite Hc. cbn [andb]. apply negb_true_iff.
    destruct (includes imp "*") eqn:Es; [|reflexivity].
    rewrite <- Hstar. symmetry. exact (includes_trans content imp "*" Hc Es). }
  rewrite E. pose proof (import_names_nonempty g) as Hne.
  destruct (import_names g) as [|x r]; [contradiction|].
  cbn [List.length Nat.eqb]. now rewrite Nat.ltb_irrefl.
Qed.

(** X21.  On a content without [*], [removeUnusedImports] removes no import:
    every name that a line imports stands in the content, in that line at
    least, and so counts as used.  Only the blank lines go. *)
Theorem removeUnusedImports_removes_blank_lines_only (content : string) :
  all_chars (fun c => negb (Ascii.eqb c "*"%char)) content = true ->
  removeUnusedImports content = join (filter not_blank (split content nl_char)) nl.
Proof.
  intros H. apply no_star in H. unfold removeUnusedImports. do 2 f_equal.
  rewrite <- (map_id (split content nl_char)) at 3. apply map_ext_in.
  intros l Hl. apply rewrite_import_line_keeps; [exact H| |exact Hl].
  pose proof (split_within content nl_char) as Hw. rewrite Forall_forall in Hw.
  now apply Hw.
Qed.

Lemma removeUnusedImports_of_a_call :
  removeUnusedImports Texts.calling
  = join (filter not_blank (split Texts.calling nl_char)) nl.
Proof.
  apply (removeUnusedImports_removes_blank_lines_only Texts.calling). reflexivity.
Defined.

(** *** Tests *)

Lemma test_if_passed (b : bool) (name : string) :
  forallb test_passed (test_if b name) = true.
Proof. destruct b; reflexivity. Qed.

Lemma generateRealTests_passed (componentName content : string) :
  forallb test_passed (generateRealTests componentName content) = true.
Proof.
  unfold generateRealTests. rewrite !forallb_app, !test_if_passed. reflexivity.
Qed.

Lemma generateAPIRealTests_passed (routeName content : string) :
  forallb test_passed (generateAPIRealTests routeName content) = true.
Proof.
  unfold generateAPIRealTests. rewrite !forallb_app, !test_if_passed. reflexivity.
Qed.

Lemma calculateCoverage_values (content : string) :
  In (calculateCoverage content) [60; 70; 80; 90; 95]%Z.
Proof.
  unfold calculateCoverage.
  destruct (includes content "test" || includes content "spec");
    destruct (includes content "try" || includes content "catch"
              || includes content "error");
    destruct (includes content "validate" || includes content "check");
    vm_compute; tauto.
Qed.

Lemma extractTestIssues_passed (testResults : list TestResult) :
  Forall (fun r => passed r = true) testResults ->
  extractTestIssues testResults
  = map low_coverage_issue (filter (fun r => (coverage r <? 80)%Z) testResults).
Proof.
  unfold extractTestIssues. induction 1 as [|r rest Hr Hrest IH]; [reflexivity|].
  cbn [flat_map filter]. rewrite IH. unfold test_issues. rewrite Hr. cbn [negb app].
  destruct (coverage r <? 80)%Z; reflexivity.
Qed.

Lemma runTests_facts (code : GeneratedCode) :
  Forall (fun r => passed r = true /\ In (coverage r) [60; 70; 80; 90; 95]%Z)
         (runTests code).
Proof.
  unfold runTests. apply Forall_app. split; apply Forall_forall; intros r Hr;
    apply in_map_iff in Hr as ([k v] & <- & _); cbn [passed coverage fst snd
      generateComponentTest generateAPITest].
  - split; [apply generateRealTests_passed|apply calculateCoverage_values].
  - split; [apply generateAPIRealTests_passed|apply calculateCoverage_values].
Qed.

(** X22.  Every test that [runTests] generates passes, and the coverage of a
    file is 60, 70, 80, 90 or 95: the issues drawn from the tests are the
    low coverages, below 80, and never a failed test. *)
Theorem runTests_reports_low_coverage_only (code : GeneratedCode) :
  Forall (fun r => passed r = true /\ In (coverage r) [60; 70; 80; 90; 95]%Z)
         (runTests code)
  /\ extractTestIssues (runTests code)
     = map low_coverage_issue
           (filter (fun r => (coverage r <? 80)%Z) (runTests code)).
Proof.
  split; [apply runTests_facts|]. apply extractTestIssues_passed.
  eapply Forall_impl; [|apply runTests_facts]. now intros r [Hp _].
Qed.

Lemma lint_dict_kinds (d : dict) (r : LintResult) (e : LintError) :
  In r (lint_dict d) -> In e (errors r) ->
  message e = "Remove console.log statements in production code"
  \/ message e = "Address TODO/FIXME comments".
Proof.
  unfold lint_dict. intros Hr He. apply filter_In in Hr as [Hr _].
  apply in_map_iff in Hr as ([k v] & <- & _). cbn [fst snd lintFile errors] in He.
  now destruct (lint_lines_kinds v 1 (split v nl_char) e (split_within v nl_char) He).
Qed.

(** X23.  Every issue in the result of [OptimizerAgent.optimizeCode] tells
    of a [console.log], of a [TODO/FIXME] comment or of a coverage below 80. *)
Theorem optimizeCode_issues_are_of_three_kinds (code : GeneratedCode) :
  Forall (fun issue =>
            (exists file e,
               issue = lint_issue file e
               /\ (message e = "Remove console.log statements in production code"
                   \/ message e = "Address TODO/FIXME comments"))
            \/ (exists r, issue = low_coverage_issue r /\ (coverage r < 80)%Z))
         (issues (optimizeCode code)).
Proof.
  unfold optimizeCode. cbn [issues]. apply Forall_app. split.
  - apply Forall_forall. intros issue H. left.
    unfold extractLintIssues in H. apply in_flat_map in H as (r & Hr & H).
    apply in_map_iff in H as (e & <- & He). exists (lint_file r), e.
    split; [reflexivity|]. unfold runLinting in Hr.
    apply in_app_iff in Hr as [Hr|Hr]; [|apply in_app_iff in Hr as [Hr|Hr]];
      eapply lint_dict_kinds; eassumption.
  - rewrite extractTestIssues_passed
      by (eapply Forall_impl; [|apply runTests_facts]; now intros r [Hp _]).
    apply Forall_forall. intros issue H. right.
    apply in_map_iff in H as (r & <- & Hr). apply filter_In in Hr as [_ Hr].
    exists r. split; [reflexivity|now apply Z.ltb_lt].
Qed.

End Linting.

(** ** Deployments and the whole run *)

Module Deployments.
Import JS DeployAgent Substrings.

Lemma rethrow_normal {A : Type} (what : string) (r : result A) (a : A) :
  rethrow what r = Normal a -> r = Normal a.
Proof. destruct r; [trivial|discriminate]. Qed.

Lemma deployToVercel_url agent w code config u :
  deployToVercel agent w code config = Normal u -> u <> "".
Proof.
  unfold deployToVercel. destruct (negb (present (vercelToken agent))); [discriminate|].
  intros H. apply rethrow_normal in H.
  destruct (vercel_create w code config) as [created|e]; [|discriminate H].
  injection H as <-. apply Planning.or_string_nonempty. discriminate.
Qed.

Lemma deployToNetlify_url agent w code config u :
  deployToNetlify agent w code config = Normal u -> u <> "".
Proof.
  unfold deployToNetlify. destruct (negb (present (netlifyToken agent))); [discriminate|].
  destruct (rethrow "Netlify deployment" (netlify_stage w code config)) as [[]|e];
    [|discriminate].
  cbn [bind]. destruct (netlify_archive w) as [[]|e]; [|discriminate].
  cbn [bind]. intros H. apply rethrow_normal in H.
  destruct (netlify_create w) as [created|e]; [|discriminate H].
  injection H as <-. apply Planning.or_string_nonempty. discriminate.
Qed.

Lemma deployToRailway_url w code config u :
  deployToRailway w code config = Normal u -> u <> "".
Proof.
  unfold deployToRailway. destruct (negb (present (RAILWAY_TOKEN w))); [discriminate|].
  intros H. apply rethrow_normal in H.
  destruct (railway_create w code config) as [deploymentId|e]; [|discriminate H].
  injection H as <-. discriminate.
Qed.

Lemma deployToAWS_url w code config u :
  deployToAWS w code config = Normal u ->
  u = "https://" ++ ("voxlor-app-" ++ now w) ++ ".s3-website-"
        ++ or_string (AWS_REGION w) "us-east-1" ++ ".amazonaws.com".
Proof.
  unfold deployToAWS.
  destruct (negb (present (AWS_ACCESS_KEY_ID w))
            || negb (present (AWS_SECRET_ACCESS_KEY w))); [discriminate|].
  intros H. apply rethrow_normal in H.
  destruct (aws_publish w ("voxlor-app-" ++ now w) code config) as [[]|e];
    [|discriminate H].
  injection H as <-. reflexivity.
Qed.

Lemma same_url (bucketName region : string) :
  "https://" ++ bucketName ++ ".s3-website-us-east-1.amazonaws.com"
  = "https://" ++ bucketName ++ ".s3-website-" ++ region ++ ".amazonaws.com" ->
  region = "us-east-1".
Proof.
  intros E. do 2 apply append_inv_head in E.
  change ".s3-website-us-east-1.amazonaws.com"
    with (".s3-website-" ++ "us-east-1" ++ ".amazonaws.com") in E.
  apply append_inv_head, append_inv_tail in E. now symmetry.
Qed.

(** X24.  [deployApp] never throws and never gives a deployment id.  Its
    result reports a success, with a URL that is not empty, one log line and
    no error, or a failure, with no URL, no log line and one error. *)
Theorem deployApp_gives_a_url_or_one_error
    (agent : t) (w : World) (code : GeneratedCode) (config : Config.t) :
  exists r,
    deployApp agent w code config = Normal r
    /\ DeploymentResult.deploymentId r = None
    /\ ((DeploymentResult.success r = true
         /\ (exists u, DeploymentResult.url r = Some u /\ u <> "")
         /\ DeploymentResult.logs r
            = ["Successfully deployed to " ++ Config.platform config]
         /\ DeploymentResult.errors r = [])
        \/ (DeploymentResult.success r = false
            /\ DeploymentResult.url r = None
            /\ DeploymentResult.logs r = []
            /\ exists message, DeploymentResult.errors r = [message])).
Proof.
  unfold deployApp.
  match goal with
  | |- context [match ?a with Normal _ => _ | Throw _ => _ end] =>
      destruct a as [u|e] eqn:E
  end.
  - eexists. split; [reflexivity|]. split; [reflexivity|]. left. cbn.
    split; [reflexivity|]. split; [|split; reflexivity].
    exists u. split; [reflexivity|].
    destruct (Config.platform config =? "vercel")%string;
      [eapply deployToVercel_url, E|].
    destruct (Config.platform config =? "netlify")%string;
      [eapply deployToNetlify_url, E|].
    destruct (Config.platform config =? "railway")%string;
      [eapply deployToRailway_url, E|].
    destruct (Config.platform config =? "aws")%string; [|discriminate E].
    rewrite (deployToAWS_url _ _ _ _ E). discriminate.
  - eexists. split; [reflexivity|]. split; [reflexivity|]. right. cbn.
    repeat split. now exists (error_message e).
Qed.

(** X25.  The URL that [checkDeploymentStatus] gives for a bucket is the
    URL that the deployment to AWS gave, if and only if the region of the
    deployment, [AWS_REGION] or its default, is [us-east-1]. *)
Theorem aws_status_url_is_of_us_east_1
    (agent : t) (w : World) (code : GeneratedCode) (config : Config.t) (u : string) :
  deployToAWS w code config = Normal u ->
  exists st,
    checkDeploymentStatus agent w ("voxlor-app-" ++ now w) "aws" = Normal st
    /\ (Status.url st = Some u <-> or_string (AWS_REGION w) "us-east-1" = "us-east-1").
Proof.
  intros H. apply deployToAWS_url in H. eexists. split; [reflexivity|].
  cbn [Status.url]. rewrite H. split.
  - intros E. apply (same_url ("voxlor-app-" ++ now w)).
    apply (f_equal (fun o => match o with Some x => x | None => "" end)) in E.
    exact E.
  - intros ->. reflexivity.
Qed.

Lemma aws_status_url_in_frankfurt :
  exists st,
    checkDeploymentStatus without_tokens Amended.frankfurt
      ("voxlor-app-" ++ now Amended.frankfurt) "aws" = Normal st
    /\ (Status.url st
          = Some "https://voxlor-app-1700000000000.s3-website-eu-central-1.amazonaws.com"
        <-> or_string (AWS_REGION Amended.frankfurt) "us-east-1" = "us-east-1").
Proof.
  apply (aws_status_url_is_of_us_east_1 without_tokens Amended.frankfurt
           Worlds.fallback_code Amended.on_aws).
  reflexivity.
Defined.

Lemma unsupported (platform : string) :
  ~ In platform Shape.supported ->
  (platform =? "vercel")%string = false
  /\ (platform =? "netlify")%string = false
  /\ (platform =? "railway")%string = false
  /\ (platform =? "aws")%string = false.
Proof.
  unfold Shape.supported. intros H.
  repeat split; apply String.eqb_neq; intros ->; apply H; simpl; tauto.
Qed.

(** X26.  For a platform other than [vercel], [netlify], [railway] and
    [aws], [deployApp] reports the one error [Unsupported platform], and for
    every deployment [checkDeploymentStatus] gives the status [error] with
    that message and [rollbackDeployment] gives [false]. *)
Theorem unsupported_platform_is_reported
    (agent : t) (w : World) (code : GeneratedCode) (config : Config.t) :
  ~ In (Config.platform config) Shape.supported ->
  deployApp agent w code config
  = Normal {| DeploymentResult.success := false;
              DeploymentResult.url := None;
              DeploymentResult.deploymentId := None;
              DeploymentResult.logs := [];
              DeploymentResult.errors :=
                ["Unsupported platform: " ++ Config.platform config] |}
  /\ forall deploymentId,
       checkDeploymentStatus agent w deploymentId (Config.platform config)
       = Normal {| Status.status := Status.error;
                   Status.url := None;
                   Status.logs := ["Status check failed: Unsupported platform: "
                                     ++ Config.platform config] |}
       /\ rollbackDeployment agent w deploymentId (Config.platform config)
          = Normal false.
Proof.
  intros H. destruct (unsupported _ H) as (Hv & Hn & Hr & Ha).
  split; [|intros deploymentId; split].
  - unfold deployApp. now rewrite Hv, Hn, Hr, Ha.
  - unfold checkDeploymentStatus, platform_status. now rewrite Hv, Hn, Hr, Ha.
  - unfold rollbackDeployment, platform_rollback. now rewrite Hv, Hn, Hr, Ha.
Qed.

Lemma heroku_is_reported :
  deployApp without_tokens Worlds.offline Worlds.fallback_code Amended.on_heroku
  = Normal {| DeploymentResult.success := false;
              DeploymentResult.url := None;
              DeploymentResult.deploymentId := None;
              DeploymentResult.logs := [];
              DeploymentResult.errors := ["Unsupported platform: heroku"] |}
  /\ forall deploymentId,
       checkDeploymentStatus without_tokens Worlds.offline deploymentId "heroku"
       = Normal {| Status.status := Status.error;
                   Status.url := None;
                   Status.logs := ["Status check failed: Unsupported platform: heroku"] |}
       /\ rollbackDeployment without_tokens Worlds.offline deploymentId "heroku"
          = Normal false.
Proof.
  apply (unsupported_platform_is_reported without_tokens Worlds.offline
           Worlds.fallback_code Amended.on_heroku).
  unfold Shape.supported. simpl. intros [H|[H|[H|[H|[]]]]]; discriminate H.
Defined.

End Deployments.

Module WholeRun.
Import VoxlorOrchestrator.

(** X27.  [generateApp] never gives a deployment URL, since its deploy agent
    has no token, and it always gives one error.  The run ends in one of
    three ways.  The research throws: the result has the message of the
    exception as its error and in its one log line, and nothing else.  The
    research and the plan return and the code generation throws: the result
    has the research, the message as its error, and the log lines of the two
    stages before the line of the error.  The research, the plan and the
    code generation return: the result reports a success with the error
    [Deployment failed], the research, the optimization, the code as the
    optimizer has left it, and five log lines.  The plan never throws. *)
Theorem generateApp_never_gives_a_deployment_url (w : World) (request : Request.t) :
  deploymentUrl (generateApp w request) = None
  /\ (exists message, errors (generateApp w request) = [message])
  /\ ((exists e,
         ResearchAgent.researchApp w (Request.prompt request) None = Throw e
         /\ generateApp w request
            = {| success := false; appId := "voxlor-" ++ now w;
                 deploymentUrl := None; code := None; research := None;
                 optimization := None;
                 errors := [error_message e];
                 logs := ["❌ Error: " ++ error_message e] |})
      \/ (exists summary plan e,
            ResearchAgent.researchApp w (Request.prompt request) None = Normal summary
            /\ PlannerAgent.planApp w request (Some summary) = Normal plan
            /\ CodeAgent.generateCode w plan = Throw e
            /\ generateApp w request
               = {| success := false; appId := "voxlor-" ++ now w;
                    deploymentUrl := None; code := None; research := Some summary;
                    optimization := None;
                    errors := [error_message e];
                    logs := ["✅ Research completed"; "✅ App structure planned";
                             "❌ Error: " ++ error_message e] |})
      \/ (exists summary plan generated,
            ResearchAgent.researchApp w (Request.prompt request) None = Normal summary
            /\ PlannerAgent.planApp w request (Some summary) = Normal plan
            /\ CodeAgent.generateCode w plan = Normal generated
            /\ generateApp w request
               = {| success := true; appId := "voxlor-" ++ now w;
                    deploymentUrl := None;
                    code := Some (OptimizerAgent.optimizedCode
                                    (OptimizerAgent.optimizeCode generated));
                    research := Some summary;
                    optimization := Some (OptimizerAgent.optimizeCode generated);
                    errors := ["Deployment failed"];
                    logs := ["✅ Research completed"; "✅ App structure planned";
                             "✅ Code generated"; "✅ Code optimized";
                             "❌ Deployment failed"] |})).
Proof.
  unfold generateApp.
  destruct (ResearchAgent.researchApp w (Request.prompt request) None)
    as [summary|e] eqn:Hr.
  2:{ split; [reflexivity|]. split; [now eexists|]. left. now exists e. }
  destruct (Planning.planApp_total w request (Some summary)) as [plan Hp]. rewrite Hp.
  destruct (CodeAgent.generateCode w plan) as [generated|e] eqn:Hc.
  2:{ split; [reflexivity|]. split; [now eexists|]. right. left.
      now exists summary, plan, e. }
  rewrite Run.orchestrator_deployment_fails.
  split; [reflexivity|]. split; [now eexists|]. right. right.
  now exists summary, plan, generated.
Qed.

End WholeRun.

(** ** The object or the array in a response *)

Module Brackets.
Import JS Text Substrings.

Lemma from_first_spec (c : ascii) (s rest : string) :
  from_first c s = Some rest
  <-> exists pre,
        s = pre ++ String c rest
        /\ all_chars (fun d => negb (Ascii.eqb d c)) pre = true.
Proof.
  split.
  - revert rest. induction s as [|d s IH]; intros rest H; [discriminate H|].
    simpl in H. destruct (Ascii.eqb d c) eqn:E.
    + injection H as <-. apply Ascii.eqb_eq in E as ->. now exists "".
    + destruct (IH rest H) as (pre & -> & Hpre). exists (String d pre).
      split; [reflexivity|]. simpl. now rewrite E.
  - intros (pre & -> & Hpre). induction pre as [|d pre IH]; simpl.
    + now rewrite Ascii.eqb_refl.
    + simpl in Hpre. apply andb_true_iff in Hpre as [Hd Hpre].
      apply negb_true_iff in Hd. rewrite Hd. now apply IH.
Qed.

Lemma upto_last_none (c : ascii) (s : string) :
  upto_last c s = None <-> all_chars (fun d => negb (Ascii.eqb d c)) s = true.
Proof.
  induction s as [|d s IH]; simpl; [tauto|].
  destruct (upto_last c s) as [r|].
  - split; [discriminate|]. intros H. apply andb_true_iff in H as [_ H].
    apply IH in H. discriminate H.
  - destruct (Ascii.eqb d c); simpl; [split; discriminate|].
    split; [intros _; now apply IH|reflexivity].
Qed.

Lemma upto_last_spec (c : ascii) (s r : string) :
  upto_last c s = Some r
  <-> exists mid post,
        s = mid ++ String c post
        /\ all_chars (fun d => negb (Ascii.eqb d c)) post = true
        /\ r = mid ++ String c "".
Proof.
  split.
  - revert r. induction s as [|d s IH]; intros r H; [discriminate H|].
    simpl in H. destruct (upto_last c s) as [r'|] eqn:E.
    + injection H as <-. destruct (IH r' eq_refl) as (mid & post & -> & Hpost & ->).
      exists (String d mid), post. repeat split. exact Hpost.
    + destruct (Ascii.eqb d c) eqn:Ed; [|discriminate H].
      injection H as <-. apply Ascii.eqb_eq in Ed as ->.
      exists "", s. repeat split. now apply upto_last_none.
  - intros (mid & post & -> & Hpost & ->). induction mid as [|d mid IH]; simpl.
    + apply upto_last_none in Hpost. rewrite Hpost. now rewrite Ascii.eqb_refl.
    + now rewrite IH.
Qed.

(** X28.  The text that [/\{[\s\S]*\}/] and [/\[[\s\S]*\]/] match in a
    response goes from the first opening bracket to the last closing
    bracket after it, and there is a match exactly when the response holds
    such a pair. *)
Theorem bracket_match_is_first_to_last (open close : ascii) (s m : string) :
  bracket_match open close s = Some m
  <-> exists pre mid post,
        s = pre ++ String open (mid ++ String close post)
        /\ all_chars (fun d => negb (Ascii.eqb d open)) pre = true
        /\ all_chars (fun d => negb (Ascii.eqb d close)) post = true
        /\ m = String open (mid ++ String close "").
Proof.
  unfold bracket_match. split.
  - destruct (from_first open s) as [rest|] eqn:Ef; [|discriminate].
    destruct (upto_last close rest) as [body|] eqn:El; [|discriminate].
    intros H. injection H as <-.
    apply from_first_spec in Ef as (pre & -> & Hpre).
    apply upto_last_spec in El as (mid & post & -> & Hpost & ->).
    now exists pre, mid, post.
  - intros (pre & mid & post & -> & Hpre & Hpost & ->).
    assert (Ef : from_first open (pre ++ String open (mid ++ String close post))
                 = Some (mid ++ String close post))
      by (apply from_first_spec; now exists pre).
    assert (El : upto_last close (mid ++ String close post)
                 = Some (mid ++ String close ""))
      by (apply upto_last_spec; now exists mid, post).
    now rewrite Ef, El.
Qed.

End Brackets.

(** ** The patterns found in a snippet *)

Module PatternFacts.
Import JS Text Patterns.

Lemma code_units_complete (c : ascii) : In c code_units.
Proof.
  unfold code_units. apply in_map_iff. exists (nat_of_ascii c).
  split; [apply ascii_nat_embedding|]. apply in_seq.
  pose proof (nat_ascii_bounded c). lia.
Qed.

Lemma same_case_table :
  forallb (fun a =>
             forallb (fun b =>
                        implb (Ascii.eqb (upper_char a) (upper_char b))
                              (Ascii.eqb (lower_char a) (lower_char b)))
                     code_units)
          code_units = true.
Proof. vm_compute. reflexivity. Qed.

(** Two code units of the same upper case have the same lower case. *)
Lemma same_case (a b : ascii) :
  Ascii.eqb (upper_char a) (upper_char b) = true -> lower_char a = lower_char b.
Proof.
  intros H. pose proof same_case_table as T.
  rewrite forallb_forall in T. specialize (T a (code_units_complete a)).
  rewrite forallb_forall in T. specialize (T b (code_units_complete b)).
  rewrite H in T. now apply Ascii.eqb_eq.
Qed.

Lemma prefix_ci_lower (word s : string) :
  prefix_ci word s = true -> toLowerCase (take (length word) s) = toLowerCase word.
Proof.
  revert s. induction word as [|a word IH]; intros s H; [now destruct s|].
  destruct s as [|b s]; [discriminate H|]. simpl in H.
  apply andb_true_iff in H as [Hc H]. simpl.
  rewrite (IH s H). now rewrite (same_case a b Hc).
Qed.

Lemma matches_from_vocabulary (alternatives : list string) (skip : nat) (s : string) :
  Forall (fun m => In m (map toLowerCase alternatives))
         (map toLowerCase (matches_from alternatives skip s)).
Proof.
  revert skip. induction s as [|c s IH]; intros skip; [constructor|].
  cbn [matches_from]. destruct skip as [|k]; [|apply IH].
  destruct (find (fun word => prefix_ci word (String c s)) alternatives) as [word|] eqn:E;
    [|apply IH].
  apply find_some in E as [Hin Hp]. cbn [map]. constructor; [|apply IH].
  rewrite (prefix_ci_lower word _ Hp). now apply in_map.
Qed.

Lemma extract_spec (patterns : list (list string)) (content : string) :
  List.length (extract patterns content) <= 5
  /\ NoDup (extract patterns content)
  /\ Forall (fun p => In p (vocabulary patterns)) (extract patterns content).
Proof.
  unfold extract. split; [apply firstn_le_length|]. split.
  - apply Enhanced.NoDup_firstn, Similarity.NoDup_distinct.
  - apply Forall_forall. intros p Hp. apply Keywords.In_firstn in Hp.
    rewrite Similarity.In_distinct in Hp. apply in_flat_map in Hp as (alts & Ha & Hp).
    pose proof (matches_from_vocabulary alts 0 content) as Hv.
    rewrite Forall_forall in Hv. specialize (Hv p Hp).
    unfold vocabulary. rewrite concat_map. apply in_concat.
    exists (map toLowerCase alts). split; [now apply in_map|exact Hv].
Qed.

(** X29.  [extractCodePatterns] and [extractUIPatterns] give at most five
    words, all different, each a word of their patterns in lower case,
    however the content spells it. *)
Theorem extracted_patterns_are_words_of_the_patterns (content : string) :
  (List.length (extractCodePatterns content) <= 5
   /\ NoDup (extractCodePatterns content)
   /\ Forall (fun p => In p (vocabulary codePatterns)) (extractCodePatterns content))
  /\ (List.length (extractUIPatterns content) <= 5
      /\ NoDup (extractUIPatterns content)
      /\ Forall (fun p => In p (vocabulary uiPatterns)) (extractUIPatterns content)).
Proof. split; apply extract_spec. Qed.

End PatternFacts.

(** ** The report *)

Module ReportFacts.
Import JS Text OptimizerAgent Report.

Lemma recommendations_one_line (result : OptimizationResult) :
  Forall (fun x => one_line x = true) (recommendations result).
Proof.
  unfold recommendations, advice.
  destruct (performanceScore result <? 80)%Z, (securityScore result <? 80)%Z,
    (maintainabilityScore result <? 80)%Z; repeat constructor.
Qed.

Lemma recommendations_not_empty (result : OptimizationResult) :
  Forall (fun x => x <> "") (recommendations result).
Proof.
  unfold recommendations, advice.
  destruct (performanceScore result <? 80)%Z, (securityScore result <? 80)%Z,
    (maintainabilityScore result <? 80)%Z; repeat constructor; discriminate.
Qed.

Lemma join_empty (ls : list string) :
  Forall (fun x => x <> "") ls -> join ls nl = "" -> ls = [].
Proof.
  destruct 1 as [|x l Hx Hl]; [reflexivity|]. unfold join. simpl.
  destruct l; [intros H; contradiction|].
  destruct x; [contradiction|discriminate].
Qed.

(** X30.  The lines of [generateRecommendations] are its recommendations,
    three for each score below 80, and the text is empty exactly when no
    score is below 80. *)
Theorem generateRecommendations_gives_three_lines_a_low_score
    (result : OptimizationResult) :
  lines (generateRecommendations result) = recommendations result
  /\ List.length (recommendations result) = 3 * List.length (low_scores result)
  /\ (generateRecommendations result = "" <-> low_scores result = []).
Proof.
  assert (Hlen : List.length (recommendations result)
                 = 3 * List.length (low_scores result)).
  { unfold recommendations, low_scores, advice. cbn [filter].
    destruct (performanceScore result <? 80)%Z, (securityScore result <? 80)%Z,
      (maintainabilityScore result <? 80)%Z; reflexivity. }
  assert (Hempty : generateRecommendations result = "" <-> recommendations result = []).
  { split.
    - apply join_empty, recommendations_not_empty.
    - unfold generateRecommendations. now intros ->. }
  split; [|split; [exact Hlen|]].
  - unfold lines. destruct (generateRecommendations result) eqn:E.
    + symmetry. now apply Hempty.
    + rewrite <- E. unfold generateRecommendations.
      apply NoBlankLines.split_join; [|apply recommendations_one_line].
      intros Hn. apply Hempty in Hn. congruence.
  - rewrite Hempty. split; intros H.
    + rewrite H in Hlen. simpl in Hlen. destruct (low_scores result); [reflexivity|].
      simpl in Hlen. lia.
    + rewrite H in Hlen. simpl in Hlen. destruct (recommendations result);
        [reflexivity|discriminate Hlen].
Qed.

End ReportFacts.
